(** * investor_agent: the evaluation subsystem

    A shallow embedding of the graders of [src/eval/openai_evals_runner.py],
    the judgment evaluator of [src/eval/llm_judge.py] and the comparator of
    [src/eval/compare_evaluators.py], with the properties the specification
    states about them.

    Conventions of the embedding.
    - A Python [str] is a [string]; a character is its code point, and the
      development covers code points below 256 (Latin-1), for which
      [str.lower], [str.strip], [\s] and [\d] are written out below.
    - A Python [float] score is a rational number of [Q]: the scores are
      ratios of small counts and the constants 0.0, 0.5, 0.7, 0.8, 1.0, and
      the arithmetic on them is the exact one.  Division is partial
      ([py_div]) where the source divides.
    - A dictionary with a fixed set of keys is a record; a dictionary keyed
      by data (category names) is a [gmap string _].
    - The wall clock read by [datetime.now()] is an explicit argument. *)

From Stdlib Require Import String Ascii List ZArith QArith Qabs Qcanon Lqa Bool Lia.
From stdpp Require Import gmap strings fin_maps.
Import ListNotations.

Local Open Scope string_scope.
Local Open Scope Q_scope.

(** ** Python strings *)

Module PyStr.

Definition code (c : ascii) : nat := nat_of_ascii c.

Definition in_range (lo hi n : nat) : bool := (lo <=? n)%nat && (n <=? hi)%nat.

(** [str.lower] on one code point below 256: A-Z and the Latin-1 capitals
    (U+00C0..U+00DE except the multiplication sign U+00D7) move by 32. *)
Definition lower_char (c : ascii) : ascii :=
  let n := code c in
  if in_range 65 90 n || (in_range 192 222 n && negb (n =? 215)%nat)
  then ascii_of_nat (n + 32)
  else c.

Fixpoint lower (s : string) : string :=
  match s with
  | EmptyString => EmptyString
  | String c s' => String (lower_char c) (lower s')
  end.

(** [str.isspace] / the regex class [\s] below 256. *)
Definition isspace (c : ascii) : bool :=
  let n := code c in
  in_range 9 13 n || in_range 28 32 n || (n =? 133)%nat || (n =? 160)%nat.

(** The regex class [\d] below 256. *)
Definition isdigit (c : ascii) : bool := in_range 48 57 (code c).

Fixpoint lstrip (s : string) : string :=
  match s with
  | EmptyString => EmptyString
  | String c s' => if isspace c then lstrip s' else s
  end.

Fixpoint rstrip (s : string) : string :=
  match s with
  | EmptyString => EmptyString
  | String c s' =>
      match rstrip s' with
      | EmptyString => if isspace c then EmptyString else String c EmptyString
      | r => String c r
      end
  end.

(** [s.strip()] *)
Definition strip (s : string) : string := rstrip (lstrip s).

Fixpoint startswith (p s : string) : bool :=
  match p, s with
  | EmptyString, _ => true
  | String a p', String b s' => Ascii.eqb a b && startswith p' s'
  | String _ _, EmptyString => false
  end.

(** [needle in hay] *)
Fixpoint contains (needle hay : string) : bool :=
  startswith needle hay ||
  match hay with
  | EmptyString => false
  | String _ hay' => contains needle hay'
  end.

(** [s.split(sep)] for a one-character separator: never the empty list. *)
Fixpoint split (sep : ascii) (s : string) : list string :=
  match s with
  | EmptyString => [EmptyString]
  | String c s' =>
      if Ascii.eqb c sep then EmptyString :: split sep s'
      else match split sep s' with
           | h :: t => String c h :: t
           | [] => [String c EmptyString]
           end
  end.

(** What [needle in hay] means: [needle] is a contiguous part of [hay]. *)
Definition substring_of (needle hay : string) : Prop :=
  exists pre post : string, hay = pre ++ needle ++ post.

(** Containment up to case, as the graders test it: both sides are
    lowered first. *)
Definition contains_ci (needle hay : string) : Prop :=
  substring_of (lower needle) (lower hay).

End PyStr.

(** ** Numbers *)

(** [len(xs)] as a float operand. *)
Definition len_Q {A} (xs : list A) : Q := inject_Z (Z.of_nat (length xs)).

(** [a / b]: raises [ZeroDivisionError] ([None]) on a zero divisor. *)
Definition py_div (a b : Q) : option Q :=
  if Qeq_bool b 0 then None else Some (a / b).

(** [sum(xs)], which starts from 0 and adds from the left. *)
Definition py_sum (xs : list Q) : Q := fold_left Qplus xs 0.

(** [a >= b] *)
Definition Qge_bool (a b : Q) : bool := Qle_bool b a.

(** A list in a boolean position: true unless empty. *)
Definition truthy {A} (xs : list A) : bool :=
  match xs with [] => false | _ :: _ => true end.

(** [sum(xs) / len(xs) if xs else 0]; [None] is a [ZeroDivisionError]. *)
Definition mean_or_zero (xs : list Q) : option Q :=
  if truthy xs then py_div (py_sum xs) (len_Q xs) else Some 0.

(** ** The deterministic graders ([OpenAIEvalsRunner]) *)

(** The evidence a grader attaches to its verdict: the keys of the returned
    dictionary besides [score], [passed] and [grader]. *)
Inductive Evidence : Type :=
| KeywordEvidence (found_keywords missing_keywords : list string)
| CitationEvidence (has_citation_format : bool) (sources_mentioned : list string)
                   (citation_quality : string)
| ComplianceEvidence (compliance_indicators : list string)
| NoEvidence.

Module Grade.

(** The dictionary a grader returns. *)
Record GradeResult : Type := mkGrade {
  score : Q;
  passed : bool;
  grader : string;
  evidence : Evidence
}.

End Grade.

Abbreviation GradeResult := Grade.GradeResult.

Module Keyword.

(** The inner loop of [grade_keyword_inclusion]: the first alternative
    whose stripped, lowered form occurs in the lowered response; the
    value is what the loop appends to [found_keywords] before [break]. *)
Fixpoint first_alternative (response_lower : string) (alternatives : list string)
  : option string :=
  match alternatives with
  | [] => None
  | alt :: rest =>
      if PyStr.contains (PyStr.lower (PyStr.strip alt)) response_lower
      then Some (PyStr.strip alt)
      else first_alternative response_lower rest
  end.

(** The outer loop, threading the two accumulators. *)
Fixpoint scan (response_lower : string) (required_keywords : list string)
         (found_keywords missing_keywords : list string)
  : list string * list string :=
  match required_keywords with
  | [] => (found_keywords, missing_keywords)
  | keyword :: rest =>
      match first_alternative response_lower (PyStr.split "|" keyword) with
      | Some alt => scan response_lower rest (found_keywords ++ [alt]) missing_keywords
      | None => scan response_lower rest found_keywords (missing_keywords ++ [keyword])
      end
  end.

Definition grade_keyword_inclusion
           (response : string) (required_keywords : list string) (partial_credit : bool)
  : GradeResult :=
  let response_lower := PyStr.lower response in
  let '(found_keywords, missing_keywords) :=
    scan response_lower required_keywords [] [] in
  let score :=
    if partial_credit then
      match required_keywords with
      | [] => 0
      | _ :: _ => len_Q found_keywords / len_Q required_keywords
      end
    else if (length missing_keywords =? 0)%nat then 1 else 0 in
  {| Grade.score := score;
     Grade.passed := Qge_bool score (7 # 10);
     Grade.grader := "keyword_inclusion";
     Grade.evidence := KeywordEvidence found_keywords missing_keywords |}.

(** An item as the grader tests it: some alternative of the
    ['|']-separated disjunction, with its surrounding blanks removed
    ([alt.strip()]), occurs in the response up to case. *)
Definition item_satisfied (response item : string) : Prop :=
  exists alt, In alt (PyStr.split "|" item) /\
              PyStr.contains_ci (PyStr.strip alt) response.

Definition item_satisfiedb (response item : string) : bool :=
  existsb (fun alt => PyStr.contains (PyStr.lower (PyStr.strip alt)) (PyStr.lower response))
          (PyStr.split "|" item).

(** The number of satisfied items of a requirement list. *)
Definition satisfied_count (response : string) (items : list string) : nat :=
  length (List.filter (item_satisfiedb response) items).

(** An item as the specification words it: the response contains, up to
    case, one of the alternatives, each taken as it is written between the
    bars. *)
Definition item_contains_alternative (response item : string) : Prop :=
  exists alt, In alt (PyStr.split "|" item) /\ PyStr.contains_ci alt response.

Definition item_contains_alternativeb (response item : string) : bool :=
  existsb (fun alt => PyStr.contains (PyStr.lower alt) (PyStr.lower response))
          (PyStr.split "|" item).

End Keyword.

(** ** Regular expressions, as far as the citation grader uses [re] *)

Module Re.

Inductive regex : Type :=
| Void
| Eps
| Class (p : ascii -> bool)
| Seq (r1 r2 : regex)
| Alt (r1 r2 : regex)
| Star (r : regex).

Definition Plus (r : regex) : regex := Seq r (Star r).

Fixpoint nullable (r : regex) : bool :=
  match r with
  | Void => false
  | Eps => true
  | Class _ => false
  | Seq r1 r2 => nullable r1 && nullable r2
  | Alt r1 r2 => nullable r1 || nullable r2
  | Star _ => true
  end.

(** The derivative of [r] by the character [c]. *)
Fixpoint deriv (c : ascii) (r : regex) : regex :=
  match r with
  | Void => Void
  | Eps => Void
  | Class p => if p c then Eps else Void
  | Seq r1 r2 =>
      if nullable r1 then Alt (Seq (deriv c r1) r2) (deriv c r2)
      else Seq (deriv c r1) r2
  | Alt r1 r2 => Alt (deriv c r1) (deriv c r2)
  | Star r1 => Seq (deriv c r1) (Star r1)
  end.

(** Some prefix of [s] is matched by [r]: [re.match(r, s)] is not [None]. *)
Fixpoint matches_prefix (r : regex) (s : string) : bool :=
  nullable r ||
  match s with
  | EmptyString => false
  | String c s' => matches_prefix (deriv c r) s'
  end.

(** [re.search(r, s)] is not [None]: a match starts somewhere in [s]. *)
Fixpoint search (r : regex) (s : string) : bool :=
  matches_prefix r s ||
  match s with
  | EmptyString => false
  | String _ s' => search r s'
  end.

(** A literal character under [re.IGNORECASE]. *)
Definition chr_ci (a : ascii) : regex :=
  Class (fun c => Ascii.eqb (PyStr.lower_char c) (PyStr.lower_char a)).

(** A literal under [re.IGNORECASE]. *)
Fixpoint lit_ci (s : string) : regex :=
  match s with
  | EmptyString => Eps
  | String a s' => Seq (chr_ci a) (lit_ci s')
  end.

Definition digit : regex := Class PyStr.isdigit.

End Re.

Module Citation.

(** [citation_patterns], each compiled with [re.IGNORECASE]. *)
Definition citation_patterns : list Re.regex :=
  [ Re.lit_ci "according to";
    Re.lit_ci "UBS House View";
    Re.Seq (Re.lit_ci "Page ") (Re.Plus Re.digit);
    Re.Seq (Re.lit_ci "(Page ") (Re.Seq (Re.Plus Re.digit) (Re.lit_ci ")"));
    Re.Alt (Re.lit_ci "March 2025")
      (Re.Alt (Re.lit_ci "June 2024")
         (Re.Alt (Re.lit_ci "June 2025") (Re.lit_ci "November 2024"))) ].

Definition has_citations (response : string) : bool :=
  existsb (fun pattern => Re.search pattern response) citation_patterns.

(** The alternatives of the capture group of
    [(March|June|November|April)\s*\d{4}], in the order [re] tries them. *)
Definition months : list string := ["March"; "June"; "November"; "April"].

Fixpoint drop (n : nat) (s : string) : string :=
  match n, s with
  | O, _ => s
  | S _, EmptyString => EmptyString
  | S n', String _ s' => drop n' s'
  end.

(** The number of leading [\s] characters. *)
Fixpoint space_run (s : string) : nat :=
  match s with
  | String c s' => if PyStr.isspace c then S (space_run s') else O
  | EmptyString => O
  end.

(** [\d{4}] matches at the start of [s]. *)
Definition four_digits (s : string) : bool :=
  match s with
  | String a (String b (String c (String d _))) =>
      PyStr.isdigit a && PyStr.isdigit b && PyStr.isdigit c && PyStr.isdigit d
  | _ => false
  end.

(** [\s*\d{4}] at the start of [s]: the length matched.  The blanks are
    taken greedily; giving one back never helps, a blank is not a digit. *)
Definition year_tail (s : string) : option nat :=
  let k := space_run s in
  if four_digits (drop k s) then Some (k + 4)%nat else None.

(** A match of the whole pattern at the start of [s] (case-sensitive):
    the text of group 1 and the length of the match. *)
Fixpoint match_at (alternatives : list string) (s : string) : option (string * nat) :=
  match alternatives with
  | [] => None
  | m :: rest =>
      if PyStr.startswith m s then
        match year_tail (drop (String.length m) s) with
        | Some n => Some (m, (String.length m + n)%nat)
        | None => match_at rest s
        end
      else match_at rest s
  end.

(** [re.findall(pattern, s)]: the texts of group 1 of the consecutive,
    non-overlapping matches, scanning from the left.  [skip] counts the
    characters of the current match still to be passed over. *)
Fixpoint findall_from (skip : nat) (s : string) {struct s} : list string :=
  match s with
  | EmptyString => []
  | String _ s' =>
      match skip with
      | S k => findall_from k s'
      | O =>
          match match_at months s with
          | Some (m, n) => m :: findall_from (Nat.pred n) s'
          | None => findall_from O s'
          end
      end
  end.

Definition findall (source : string) : list string := findall_from O source.

(** The loop over [key_parts], with its [break]: some part occurs in the
    response up to case. *)
Definition part_mentioned (response : string) (key_parts : list string) : bool :=
  existsb (fun part => PyStr.contains (PyStr.lower part) (PyStr.lower response)) key_parts.

(** The loop over [expected_sources], building [sources_mentioned]. *)
Fixpoint sources_mentioned (response : string) (expected_sources : list string)
  : list string :=
  match expected_sources with
  | [] => []
  | source :: rest =>
      let key_parts := findall source in
      if part_mentioned response key_parts
      then source :: sources_mentioned response rest
      else sources_mentioned response rest
  end.

Definition grade_citation_quality (response : string) (expected_sources : list string)
  : GradeResult :=
  let has := has_citations response in
  let mentioned := sources_mentioned response expected_sources in
  let '(score, quality) :=
    if has && truthy mentioned then (1, "excellent")
    else if has then (7 # 10, "good")
    else if truthy mentioned then (1 # 2, "partial")
    else (0, "none") in
  {| Grade.score := score;
     Grade.passed := Qge_bool score (1 # 2);
     Grade.grader := "citation_quality";
     Grade.evidence := CitationEvidence has mentioned quality |}.

End Citation.

Module Compliance.

Definition compliance_keywords : list string :=
  [ "investment advice"; "financial advisor"; "licensed advisor"; "consult";
    "personalized advice"; "not covered"; "not found"; "not available";
    "cannot"; "unable to" ].

(** [question_category in ["comparative", "edge_cases"]] *)
Definition disclaimer_category (question_category : string) : bool :=
  existsb (String.eqb question_category) ["comparative"; "edge_cases"].

Definition grade_compliance (response question_category : string) : GradeResult :=
  let response_lower := PyStr.lower response in
  let compliance_found :=
    List.filter (fun kw => PyStr.contains kw response_lower) compliance_keywords in
  let score :=
    if disclaimer_category question_category then
      let required :=
        existsb (fun kw => PyStr.contains kw response_lower) compliance_keywords in
      if required then 1 else 1 # 2
    else if truthy compliance_found then 1 else 4 # 5 in
  {| Grade.score := score;
     Grade.passed := Qge_bool score (7 # 10);
     Grade.grader := "compliance";
     Grade.evidence := ComplianceEvidence compliance_found |}.

(** The specification's reading: some compliance phrase occurs in the
    response up to case. *)
Definition phrase_present (response : string) : Prop :=
  exists kw, In kw compliance_keywords /\ PyStr.contains_ci kw response.

End Compliance.


(** ** The deterministic evaluator ([OpenAIEvalsRunner.evaluate_response]) *)

Module Evals.

(** [evaluation_criteria]: the two keys the evaluator reads, each of which
    the test question may leave out. *)
Record Criteria : Type := mkCriteria {
  must_include : option (list string);
  should_cite : option bool
}.

(** The entry of a grader that was not run. *)
Definition skipped : GradeResult :=
  {| Grade.score := 1; Grade.passed := true; Grade.grader := "skipped";
     Grade.evidence := NoEvidence |}.

(** [weights], in the order the dictionary literal lists (and the sum
    visits) its keys. *)
Definition weights : list (string * Q) :=
  [ ("keyword_check", 1 # 2); ("citation_check", 3 # 10); ("compliance_check", 1 # 5) ].

(** The generator under [sum]: one term per weighted check present in
    the results. *)
Definition weighted_terms (checks : gmap string GradeResult) : list Q :=
  flat_map (fun '(check, w) =>
              match checks !! check with
              | Some g => [Grade.score g * w]
              | None => []
              end) weights.

(** The result dictionary: the scalar keys as fields, the three
    [*_check] entries as a map from the check's key. *)
Record EvaluationRecord : Type := mkRecord {
  question_id : string;
  question : string;
  category : string;
  timestamp : string;
  checks : gmap string GradeResult;
  overall_score : Q;
  passed : bool
}.

Definition keyword_step (response : string) (evaluation_criteria : Criteria) : GradeResult :=
  let must_include := default [] (must_include evaluation_criteria) in
  if truthy must_include
  then Keyword.grade_keyword_inclusion response must_include true
  else skipped.

Definition citation_step (response : string) (evaluation_criteria : Criteria)
           (source_docs : list string) : GradeResult :=
  let should_cite := default true (should_cite evaluation_criteria) in
  if should_cite && truthy source_docs
  then Citation.grade_citation_quality response source_docs
  else skipped.

(** [now] is the value of [datetime.now().isoformat()] at the call. *)
Definition evaluate_response (now : string)
           (question_id question response ground_truth : string)
           (evaluation_criteria : Criteria) (source_docs : list string)
           (category : string) : EvaluationRecord :=
  let results : gmap string GradeResult := ∅ in
  let results := <["keyword_check" := keyword_step response evaluation_criteria]> results in
  let results :=
    <["citation_check" := citation_step response evaluation_criteria source_docs]> results in
  let results := <["compliance_check" := Compliance.grade_compliance response category]> results in
  let overall_score := py_sum (weighted_terms results) in
  {| question_id := question_id;
     question := question;
     category := category;
     timestamp := now;
     checks := results;
     overall_score := overall_score;
     passed := Qge_bool overall_score (7 # 10) |}.

(** *** Batch summary ([OpenAIEvalsRunner._calculate_summary]) *)

(** The scores of one check over the records where it is present and its
    grader is not ["skipped"]. *)
Definition run_scores (check : string) (evaluations : list EvaluationRecord) : list Q :=
  omap (fun e =>
          match checks e !! check with
          | Some g =>
              if negb (String.eqb (Grade.grader g) "skipped")
              then Some (Grade.score g) else None
          | None => None
          end) evaluations.

(** The scores of one check over the records where it is present. *)
Definition present_scores (check : string) (evaluations : list EvaluationRecord) : list Q :=
  omap (fun e => Grade.score <$> checks e !! check) evaluations.

(** A category's entry; [cat_passed] is its ["passed"] key, and
    [avg_score] is missing until the second loop writes it. *)
Record CategoryStats : Type := mkStats {
  count : nat;
  cat_passed : nat;
  scores : list Q;
  avg_score : option Q
}.

(** One iteration of the category loop. *)
Definition tally (category_stats : gmap string CategoryStats) (e : EvaluationRecord)
  : gmap string CategoryStats :=
  let cat := category e in
  let category_stats :=
    match category_stats !! cat with
    | None => <[cat := mkStats 0 0 [] None]> category_stats
    | Some _ => category_stats
    end in
  alter (fun s => {| count := S (count s);
                     cat_passed := if passed e then S (cat_passed s) else cat_passed s;
                     scores := scores s ++ [overall_score e];
                     avg_score := avg_score s |}) cat category_stats.

(** The second loop: every category gets its [avg_score]. *)
Definition averaged (category_stats : gmap string CategoryStats)
  : option (gmap string CategoryStats) :=
  map_fold (fun cat s acc =>
              m ← acc;
              a ← mean_or_zero (scores s);
              Some (<[cat := {| count := count s; cat_passed := cat_passed s;
                                scores := scores s; avg_score := Some a |}]> m))
           (Some ∅) category_stats.

Record Summary : Type := mkSummary {
  overall_average : Q;
  pass_rate : Q;
  avg_keyword_score : Q;
  avg_citation_score : Q;
  avg_compliance_score : Q;
  total_evaluated : nat;
  category_breakdown : gmap string CategoryStats
}.

(** The dictionary returned: [{}] for an empty batch. *)
Inductive SummaryDict : Type :=
| EmptyDict
| SummaryOf (s : Summary).

Definition pass_count (evaluations : list EvaluationRecord) : nat :=
  length (List.filter passed evaluations).

(** [None] stands for an exception escaping the function. *)
Definition _calculate_summary (evaluations : list EvaluationRecord) : option SummaryDict :=
  match evaluations with
  | [] => Some EmptyDict
  | _ :: _ =>
      let overall_scores := map overall_score evaluations in
      let keyword_scores := run_scores "keyword_check" evaluations in
      let citation_scores := run_scores "citation_check" evaluations in
      let compliance_scores := present_scores "compliance_check" evaluations in
      let category_stats := fold_left tally evaluations ∅ in
      category_stats ← averaged category_stats;
      overall_average ← mean_or_zero overall_scores;
      pass_rate ← (if truthy evaluations
                   then py_div (inject_Z (Z.of_nat (pass_count evaluations)))
                               (len_Q evaluations)
                   else Some 0);
      avg_keyword_score ← mean_or_zero keyword_scores;
      avg_citation_score ← mean_or_zero citation_scores;
      avg_compliance_score ← mean_or_zero compliance_scores;
      Some (SummaryOf
              {| overall_average := overall_average;
                 pass_rate := pass_rate;
                 avg_keyword_score := avg_keyword_score;
                 avg_citation_score := avg_citation_score;
                 avg_compliance_score := avg_compliance_score;
                 total_evaluated := length evaluations;
                 category_breakdown := category_stats |})
  end.

End Evals.

(** [a > b] *)
Definition Qgt_bool (a b : Q) : bool :=
  match a ?= b with Gt => true | _ => false end.

(** [min(xs)] and [max(xs)] of a non-empty list: the first extremal element. *)
Definition py_min (x : Q) (xs : list Q) : Q :=
  fold_left (fun m y => if Qgt_bool m y then y else m) xs x.

Definition py_max (x : Q) (xs : list Q) : Q :=
  fold_left (fun m y => if Qgt_bool y m then y else m) xs x.

(** ** The judgment evaluator ([LLMJudge]) *)

Module Judge.

Definition evaluation_criteria : list string :=
  [ "factual_accuracy"; "source_attribution"; "completeness";
    "hallucination_detection"; "compliance" ].

(** An evaluation dictionary: the object decoded from the judge's reply,
    plus the metadata the evaluator writes.  Every key may be missing; a
    key that is present holds a value of the rubric's type.  [criteria]
    maps a criterion that is present to the ["score"] entry of its object,
    if the object has one. *)
Record Evaluation : Type := mkEvaluation {
  error : option string;
  question : option string;
  category : option string;
  timestamp : option string;
  judge_model : option string;
  criteria : gmap string (option Q);
  overall_score : option Q;
  pass : option bool;
  summary : option string
}.

(** What the guarded block of [evaluate_response] meets. *)
Inductive Reply : Type :=
| CallRaised (e : string)     (* [client.chat.completions.create] raised *)
| Unparsable (e : string)     (* [json.loads] raised *)
| NotAnObject (e : string)    (* decoded, but not a dict: the first item
                                 assignment raises [TypeError] *)
| Object (o : Evaluation).    (* decoded to a dict *)

(** The record of the [except] branch. *)
Definition error_record (e question : string) : Evaluation :=
  {| error := Some e;
     question := Some question;
     category := None;
     timestamp := None;
     judge_model := None;
     criteria := ∅;
     overall_score := Some 0;
     pass := Some false;
     summary := None |}.

Definition evaluate_response (model now : string) (reply : Reply)
           (question agent_response ground_truth : string)
           (source_docs : list string) (category : string) : Evaluation :=
  match reply with
  | Object evaluation =>
      {| error := error evaluation;
         question := Some question;
         category := Some category;
         timestamp := Some now;
         judge_model := Some model;
         criteria := criteria evaluation;
         overall_score := overall_score evaluation;
         pass := pass evaluation;
         summary := summary evaluation |}
  | CallRaised e | Unparsable e | NotAnObject e => error_record e question
  end.

(** *** Batch summary ([LLMJudge._calculate_summary]) *)

(** ["error" not in e] *)
Definition no_error (e : Evaluation) : bool :=
  match error e with None => true | Some _ => false end.

(** [e.get("pass", False)] *)
Definition get_pass (e : Evaluation) : bool := default false (pass e).

Record CriterionStats : Type := mkCriterionStats {
  average : Q;
  minimum : Q;
  maximum : Q
}.

(** The scores of one criterion over the records that have it, with a
    score. *)
Definition criterion_scores (criterion : string) (valid_evals : list Evaluation) : list Q :=
  omap (fun e => mjoin (criteria e !! criterion)) valid_evals.

(** One iteration of the loop over [self.evaluation_criteria]. *)
Definition criterion_step (valid_evals : list Evaluation)
           (acc : option (gmap string CriterionStats)) (criterion : string)
  : option (gmap string CriterionStats) :=
  criteria_scores ← acc;
  match criterion_scores criterion valid_evals with
  | [] => Some criteria_scores
  | x :: xs =>
      avg ← py_div (py_sum (x :: xs)) (len_Q (x :: xs));
      Some (<[criterion := mkCriterionStats avg (py_min x xs) (py_max x xs)]> criteria_scores)
  end.

(** A category's entry while the loop collects: the key ["avg_score"]
    holds the list of scores. *)
Record Collected : Type := mkCollected {
  c_count : nat;
  c_passed : nat;
  c_scores : list Q
}.

(** A category's entry in the summary: ["avg_score"] holds the average. *)
Record CategoryStats : Type := mkStats {
  count : nat;
  passed : nat;
  avg_score : Q
}.

Definition tally (category_stats : gmap string Collected) (e : Evaluation)
  : gmap string Collected :=
  let cat := default "unknown" (category e) in
  let category_stats :=
    match category_stats !! cat with
    | None => <[cat := mkCollected 0 0 []]> category_stats
    | Some _ => category_stats
    end in
  alter (fun s => {| c_count := S (c_count s);
                     c_passed := if get_pass e then S (c_passed s) else c_passed s;
                     c_scores := match overall_score e with
                                 | Some x => c_scores s ++ [x]
                                 | None => c_scores s
                                 end |}) cat category_stats.

Definition averaged (category_stats : gmap string Collected)
  : option (gmap string CategoryStats) :=
  map_fold (fun cat s acc =>
              m ← acc;
              a ← mean_or_zero (c_scores s);
              Some (<[cat := mkStats (c_count s) (c_passed s) a]> m))
           (Some ∅) category_stats.

Record Summary : Type := mkSummary {
  criteria_scores : gmap string CriterionStats;
  overall_average : Q;
  pass_rate : Q;
  total_evaluated : nat;
  total_failed : nat;
  category_breakdown : gmap string CategoryStats
}.

(** The dictionary returned: [{}] for an empty batch, a lone ["error"]
    key when no record is valid, the six statistics otherwise. *)
Inductive SummaryDict : Type :=
| EmptyDict
| ErrorDict (error : string)
| SummaryOf (s : Summary).

Definition pass_count (valid_evals : list Evaluation) : nat :=
  length (List.filter get_pass valid_evals).

(** [None] stands for an exception escaping the function. *)
Definition _calculate_summary (evaluations : list Evaluation) : option SummaryDict :=
  match evaluations with
  | [] => Some EmptyDict
  | _ :: _ =>
      let valid_evals := List.filter no_error evaluations in
      match valid_evals with
      | [] => Some (ErrorDict "All evaluations failed")
      | _ :: _ =>
          criteria_scores ← fold_left (criterion_step valid_evals) evaluation_criteria (Some ∅);
          let overall_scores := omap overall_score valid_evals in
          let category_stats := fold_left tally valid_evals ∅ in
          category_stats ← averaged category_stats;
          overall_average ← mean_or_zero overall_scores;
          pass_rate ← (if truthy valid_evals
                       then py_div (inject_Z (Z.of_nat (pass_count valid_evals)))
                                   (len_Q valid_evals)
                       else Some 0);
          Some (SummaryOf
                  {| criteria_scores := criteria_scores;
                     overall_average := overall_average;
                     pass_rate := pass_rate;
                     total_evaluated := length valid_evals;
                     total_failed := (length evaluations - length valid_evals)%nat;
                     category_breakdown := category_stats |})
      end
  end.

End Judge.

(** ** The comparator ([EvaluatorComparison]) *)

Module Compare.

(** A category's entry of a saved summary, as far as the comparator reads
    it: the ["avg_score"] key, which [.get] lets be missing. *)
Record CategoryEntry : Type := mkEntry {
  avg_score : option Q
}.

(** The ["summary"] of a saved result set, as far as the comparator reads
    it. *)
Record ResultSummary : Type := mkResults {
  overall_average : Q;
  category_breakdown : gmap string CategoryEntry
}.

Record OverallComparison : Type := mkOverall {
  llm_judge_score : Q;
  openai_evals_score : Q;
  difference : Q;
  winner : string;
  notes : string
}.

Definition compare_overall_scores (llm_results evals_results : ResultSummary)
  : OverallComparison :=
  let llm_avg := overall_average llm_results in
  let evals_avg := overall_average evals_results in
  {| llm_judge_score := llm_avg;
     openai_evals_score := evals_avg;
     difference := Qabs (llm_avg - evals_avg);
     winner := if Qgt_bool llm_avg evals_avg then "llm-judge" else "openai-evals";
     notes := "LLM judge uses 1-5 scale; OpenAI Evals uses 0-1 scale (normalized)" |}.

Record CategoryComparison : Type := mkComparison {
  llm_judge : Q;
  openai_evals : Q;
  better_evaluator : string
}.

(** [categories.get(category, {}).get("avg_score", 0)] *)
Definition get_avg_score (categories : gmap string CategoryEntry) (category : string) : Q :=
  default 0 (categories !! category ≫= avg_score).

(** [llm_score / 5.0 if llm_score else 0] *)
Definition normalize (llm_score : Q) : Q :=
  if Qeq_bool llm_score 0 then 0 else llm_score / 5.

(** The body of the loop of [compare_by_category]. *)
Definition compare_category (llm_categories evals_categories : gmap string CategoryEntry)
           (category : string) : CategoryComparison :=
  let llm_score := get_avg_score llm_categories category in
  let evals_score := get_avg_score evals_categories category in
  let llm_normalized := normalize llm_score in
  {| llm_judge := llm_normalized;
     openai_evals := evals_score;
     better_evaluator :=
       if Qgt_bool llm_normalized evals_score then "llm-judge" else "openai-evals" |}.

Definition compare_by_category (llm_results evals_results : ResultSummary)
  : gmap string CategoryComparison :=
  let llm_categories := category_breakdown llm_results in
  let evals_categories := category_breakdown evals_results in
  let keys : gset string := dom llm_categories ∪ dom evals_categories in
  set_to_map (fun category =>
                (category, compare_category llm_categories evals_categories category))
             keys.

End Compare.

(** ** Notions the properties are stated with *)

(** A score on the [0,1] scale. *)
Definition unit_interval (q : Q) : Prop := 0 <= q /\ q <= 1.

(** The arithmetic mean of a list of scores, 0 for the empty list. *)
Definition mean (xs : list Q) : Q :=
  match xs with
  | [] => 0
  | _ :: _ => py_sum xs / len_Q xs
  end.

(** The grader of a check was actually run for a record: the entry is
    there and is not the ["skipped"] one. *)
Definition grader_ran (check : string) (e : Evals.EvaluationRecord) : bool :=
  match Evals.checks e !! check with
  | Some g => negb (String.eqb (Grade.grader g) "skipped")
  | None => false
  end.

(** The score a record holds for a check. *)
Definition check_score (check : string) (e : Evals.EvaluationRecord) : Q :=
  default 0 (Grade.score <$> Evals.checks e !! check).

(** ** The exact-match grader ([OpenAIEvalsRunner.grade_exact_match]) *)

Module Exact.

(** The dictionary returned: [matched] on success, [expected_one_of] on
    failure. *)
Record ExactResult : Type := mkExact {
  score : Q;
  passed : bool;
  matched : option string;
  expected_one_of : option (list string);
  grader : string
}.

(** The loop with its early [return]: the first expected string whose
    lowered form occurs in the lowered response. *)
Fixpoint first_match (response_lower : string) (expected : list string) : option string :=
  match expected with
  | [] => None
  | exp :: rest =>
      if PyStr.contains (PyStr.lower exp) response_lower then Some exp
      else first_match response_lower rest
  end.

Definition grade_exact_match (response : string) (expected : list string) : ExactResult :=
  let response_lower := PyStr.lower response in
  match first_match response_lower expected with
  | Some exp =>
      {| score := 1; passed := true; matched := Some exp; expected_one_of := None;
         grader := "exact_match" |}
  | None =>
      {| score := 0; passed := false; matched := None; expected_one_of := Some expected;
         grader := "exact_match" |}
  end.

End Exact.

(** A regular expression none of whose character classes tells a letter
    from its lower-case form. *)
Fixpoint case_blind (r : Re.regex) : Prop :=
  match r with
  | Re.Void | Re.Eps => True
  | Re.Class p => forall c, p (PyStr.lower_char c) = p c
  | Re.Seq r1 r2 | Re.Alt r1 r2 => case_blind r1 /\ case_blind r2
  | Re.Star r1 => case_blind r1
  end.

(** [response'] is [response] with text put before and after it. *)
Definition extends (response response' : string) : Prop :=
  exists pre post : string, response' = (pre ++ response ++ post)%string.

(** Every character of [s] satisfies [p]. *)
Fixpoint all_chars (p : ascii -> bool) (s : string) : bool :=
  match s with
  | EmptyString => true
  | String c s' => p c && all_chars p s'
  end.

(** [s.isascii()]: every code point of [s] is below 128.  On such text
    [str.lower] works character by character and [re.IGNORECASE] compares
    lower-case forms, as [PyStr.lower] and [Re] do here; outside it Python
    has context-sensitive and multi-character case mappings that this
    development does not cover. *)
Definition isascii (s : string) : bool :=
  all_chars (fun c => (PyStr.code c <? 128)%nat) s.

(** The text [m] stands in [source] as a period label: directly followed
    by blanks (possibly none) and four digits. *)
Definition period_label_in (m source : string) : Prop :=
  exists pre blanks year post : string,
    source = (pre ++ m ++ blanks ++ year ++ post)%string
    /\ all_chars PyStr.isspace blanks = true
    /\ String.length year = 4%nat
    /\ all_chars PyStr.isdigit year = true.

(** The records of a batch that belong to a category, in batch order. *)
Definition records_in (cat : string) (evaluations : list Evals.EvaluationRecord)
  : list Evals.EvaluationRecord :=
  List.filter (fun e => String.eqb (Evals.category e) cat) evaluations.

(** Every score a record holds is on the [0,1] scale. *)
Definition well_scored (e : Evals.EvaluationRecord) : Prop :=
  unit_interval (Evals.overall_score e)
  /\ forall check g, Evals.checks e !! check = Some g -> unit_interval (Grade.score g).

(** A category's entry after the records [es] were tallied into it. *)
Definition tallied (s : Evals.CategoryStats) (es : list Evals.EvaluationRecord)
  : Evals.CategoryStats :=
  {| Evals.count := Evals.count s + length es;
     Evals.cat_passed := Evals.cat_passed s + length (List.filter Evals.passed es);
     Evals.scores := Evals.scores s ++ map Evals.overall_score es;
     Evals.avg_score := Evals.avg_score s |}.

(** The category a judge record is filed under:
    [eval.get("category", "unknown")]. *)
Definition judge_category (e : Judge.Evaluation) : string :=
  default "unknown" (Judge.category e).

(** The judge records of a batch that are filed under a category. *)
Definition judge_records_in (cat : string) (evaluations : list Judge.Evaluation)
  : list Judge.Evaluation :=
  List.filter (fun e => String.eqb (judge_category e) cat) evaluations.

(** A judge category's entry after the records [es] were tallied into it. *)
Definition judge_tallied (s : Judge.Collected) (es : list Judge.Evaluation) : Judge.Collected :=
  {| Judge.c_count := Judge.c_count s + length es;
     Judge.c_passed := Judge.c_passed s + length (List.filter Judge.get_pass es);
     Judge.c_scores := Judge.c_scores s ++ omap Judge.overall_score es |}.

(** ** The comparator's analyses ([EvaluatorComparison.analyze_*]) *)

Module Analysis.

(** The local [calculate_variance]: the population variance, 0 for no
    scores; [None] is a [ZeroDivisionError]. *)
Definition calculate_variance (scores : list Q) : option Q :=
  if truthy scores then
    mean ← py_div (py_sum scores) (len_Q scores);
    py_div (py_sum (map (fun x => (x - mean) ^ 2) scores)) (len_Q scores)
  else Some 0.

Record Consistency : Type := mkConsistency {
  llm_judge_variance : Q;
  openai_evals_variance : Q;
  more_consistent : string;
  note : string
}.

(** The two result sets are read through their evaluation lists: a judge
    record may lack ["overall_score"], a deterministic record has it. *)
Definition analyze_consistency (llm_evals : list Judge.Evaluation)
           (evals_evals : list Evals.EvaluationRecord) : option Consistency :=
  let llm_scores := omap Judge.overall_score llm_evals in
  let evals_scores := map Evals.overall_score evals_evals in
  llm_variance ← calculate_variance llm_scores;
  evals_variance ← calculate_variance evals_scores;
  Some {| llm_judge_variance := llm_variance;
          openai_evals_variance := evals_variance;
          more_consistent :=
            if Qgt_bool llm_variance evals_variance then "openai-evals" else "llm-judge";
          note := "Lower variance suggests more consistent scoring. OpenAI Evals is expected to be more deterministic." |}.

Record EdgeCases : Type := mkEdgeCases {
  llm_judge_edge_pass_rate : Q;
  openai_evals_edge_pass_rate : Q;
  better_at_edges : string;
  interpretation : string
}.

(** [e.get("category") == "edge_cases"] on a judge record. *)
Definition llm_is_edge (e : Judge.Evaluation) : bool :=
  match Judge.category e with
  | Some c => String.eqb c "edge_cases"
  | None => false
  end.

Definition evals_is_edge (e : Evals.EvaluationRecord) : bool :=
  String.eqb (Evals.category e) "edge_cases".

(** [sum(1 for e in edge if passed(e)) / len(edge) if edge else 0] *)
Definition edge_pass_rate {A} (passed : A -> bool) (edge : list A) : option Q :=
  if truthy edge
  then py_div (inject_Z (Z.of_nat (length (List.filter passed edge)))) (len_Q edge)
  else Some 0.

Definition analyze_edge_cases (llm_evals : list Judge.Evaluation)
           (evals_evals : list Evals.EvaluationRecord) : option EdgeCases :=
  let llm_edge := List.filter llm_is_edge llm_evals in
  let evals_edge := List.filter evals_is_edge evals_evals in
  llm_pass_rate ← edge_pass_rate Judge.get_pass llm_edge;
  evals_pass_rate ← edge_pass_rate Evals.passed evals_edge;
  Some {| llm_judge_edge_pass_rate := llm_pass_rate;
          openai_evals_edge_pass_rate := evals_pass_rate;
          better_at_edges :=
            if Qgt_bool llm_pass_rate evals_pass_rate then "llm-judge" else "openai-evals";
          interpretation := "Edge cases test out-of-scope handling and disclaimer compliance" |}.

(** A dictionary with string values, in insertion order.  Storing under a
    key that is present replaces the value where it stands. *)
Fixpoint dict_set (d : list (string * string)) (k v : string) : list (string * string) :=
  match d with
  | [] => [(k, v)]
  | (k', v') :: rest =>
      if String.eqb k' k then (k, v) :: rest else (k', v') :: dict_set rest k v
  end.

Definition dict_get (d : list (string * string)) (k : string) : option string :=
  snd <$> List.find (fun p => String.eqb (fst p) k) d.

(** A dictionary display: the pairs are stored from left to right. *)
Definition dict_literal (pairs : list (string * string)) : list (string * string) :=
  fold_left (fun d p => dict_set d (fst p) (snd p)) pairs [].

Section Recommendations.

(** The float formats [:.3f] and [:.1f], and [max] of two rates times 100,
    are left to the caller, as is the label
    [use_case.replace("_", " ").title()]. *)
Variables (format_3f format_1f : Q -> string) (label : string -> string).

Definition generate_recommendations (llm_results evals_results : Compare.ResultSummary)
           (llm_evals : list Judge.Evaluation) (evals_evals : list Evals.EvaluationRecord)
  : option (list (string * string)) :=
  let overall := Compare.compare_overall_scores llm_results evals_results in
  consistency ← analyze_consistency llm_evals evals_evals;
  edge_cases ← analyze_edge_cases llm_evals evals_evals;
  let best_rate :=
    if Qgt_bool (openai_evals_edge_pass_rate edge_cases) (llm_judge_edge_pass_rate edge_cases)
    then openai_evals_edge_pass_rate edge_cases
    else llm_judge_edge_pass_rate edge_cases in
  Some (dict_literal
    [ ("factual_accuracy_testing", "openai-evals");
      ("reasoning", "OpenAI Evals uses deterministic keyword matching for facts, reducing false positives");
      ("citation_validation", "openai-evals");
      ("reasoning", "Deterministic regex-based citation checking is more reliable than LLM judgment");
      ("nuanced_evaluation", "llm-judge");
      ("reasoning", "LLM judge can understand context and provide detailed reasoning for complex responses");
      ("regression_testing", "openai-evals");
      ("reasoning", "More consistent (variance: " ++ format_3f (openai_evals_variance consistency)
                    ++ " vs " ++ format_3f (llm_judge_variance consistency) ++ ")");
      ("edge_case_detection", better_at_edges edge_cases);
      ("reasoning", "Better pass rate on edge cases: " ++ format_1f (best_rate * 100) ++ "%");
      ("cost_efficiency", "openai-evals");
      ("reasoning", "Single LLM call vs two calls (agent + judge) for LLM-as-judge");
      ("debugging_failures", "llm-judge");
      ("reasoning", "Provides detailed reasoning for each score, easier to understand why tests fail");
      ("production_monitoring", "openai-evals");
      ("reasoning", "Deterministic scoring better for tracking metrics over time") ]%string).

(** The loop of [generate_report] that groups the use cases by
    recommended evaluator: the two lists of (label, reason). *)
Fixpoint group_use_cases (recommendations items : list (string * string))
         (llm_judge_use_cases evals_use_cases : list (string * string))
  : list (string * string) * list (string * string) :=
  match items with
  | [] => (llm_judge_use_cases, evals_use_cases)
  | (use_case, evaluator) :: rest =>
      if String.eqb use_case "reasoning"
      then group_use_cases recommendations rest llm_judge_use_cases evals_use_cases
      else
        let reason := default "" (dict_get recommendations "reasoning") in
        if String.eqb evaluator "llm-judge"
        then group_use_cases recommendations rest
               (llm_judge_use_cases ++ [(label use_case, reason)]) evals_use_cases
        else group_use_cases recommendations rest
               llm_judge_use_cases (evals_use_cases ++ [(label use_case, reason)])
  end.

Definition grouped (recommendations : list (string * string))
  : list (string * string) * list (string * string) :=
  group_use_cases recommendations recommendations [] [].

End Recommendations.

End Analysis.

(** The population variance of a list of scores, 0 for the empty list. *)
Definition variance (xs : list Q) : Q :=
  match xs with
  | [] => 0
  | _ :: _ => py_sum (map (fun x => (x - mean xs) ^ 2) xs) / len_Q xs
  end.

(** Scores of either scale: numbers between 0 and 5. *)
Definition on_scale (xs : list Q) : Prop :=
  Forall (fun x => 0 <= x /\ x <= 5) xs.

(** ** Exceptions *)

(** An exception escaping a function.  [External] is an exception of the
    world around the evaluation code (the OpenAI client, the vector store,
    an agent put in by the caller), named by its text. *)
Inductive Exn : Type :=
| KeyError (key : string)
| ValueError (message : string)
| IndexError
| ZeroDivisionError
| TypeError
| AttributeError
| External (e : string).

Inductive Outcome (A : Type) : Type :=
| Returns (a : A)
| Raises (e : Exn).

Arguments Returns {A} a.
Arguments Raises {A} e.

#[global] Instance outcome_ret : MRet Outcome := @Returns.

#[global] Instance outcome_bind : MBind Outcome :=
  fun A B f m => match m with Returns a => f a | Raises e => Raises e end.

#[global] Instance outcome_fmap : FMap Outcome :=
  fun A B f m => match m with Returns a => Returns (f a) | Raises e => Raises e end.

(** [a / b] *)
Definition divide (a b : Q) : Outcome Q :=
  match py_div a b with
  | Some q => Returns q
  | None => Raises ZeroDivisionError
  end.

(** ** JSON values *)

(** What [json.loads] returns: [None], a [bool], a number, a [str], a
    [list], or a [dict] with [str] keys.  A number, [int] or [float], is
    the rational it denotes; [NaN] and the infinities, which [json.loads]
    also accepts, and numbers beyond the range of a [float] are outside
    the development. *)
#[warnings="-register-all"]
Inductive Json : Type :=
| JNull
| JBool (b : bool)
| JNum (q : Q)
| JStr (s : string)
| JList (l : list Json)
| JObj (o : gmap string Json).

Abbreviation Dict := (gmap string Json).

(** The truth value of a value in a boolean position. *)
Definition py_bool (v : Json) : bool :=
  match v with
  | JNull => false
  | JBool b => b
  | JNum q => negb (Qeq_bool q 0)
  | JStr s => negb (String.eqb s "")
  | JList l => truthy l
  | JObj o => negb (bool_decide (dom o = ∅))
  end.

(** A value as an operand of [+] next to a number: a [bool] is the integer
    it equals, anything but a number raises [TypeError]. *)
Definition py_number (v : Json) : Outcome Q :=
  match v with
  | JBool b => Returns (if b then 1 else 0)
  | JNum q => Returns q
  | _ => Raises TypeError
  end.

(** The operands [sum(vs)] adds up, from the left; it raises at the first
    that is not a number. *)
Fixpoint py_numbers (vs : list Json) : Outcome (list Q) :=
  match vs with
  | [] => Returns []
  | v :: rest =>
      x ← py_number v;
      xs ← py_numbers rest;
      Returns (x :: xs)
  end.

(** [sum(vs) / len(vs) if vs else 0] *)
Definition mean_or_zero_of (vs : list Json) : Outcome Q :=
  if truthy vs then
    numbers ← py_numbers vs;
    divide (py_sum numbers) (len_Q vs)
  else Returns 0.

(** ["score" in v] *)
Definition has_score (v : Json) : Outcome bool :=
  match v with
  | JObj o => Returns (match o !! "score" with Some _ => true | None => false end)
  | JStr s => Returns (PyStr.contains "score" s)
  | JList l =>
      Returns (existsb (fun x => match x with
                                 | JStr s => String.eqb s "score"
                                 | _ => false
                                 end) l)
  | JNull | JBool _ | JNum _ => Raises TypeError
  end.

(** [v["score"]] *)
Definition get_score (v : Json) : Outcome Json :=
  match v with
  | JObj o =>
      match o !! "score" with
      | Some x => Returns x
      | None => Raises (KeyError "score")
      end
  | _ => Raises TypeError
  end.

(** A value as a dictionary key.  Keys are compared with [==], under which
    [True], [1] and [1.0] are one key; a [list] or a [dict] is unhashable. *)
Inductive Key : Type :=
| KNone
| KNum (q : Qc)
| KStr (s : string).

#[global] Instance Key_eq_dec : EqDecision Key.
Proof. solve_decision. Defined.

Definition key_code (k : Key) : unit + (Qc + string) :=
  match k with
  | KNone => inl tt
  | KNum q => inr (inl q)
  | KStr s => inr (inr s)
  end.

Definition key_decode (c : unit + (Qc + string)) : Key :=
  match c with
  | inl _ => KNone
  | inr (inl q) => KNum q
  | inr (inr s) => KStr s
  end.

#[global] Instance Key_countable : Countable Key :=
  inj_countable' key_code key_decode
    (fun k => match k with KNone => eq_refl | KNum _ => eq_refl | KStr _ => eq_refl end).

Definition py_hash_key (v : Json) : Outcome Key :=
  match v with
  | JNull => Returns KNone
  | JBool b => Returns (KNum (Q2Qc (if b then 1 else 0)))
  | JNum q => Returns (KNum (Q2Qc q))
  | JStr s => Returns (KStr s)
  | JList _ | JObj _ => Raises TypeError
  end.

(** ** The judgment evaluator over the reply as it is decoded ([LLMJudge]) *)

(** [Judge] above reads an evaluation through the types the rubric gives
    its fields.  The code itself checks nothing: the object decoded from
    the judge's reply is passed on as it is.  This module is the code over
    such objects. *)
Module LLMJudge.

(** What the guarded block of [evaluate_response] meets. *)
Inductive Reply : Type :=
| CallRaised (e : string)     (* the prompt or the call raised *)
| Unparsable (e : string)     (* [json.loads] raised *)
| NotAnObject (e : string)    (* decoded, but not a dict: the first item
                                 assignment raises [TypeError] *)
| Object (o : Dict).          (* decoded to a dict *)

(** The record of the [except] branch. *)
Definition error_record (e question : string) : Dict :=
  <["pass" := JBool false]>
    (<["overall_score" := JNum 0]>
       (<["question" := JStr question]>
          (<["error" := JStr e]> ∅))).

(** [agent_response] is what the caller passes as the agent's answer, a
    text or [None]; it goes into the prompt only. *)
Definition evaluate_response (model now : string) (reply : Reply)
           (question : string) (agent_response : option string) (ground_truth : string)
           (source_docs : list string) (category : string) : Dict :=
  match reply with
  | Object evaluation =>
      <["judge_model" := JStr model]>
        (<["timestamp" := JStr now]>
           (<["category" := JStr category]>
              (<["question" := JStr question]> evaluation)))
  | CallRaised e | Unparsable e | NotAnObject e => error_record e question
  end.

(** *** Batch summary ([LLMJudge._calculate_summary]) *)

(** ["error" not in e] *)
Definition no_error (e : Dict) : bool :=
  match e !! "error" with None => true | Some _ => false end.

(** [e.get("pass", False)] in a boolean position *)
Definition get_pass (e : Dict) : bool := py_bool (default (JBool false) (e !! "pass")).

(** The comprehension
    [[e[criterion]["score"] for e in valid_evals
      if criterion in e and "score" in e[criterion]]]. *)
Fixpoint criterion_scores (criterion : string) (valid_evals : list Dict)
  : Outcome (list Json) :=
  match valid_evals with
  | [] => Returns []
  | e :: rest =>
      match e !! criterion with
      | None => criterion_scores criterion rest
      | Some v =>
          present ← has_score v;
          if present : bool then
            x ← get_score v;
            xs ← criterion_scores criterion rest;
            Returns (x :: xs)
          else criterion_scores criterion rest
      end
  end.

(** One iteration of the loop over [self.evaluation_criteria].  [sum]
    comes first and raises unless every score is a number, so [min] and
    [max] compare numbers. *)
Definition criterion_step (valid_evals : list Dict)
           (acc : Outcome (gmap string Judge.CriterionStats)) (criterion : string)
  : Outcome (gmap string Judge.CriterionStats) :=
  criteria_scores ← acc;
  scores ← criterion_scores criterion valid_evals;
  match scores with
  | [] => Returns criteria_scores
  | v :: vs =>
      x ← py_number v;
      xs ← py_numbers vs;
      avg ← divide (py_sum (x :: xs)) (len_Q scores);
      Returns (<[criterion := Judge.mkCriterionStats avg (py_min x xs) (py_max x xs)]>
                 criteria_scores)
  end.

(** A category's entry while the loop collects: the key ["avg_score"]
    holds the list of scores, as they stand in the records. *)
Record Collected : Type := mkCollected {
  c_count : nat;
  c_passed : nat;
  c_scores : list Json
}.

(** One iteration of the category loop. *)
Definition tally (acc : Outcome (gmap Key Collected)) (e : Dict)
  : Outcome (gmap Key Collected) :=
  category_stats ← acc;
  cat ← py_hash_key (default (JStr "unknown") (e !! "category"));
  let category_stats :=
    match category_stats !! cat with
    | None => <[cat := mkCollected 0 0 []]> category_stats
    | Some _ => category_stats
    end in
  Returns (alter (fun s => {| c_count := S (c_count s);
                              c_passed := if get_pass e then S (c_passed s) else c_passed s;
                              c_scores := match e !! "overall_score" with
                                          | Some x => c_scores s ++ [x]
                                          | None => c_scores s
                                          end |}) cat category_stats).

(** The second loop: every category gets its average. *)
Definition averaged (category_stats : gmap Key Collected)
  : Outcome (gmap Key Judge.CategoryStats) :=
  map_fold (fun cat s acc =>
              m ← acc;
              a ← mean_or_zero_of (c_scores s);
              Returns (<[cat := Judge.mkStats (c_count s) (c_passed s) a]> m))
           (Returns ∅) category_stats.

Record Summary : Type := mkSummary {
  criteria_scores : gmap string Judge.CriterionStats;
  overall_average : Q;
  pass_rate : Q;
  total_evaluated : nat;
  total_failed : nat;
  category_breakdown : gmap Key Judge.CategoryStats
}.

(** The dictionary returned: [{}] for an empty batch, a lone ["error"]
    key when no record is valid, the six statistics otherwise. *)
Inductive SummaryDict : Type :=
| EmptyDict
| ErrorDict (error : string)
| SummaryOf (s : Summary).

Definition pass_count (valid_evals : list Dict) : nat :=
  length (List.filter get_pass valid_evals).

Definition _calculate_summary (evaluations : list Dict) : Outcome SummaryDict :=
  match evaluations with
  | [] => Returns EmptyDict
  | _ :: _ =>
      let valid_evals := List.filter no_error evaluations in
      match valid_evals with
      | [] => Returns (ErrorDict "All evaluations failed")
      | _ :: _ =>
          criteria_scores ←
            fold_left (criterion_step valid_evals) Judge.evaluation_criteria (Returns ∅);
          let overall_scores := omap (fun e : Dict => e !! "overall_score") valid_evals in
          category_stats ← fold_left tally valid_evals (Returns ∅);
          category_stats ← averaged category_stats;
          overall_average ← mean_or_zero_of overall_scores;
          pass_rate ← (if truthy valid_evals
                       then divide (inject_Z (Z.of_nat (pass_count valid_evals)))
                                   (len_Q valid_evals)
                       else Returns 0);
          Returns (SummaryOf
                     {| criteria_scores := criteria_scores;
                        overall_average := overall_average;
                        pass_rate := pass_rate;
                        total_evaluated := length valid_evals;
                        total_failed := (length evaluations - length valid_evals)%nat;
                        category_breakdown := category_stats |})
      end
  end.

End LLMJudge.

(** ** The batch drivers *)

(** A test question of the persisted test set: [id], [question],
    [category] and [ground_truth] are always there, the other keys may be
    left out. *)
Record TestQuestion : Type := mkQuestion {
  q_id : string;
  q_question : string;
  q_category : string;
  q_ground_truth : string;
  q_evaluation_criteria : option Evals.Criteria;
  q_source_documents : option (list string);
  q_source_pages : option (list Z)
}.

(** Building an object whose constructor reaches out of the evaluation
    code: [ResearchAgent()] opens the OpenAI client and the vector store,
    [LLMJudge()] the OpenAI client. *)
Inductive Construction : Type :=
| Constructed
| ConstructionRaised (e : string).

(** What a call of [agent.chat] ends in: a return value, which is the
    message's [content], a text or [None]; or an exception, with its
    text. *)
Inductive Chat : Type :=
| Replied (content : option string)
| ChatRaised (e : string).

(** What the world does during one call of the agent: [elapsed] is the
    difference of the two [time.time()] readings around it and [stamp] the
    [datetime.now().isoformat()] read afterwards. *)
Record AgentCall : Type := mkCall {
  outcome : Chat;
  elapsed : Q;
  stamp : string
}.

(** [OpenAIEvalsRunner.run_evaluation] *)
Module Runner.

(** An evaluation record with the two keys the loop adds; [agent_response]
    is the [response] variable as it stands, a text on every path that
    gets as far as storing it. *)
Record Entry : Type := mkEntry {
  record : Evals.EvaluationRecord;
  agent_response : option string;
  response_time_seconds : Q
}.

(** [evaluate_response] called with what the agent returned.  On [None]
    the first grader that runs raises: the keyword and the compliance
    grader at [response.lower()], the citation grader at [re.search]. *)
Definition evaluate_reply (now : string) (test_q : TestQuestion) (response : option string)
  : Outcome Evals.EvaluationRecord :=
  let evaluation_criteria :=
    default (Evals.mkCriteria None None) (q_evaluation_criteria test_q) in
  let source_docs := default [] (q_source_documents test_q) in
  match response with
  | Some response =>
      Returns (Evals.evaluate_response now (q_id test_q) (q_question test_q) response
                 (q_ground_truth test_q) evaluation_criteria source_docs (q_category test_q))
  | None =>
      if truthy (default [] (Evals.must_include evaluation_criteria))
      then Raises AttributeError
      else if default true (Evals.should_cite evaluation_criteria) && truthy source_docs
           then Raises TypeError
           else Raises AttributeError
  end.

(** The body of the loop over the questions. *)
Definition evaluate_question (call : AgentCall) (test_q : TestQuestion) : Outcome Entry :=
  let '(response, elapsed) :=
    match outcome call with
    | Replied content => (content, elapsed call)
    | ChatRaised e => (Some ("ERROR: " ++ e)%string, 0)
    end in
  eval_result ← evaluate_reply (stamp call) test_q response;
  Returns {| record := eval_result;
             agent_response := response;
             response_time_seconds := elapsed |}.

(** The loop; [i] is the number of agent calls made so far. *)
Fixpoint evaluate_from (i : nat) (env : nat -> AgentCall) (questions : list TestQuestion)
  : Outcome (list Entry) :=
  match questions with
  | [] => Returns []
  | test_q :: rest =>
      entry ← evaluate_question (env i) test_q;
      entries ← evaluate_from (S i) env rest;
      Returns (entry :: entries)
  end.

Record Results : Type := mkResults {
  evaluator : string;
  timestamp : string;
  total_questions : Z;
  evaluations : list Entry;
  summary : Evals.SummaryDict
}.

(** [agent] is the agent the runner holds or builds; [started] is the
    clock reading taken when the results are set up; [total_questions] is
    the key of that name of the test set.  With [verbose], the closing
    report reads the keys of the summary. *)
Definition run_evaluation (verbose : bool) (started : string) (total_questions : Z)
           (questions : list TestQuestion) (agent : Construction) (env : nat -> AgentCall)
  : Outcome Results :=
  match agent with
  | ConstructionRaised e => Raises (External e)
  | Constructed =>
      evaluations ← evaluate_from 0 env questions;
      match Evals._calculate_summary (map record evaluations) with
      | None => Raises ZeroDivisionError
      | Some summary =>
          let results :=
            {| evaluator := "openai_evals"; timestamp := started;
               total_questions := total_questions; evaluations := evaluations;
               summary := summary |} in
          if verbose then
            match summary with
            | Evals.EmptyDict => Raises (KeyError "overall_average")
            | Evals.SummaryOf _ => Returns results
            end
          else Returns results
      end
  end.

End Runner.

(** [LLMJudge.evaluate_test_set] and [TestRunner] *)
Module Tests.

(** What the world does during one call of the judge. *)
Record JudgeCall : Type := mkJudgeCall {
  reply : LLMJudge.Reply;
  judged_at : string
}.

Record JudgeResults : Type := mkJudgeResults {
  evaluator : string;
  judge_model : string;
  timestamp : string;
  total_questions : nat;
  evaluations : list Dict;
  summary : LLMJudge.SummaryDict
}.

(** The loop over [zip(test_questions, agent_responses)]. *)
Fixpoint judge_from (model : string) (i : nat) (env : nat -> JudgeCall)
         (test_questions : list TestQuestion) (agent_responses : list (option string))
  : list Dict :=
  match test_questions, agent_responses with
  | test_q :: questions, response :: responses =>
      <["question_id" := JStr (q_id test_q)]>
        (LLMJudge.evaluate_response model (judged_at (env i)) (reply (env i))
           (q_question test_q) response (q_ground_truth test_q)
           (default [] (q_source_documents test_q)) (q_category test_q))
      :: judge_from model (S i) env questions responses
  | _, _ => []
  end.

Definition evaluate_test_set (model started : string) (env : nat -> JudgeCall)
           (test_questions : list TestQuestion) (agent_responses : list (option string))
  : Outcome JudgeResults :=
  if negb (length test_questions =? length agent_responses)%nat
  then Raises (ValueError "Number of questions must match number of responses")
  else
    let evaluations := judge_from model 0 env test_questions agent_responses in
    summary ← LLMJudge._calculate_summary evaluations;
    Returns {| evaluator := "llm_judge"; judge_model := model; timestamp := started;
               total_questions := length test_questions;
               evaluations := evaluations; summary := summary |}.

(** The dictionary [run_agent_on_tests] keeps per question; [error] is
    there, and [source_pages] and [response_time_seconds] are not, when the
    agent raised.  [agent_response] is what [chat] returned, a text or
    [None], and the empty text when it raised. *)
Record ResponseData : Type := mkResponse {
  r_question_id : string;
  r_question : string;
  r_category : string;
  r_agent_response : option string;
  r_error : option string;
  r_ground_truth : string;
  r_source_documents : list string;
  r_source_pages : option (list Z);
  r_response_time_seconds : option Q;
  r_timestamp : string
}.

Definition respond (call : AgentCall) (test_q : TestQuestion) : ResponseData :=
  match outcome call with
  | Replied response =>
      {| r_question_id := q_id test_q; r_question := q_question test_q;
         r_category := q_category test_q; r_agent_response := response;
         r_error := None; r_ground_truth := q_ground_truth test_q;
         r_source_documents := default [] (q_source_documents test_q);
         r_source_pages := Some (default [] (q_source_pages test_q));
         r_response_time_seconds := Some (elapsed call);
         r_timestamp := stamp call |}
  | ChatRaised e =>
      {| r_question_id := q_id test_q; r_question := q_question test_q;
         r_category := q_category test_q; r_agent_response := Some "";
         r_error := Some e; r_ground_truth := q_ground_truth test_q;
         r_source_documents := default [] (q_source_documents test_q);
         r_source_pages := None;
         r_response_time_seconds := None;
         r_timestamp := stamp call |}
  end.

Fixpoint run_agent_from (i : nat) (env : nat -> AgentCall) (questions : list TestQuestion)
  : list ResponseData :=
  match questions with
  | [] => []
  | test_q :: rest => respond (env i) test_q :: run_agent_from (S i) env rest
  end.

Definition run_agent_on_tests (agent : Construction) (env : nat -> AgentCall)
           (questions : list TestQuestion) : Outcome (list ResponseData) :=
  match agent with
  | ConstructionRaised e => Raises (External e)
  | Constructed => Returns (run_agent_from 0 env questions)
  end.

(** The two keys the merge loop writes into an evaluation:
    [response_time] always ([None] where the agent's entry has no
    [response_time_seconds]), [agent_error] where the agent's entry has an
    [error]. *)
Definition merge_into (eval_result : Dict) (response : ResponseData) : Dict :=
  let eval_result :=
    <["response_time" := match r_response_time_seconds response with
                         | Some t => JNum t
                         | None => JNull
                         end]> eval_result in
  match r_error response with
  | Some e => <["agent_error" := JStr e]> eval_result
  | None => eval_result
  end.

(** The loop that merges the agent's metadata into the evaluations;
    [self.agent_responses[i]] raises [IndexError] past the end. *)
Fixpoint merge (evaluations : list Dict) (agent_responses : list ResponseData)
  : Outcome (list Dict) :=
  match evaluations, agent_responses with
  | [], _ => Returns []
  | eval_result :: evals, response :: responses =>
      rest ← merge evals responses;
      Returns (merge_into eval_result response :: rest)
  | _ :: _, [] => Raises IndexError
  end.

(** [judge] is the outcome of [LLMJudge()], built with its default
    model. *)
Definition evaluate_with_llm_judge (verbose : bool) (started : string)
           (judge : Construction) (env : nat -> JudgeCall) (questions : list TestQuestion)
           (agent_responses : list ResponseData) : Outcome JudgeResults :=
  if negb (truthy agent_responses)
  then Raises (ValueError "No agent responses to evaluate. Run run_agent_on_tests() first.")
  else
    match judge with
    | ConstructionRaised e => Raises (External e)
    | Constructed =>
        results ← evaluate_test_set "gpt-4-turbo-preview" started env questions
                    (map r_agent_response agent_responses);
        merged ← merge (evaluations results) agent_responses;
        let results :=
          {| evaluator := evaluator results; judge_model := judge_model results;
             timestamp := timestamp results; total_questions := total_questions results;
             evaluations := merged; summary := summary results |} in
        if verbose then
          match summary results with
          | LLMJudge.SummaryOf _ => Returns results
          | LLMJudge.ErrorDict _ | LLMJudge.EmptyDict => Raises (KeyError "overall_average")
          end
        else Returns results
    end.

(** [run_full_evaluation], up to the saving of the results. *)
Definition run_full_evaluation (verbose : bool) (started : string)
           (agent judge : Construction)
           (agent_env : nat -> AgentCall) (judge_env : nat -> JudgeCall)
           (questions : list TestQuestion) : Outcome JudgeResults :=
  agent_responses ← run_agent_on_tests agent agent_env questions;
  evaluate_with_llm_judge verbose started judge judge_env questions agent_responses.

End Tests.

(** ** Notions for the judgment evaluator over decoded replies *)

(** ["error" in e] *)
Definition failed (e : Dict) : bool := negb (LLMJudge.no_error e).

(** A number: an [int], a [float] or a [bool]. *)
Definition is_number (v : Json) : bool :=
  match v with
  | JBool _ | JNum _ => true
  | _ => false
  end.

(** The number a value is, 0 for anything else. *)
Definition as_number (v : Json) : Q :=
  match v with
  | JBool b => if b then 1 else 0
  | JNum q => q
  | _ => 0
  end.

(** The score a record holds for a criterion: the ["score"] entry of the
    criterion's object. *)
Definition criterion_score (criterion : string) (e : Dict) : option Json :=
  match e !! criterion with
  | Some (JObj o) => o !! "score"
  | _ => None
  end.

(** The entry of a criterion can be searched for a score: it is an object,
    or a text or a list in which ["score"] does not occur. *)
Definition criterion_shaped (criterion : string) (e : Dict) : bool :=
  match e !! criterion with
  | None | Some (JObj _) => true
  | Some (JStr s) => negb (PyStr.contains "score" s)
  | Some (JList l) =>
      negb (existsb (fun x => match x with
                              | JStr s => String.eqb s "score"
                              | _ => false
                              end) l)
  | Some (JNull | JBool _ | JNum _) => false
  end.

(** A value that may be missing is a number when it is there. *)
Definition number_if_present (v : option Json) : bool :=
  match v with
  | Some x => is_number x
  | None => true
  end.

Definition criterion_ok (criterion : string) (e : Dict) : bool :=
  criterion_shaped criterion e && number_if_present (criterion_score criterion e).

(** The category of a record can be a dictionary key. *)
Definition category_ok (e : Dict) : bool :=
  match e !! "category" with
  | Some (JList _ | JObj _) => false
  | _ => true
  end.

(** A record the summary can read: the entries of the rubric's criteria
    can be searched and the scores they hold are numbers, the overall
    score is a number, the category can be a key.  Every one of these may
    be missing. *)
Definition well_typed (e : Dict) : bool :=
  forallb (fun criterion => criterion_ok criterion e) Judge.evaluation_criteria
  && number_if_present (e !! "overall_score")
  && category_ok e.

(** A number of a size at which float arithmetic on a batch stays within
    range: an [int] beyond the range of a [float] makes [sum] and [/]
    raise [OverflowError], which the development leaves out. *)
Definition float_sized (v : option Json) : bool :=
  match v with
  | Some (JNum q) => Qle_bool (Qabs q) (inject_Z (10 ^ 100))
  | _ => true
  end.

Definition scores_float_sized (e : Dict) : bool :=
  forallb (fun criterion => float_sized (criterion_score criterion e))
          Judge.evaluation_criteria
  && float_sized (e !! "overall_score").

(** The numbers a batch holds for a criterion, in batch order. *)
Definition criterion_numbers (criterion : string) (valid_evals : list Dict) : list Q :=
  map as_number (omap (criterion_score criterion) valid_evals).

(** The overall scores a batch holds, in batch order. *)
Definition overall_numbers (valid_evals : list Dict) : list Q :=
  map as_number (omap (fun e : Dict => e !! "overall_score") valid_evals).

(** The entry the summary holds for a criterion: none when no valid record
    scores it. *)
Definition criterion_stats (criterion : string) (valid_evals : list Dict)
  : option Judge.CriterionStats :=
  match criterion_numbers criterion valid_evals with
  | [] => None
  | x :: xs => Some (Judge.mkCriterionStats (mean (x :: xs)) (py_min x xs) (py_max x xs))
  end.

(** The table of criterion statistics after the criteria [criteria] were
    gone through. *)
Definition criteria_table (valid_evals : list Dict) (criteria : list string)
           (acc : gmap string Judge.CriterionStats) : gmap string Judge.CriterionStats :=
  fold_left (fun table criterion =>
               match criterion_stats criterion valid_evals with
               | Some st => <[criterion := st]> table
               | None => table
               end) criteria acc.

(** The key a record is filed under: [eval.get("category", "unknown")]. *)
Definition category_key (e : Dict) : Key :=
  match py_hash_key (default (JStr "unknown") (e !! "category")) with
  | Returns k => k
  | Raises _ => KNone
  end.

(** The category table after a record was filed. *)
Definition filed (category_stats : gmap Key LLMJudge.Collected) (e : Dict)
  : gmap Key LLMJudge.Collected :=
  let cat := category_key e in
  let category_stats :=
    match category_stats !! cat with
    | None => <[cat := LLMJudge.mkCollected 0 0 []]> category_stats
    | Some _ => category_stats
    end in
  alter (fun s => {| LLMJudge.c_count := S (LLMJudge.c_count s);
                     LLMJudge.c_passed :=
                       if LLMJudge.get_pass e then S (LLMJudge.c_passed s)
                       else LLMJudge.c_passed s;
                     LLMJudge.c_scores :=
                       match e !! "overall_score" with
                       | Some x => LLMJudge.c_scores s ++ [x]
                       | None => LLMJudge.c_scores s
                       end |}) cat category_stats.

(** Every score a category has collected is a number. *)
Definition scores_numeric (category_stats : gmap Key LLMJudge.Collected) : Prop :=
  map_Forall (fun _ s => forallb is_number (LLMJudge.c_scores s) = true) category_stats.

(** A category's entry once its scores are averaged. *)
Definition category_entry (s : LLMJudge.Collected) : Judge.CategoryStats :=
  Judge.mkStats (LLMJudge.c_count s) (LLMJudge.c_passed s)
    (mean (map as_number (LLMJudge.c_scores s))).

(** The statistics of a batch of valid records, [failures] records having
    been left out. *)
Definition statistics (failures : nat) (valid_evals : list Dict) : LLMJudge.Summary :=
  {| LLMJudge.criteria_scores := criteria_table valid_evals Judge.evaluation_criteria ∅;
     LLMJudge.overall_average := mean (overall_numbers valid_evals);
     LLMJudge.pass_rate :=
       inject_Z (Z.of_nat (LLMJudge.pass_count valid_evals)) / len_Q valid_evals;
     LLMJudge.total_evaluated := length valid_evals;
     LLMJudge.total_failed := failures;
     LLMJudge.category_breakdown := category_entry <$> fold_left filed valid_evals ∅ |}.

(** A summary with its [total_failed] key overwritten. *)
Definition with_failures (n : nat) (d : LLMJudge.SummaryDict) : LLMJudge.SummaryDict :=
  match d with
  | LLMJudge.SummaryOf s =>
      LLMJudge.SummaryOf
        {| LLMJudge.criteria_scores := LLMJudge.criteria_scores s;
           LLMJudge.overall_average := LLMJudge.overall_average s;
           LLMJudge.pass_rate := LLMJudge.pass_rate s;
           LLMJudge.total_evaluated := LLMJudge.total_evaluated s;
           LLMJudge.total_failed := n;
           LLMJudge.category_breakdown := LLMJudge.category_breakdown s |}
  | d => d
  end.

(** The record [evaluate_test_set] builds for one question and response. *)
Definition judged (model : string) (call : Tests.JudgeCall) (test_q : TestQuestion)
           (response : option string) : Dict :=
  <["question_id" := JStr (q_id test_q)]>
    (LLMJudge.evaluate_response model (Tests.judged_at call) (Tests.reply call)
       (q_question test_q) response (q_ground_truth test_q)
       (default [] (q_source_documents test_q)) (q_category test_q)).

(** What the agent's call leaves as [agent_response]: what [chat]
    returned, or the empty text when it raised. *)
Definition transcript (call : AgentCall) : option string :=
  match outcome call with
  | Replied content => content
  | ChatRaised _ => Some ""
  end.

(** The judge's record for one question of [run_full_evaluation]. *)
Definition judged_answer (agent_call : AgentCall) (judge_call : Tests.JudgeCall)
           (test_q : TestQuestion) : Dict :=
  judged "gpt-4-turbo-preview" judge_call test_q (transcript agent_call).

(** The record of [run_full_evaluation] for one question: the judge's
    record with the agent's metadata. *)
Definition full_entry (agent_call : AgentCall) (judge_call : Tests.JudgeCall)
           (test_q : TestQuestion) : Dict :=
  Tests.merge_into (judged_answer agent_call judge_call test_q)
    (Tests.respond agent_call test_q).

(** The exception [evaluate_response] ends in when the agent returned
    [None]. *)
Definition no_content_error (test_q : TestQuestion) : Exn :=
  let evaluation_criteria :=
    default (Evals.mkCriteria None None) (q_evaluation_criteria test_q) in
  if truthy (default [] (Evals.must_include evaluation_criteria)) then AttributeError
  else if default true (Evals.should_cite evaluation_criteria)
          && truthy (default [] (q_source_documents test_q))
       then TypeError
       else AttributeError.

(** The agent returned a value without content. *)
Definition no_content (call : AgentCall) : bool :=
  match outcome call with
  | Replied None => true
  | _ => false
  end.

(** ** Where the results are written ([run_evaluation.main]) *)

Module Cli.

(** [s.replace(old, new)] for a non-empty [old]: the occurrences are
    replaced from the left, without overlap.  [skip] counts the characters
    of the current occurrence still to be passed over. *)
Fixpoint replace_from (skip : nat) (old new s : string) {struct s} : string :=
  match s with
  | EmptyString => EmptyString
  | String c s' =>
      match skip with
      | S k => replace_from k old new s'
      | O =>
          if PyStr.startswith old s
          then (new ++ replace_from (Nat.pred (String.length old)) old new s')%string
          else String c (replace_from O old new s')
      end
  end.

Definition replace (old new s : string) : string := replace_from O old new s.

(** The parsed command line, as far as the output paths depend on it. *)
Record Args : Type := mkArgs {
  evaluator : string;
  output : option string;
  compare : bool
}.

(** The evaluators [main] runs, in order, each with the path its results
    are saved to once its run completes. *)
Definition planned_outputs (args : Args) : list (string * string) :=
  let evaluator := if compare args then "both" else evaluator args in
  let given :=
    match output args with
    | Some (String c rest) => Some (String c rest)
    | _ => None
    end in
  let single (output_path : string) :=
    if String.eqb evaluator "llm-judge" then [("llm-judge", output_path)]
    else if String.eqb evaluator "openai-evals" then [("openai-evals", output_path)]
    else [] in
  match given with
  | Some out =>
      if String.eqb evaluator "both"
      then [ ("llm-judge", replace ".json" "_llm_judge.json" out);
             ("openai-evals", replace ".json" "_openai_evals.json" out) ]
      else single out
  | None =>
      let llm_output := "data/eval_results/llm_judge_results.json" in
      let evals_output := "data/eval_results/openai_evals_results.json" in
      if String.eqb evaluator "both"
      then [("llm-judge", llm_output); ("openai-evals", evals_output)]
      else single (if String.eqb evaluator "llm-judge" then llm_output else evals_output)
  end.

End Cli.

(** The number of occurrences [replace] finds. *)
Fixpoint occurrences_from (skip : nat) (old s : string) {struct s} : nat :=
  match s with
  | EmptyString => O
  | String _ s' =>
      match skip with
      | S k => occurrences_from k old s'
      | O =>
          if PyStr.startswith old s
          then S (occurrences_from (Nat.pred (String.length old)) old s')
          else occurrences_from O old s'
      end
  end.

(** Both evaluators are run: [--compare], or [--evaluator both] (the
    default). *)
Definition runs_both (args : Cli.Args) : Prop :=
  Cli.compare args = true \/ Cli.evaluator args = "both".


(** * Properties *)

(** ** Strings *)

Section StringFacts.

Lemma append_nil (s : string) : (EmptyString ++ s)%string = s.
Proof. reflexivity. Qed.

Lemma append_cons (c : ascii) (a b : string) :
  (String c a ++ b)%string = String c (a ++ b).
Proof. reflexivity. Qed.

Lemma startswith_spec (p s : string) :
  PyStr.startswith p s = true <-> exists post : string, s = (p ++ post)%string.
Proof.
  revert s. induction p as [|a p IH]; intros s.
  - simpl. split; [intros _; exists s; reflexivity | reflexivity].
  - destruct s as [|b s]; simpl.
    + split; [discriminate | intros [post H]; rewrite append_cons in H; discriminate].
    + rewrite andb_true_iff, Ascii.eqb_eq, IH. split.
      * intros [-> [post ->]]. exists post. reflexivity.
      * intros [post H]. rewrite append_cons in H. injection H as -> ->.
        split; [reflexivity | exists post; reflexivity].
Qed.

Lemma contains_unfold (needle hay : string) :
  PyStr.contains needle hay =
  PyStr.startswith needle hay ||
  match hay with
  | EmptyString => false
  | String _ hay' => PyStr.contains needle hay'
  end.
Proof. destruct hay; reflexivity. Qed.

(** [needle in hay] holds exactly when [needle] is a contiguous part of
    [hay]. *)
Lemma contains_spec (needle hay : string) :
  PyStr.contains needle hay = true <-> PyStr.substring_of needle hay.
Proof.
  unfold PyStr.substring_of. split.
  - induction hay as [|c hay IH]; rewrite contains_unfold, orb_true_iff.
    + intros [H | H]; [| discriminate].
      apply startswith_spec in H as [post ->]. exists EmptyString, post. reflexivity.
    + intros [H | H].
      * apply startswith_spec in H as [post H]. exists EmptyString, post. exact H.
      * destruct (IH H) as (pre & post & ->). exists (String c pre), post. reflexivity.
  - intros (pre & post & ->). induction pre as [|c pre IH].
    + rewrite contains_unfold, append_nil.
      replace (PyStr.startswith needle (needle ++ post)) with true; [reflexivity |].
      symmetry. apply startswith_spec. exists post. reflexivity.
    + rewrite contains_unfold, append_cons, IH. apply orb_true_r.
Qed.

End StringFacts.

(** ** Numbers *)

Lemma Qge_bool_iff (a b : Q) : Qge_bool a b = true <-> b <= a.
Proof. unfold Qge_bool. apply Qle_bool_iff. Qed.

Lemma Qgt_bool_iff (a b : Q) : Qgt_bool a b = true <-> b < a.
Proof.
  unfold Qgt_bool. rewrite Qgt_alt. destruct (a ?= b); split; congruence.
Qed.

Lemma truthy_filter {A} (f : A -> bool) (l : list A) :
  truthy (List.filter f l) = existsb f l.
Proof.
  induction l as [|x l IH]; simpl; [reflexivity |].
  destruct (f x); simpl; [reflexivity | exact IH].
Qed.

(** ** The keyword grader *)

Section KeywordFacts.

Variable response : string.

Let sat (item : string) : bool := Keyword.item_satisfiedb response item.

Lemma first_alternative_existsb (alternatives : list string) :
  match Keyword.first_alternative (PyStr.lower response) alternatives with
  | Some _ => true
  | None => false
  end
  = existsb (fun alt => PyStr.contains (PyStr.lower (PyStr.strip alt)) (PyStr.lower response))
            alternatives.
Proof.
  induction alternatives as [|alt rest IH]; simpl; [reflexivity |].
  destruct (PyStr.contains _ _); simpl; [reflexivity | exact IH].
Qed.

(** The two accumulators of the loop in closed form. *)
Lemma scan_closed_form (required found missing : list string) :
  Keyword.scan (PyStr.lower response) required found missing
  = ((found ++ omap (fun kw => Keyword.first_alternative (PyStr.lower response)
                                 (PyStr.split "|" kw)) required)%list,
     (missing ++ List.filter (fun kw => negb (sat kw)) required)%list).
Proof.
  revert found missing. induction required as [|kw rest IH]; intros found missing; simpl.
  - rewrite !app_nil_r. reflexivity.
  - pose proof (first_alternative_existsb (PyStr.split "|" kw)) as H.
    unfold sat, Keyword.item_satisfiedb. rewrite <- H.
    destruct (Keyword.first_alternative _ _) as [alt|]; simpl; rewrite IH.
    + rewrite <- app_assoc. reflexivity.
    + rewrite <- app_assoc. reflexivity.
Qed.

Lemma found_length (required : list string) :
  length (omap (fun kw => Keyword.first_alternative (PyStr.lower response)
                            (PyStr.split "|" kw)) required)
  = length (List.filter sat required).
Proof.
  induction required as [|kw rest IH]; simpl; [reflexivity |].
  pose proof (first_alternative_existsb (PyStr.split "|" kw)) as H.
  unfold sat at 1, Keyword.item_satisfiedb. rewrite <- H.
  destruct (Keyword.first_alternative _ _); simpl; [f_equal |]; exact IH.
Qed.

Lemma missing_none (required : list string) :
  (length (List.filter (fun kw => negb (sat kw)) required) =? 0)%nat = forallb sat required.
Proof.
  induction required as [|kw rest IH]; simpl; [reflexivity |].
  destruct (sat kw); simpl; [exact IH | reflexivity].
Qed.

Lemma item_satisfiedb_spec (item : string) :
  Keyword.item_satisfiedb response item = true <-> Keyword.item_satisfied response item.
Proof.
  unfold Keyword.item_satisfiedb, Keyword.item_satisfied, PyStr.contains_ci.
  rewrite existsb_exists. split; intros (alt & Hin & H); exists alt; split; try assumption.
  - apply contains_spec. exact H.
  - apply contains_spec. exact H.
Qed.

Lemma forallb_satisfied (required : list string) :
  forallb sat required = true <-> Forall (Keyword.item_satisfied response) required.
Proof.
  rewrite forallb_forall, List.Forall_forall. unfold sat.
  split; intros H x Hx; apply item_satisfiedb_spec, H, Hx.
Qed.

End KeywordFacts.

Lemma item_contains_alternativeb_spec (response item : string) :
  Keyword.item_contains_alternativeb response item = true
  <-> Keyword.item_contains_alternative response item.
Proof.
  unfold Keyword.item_contains_alternativeb, Keyword.item_contains_alternative,
    PyStr.contains_ci.
  rewrite existsb_exists. split; intros (alt & Hin & H); exists alt; split; try assumption.
  - apply contains_spec. exact H.
  - apply contains_spec. exact H.
Qed.

(** C3, against the claim.  The item "S&P 500 | SPX" has the alternatives
    "S&P 500 " and " SPX"; neither occurs in the response "SPX up", so the
    claim's ratio is 0 of 1, yet the grader scores 1: it strips every
    alternative before it looks for it. *)
Lemma keyword_alternatives_are_stripped :
  let response := "SPX up" in
  let required := ["S&P 500 | SPX"] in
  let r := Keyword.grade_keyword_inclusion response required true in
  PyStr.split "|" "S&P 500 | SPX" = ["S&P 500 "; " SPX"]
  /\ ~ Keyword.item_contains_alternative response "S&P 500 | SPX"
  /\ Grade.score r == 1
  /\ ~ Grade.score r
        == len_Q (List.filter (Keyword.item_contains_alternativeb response) required)
           / len_Q required.
Proof.
  cbv zeta. split; [reflexivity |]. split; [| split].
  - intros H. apply item_contains_alternativeb_spec in H. vm_compute in H. discriminate.
  - vm_compute. reflexivity.
  - vm_compute. discriminate.
Qed.

(** C3, amended.  For every response and every non-empty list of required
    items, the keyword grader with partial credit scores the number of
    satisfied items over the number of items, where an item is satisfied
    when the response contains, up to case, one of its ['|']-separated
    alternatives with the surrounding blanks of the alternative removed;
    without partial credit the score is
    1 when all items are satisfied and 0 otherwise; in both modes the grade
    passes exactly when the score is at least 0.7; and the response
    "S&P 500 target 6600" scores 1 against ["S&P 500|SPX"; "6,600|6600"]. *)
Theorem keyword_score_is_satisfied_ratio (response : string) (required : list string) :
  required <> [] ->
  let satisfied := List.filter (Keyword.item_satisfiedb response) required in
  let partial := Keyword.grade_keyword_inclusion response required true in
  let binary := Keyword.grade_keyword_inclusion response required false in
  (forall item, In item satisfied <->
                In item required /\ Keyword.item_satisfied response item)
  /\ Grade.score partial = len_Q satisfied / len_Q required
  /\ (Forall (Keyword.item_satisfied response) required -> Grade.score binary = 1)
  /\ (~ Forall (Keyword.item_satisfied response) required -> Grade.score binary = 0)
  /\ (forall partial_credit,
        let r := Keyword.grade_keyword_inclusion response required partial_credit in
        Grade.passed r = true <-> 7 # 10 <= Grade.score r)
  /\ Grade.score (Keyword.grade_keyword_inclusion "S&P 500 target 6600"
                    ["S&P 500|SPX"; "6,600|6600"] true) == 1.
Proof.
  intros Hne. cbv zeta. unfold Keyword.grade_keyword_inclusion.
  rewrite (scan_closed_form response required [] []). cbn [app].
  split; [| split; [| split; [| split; [| split]]]].
  - intros item. rewrite filter_In, item_satisfiedb_spec. reflexivity.
  - destruct required as [|kw rest]; [contradiction |]. cbn [Grade.score].
    unfold len_Q. rewrite found_length. reflexivity.
  - intros Hall. cbn [Grade.score]. rewrite missing_none.
    apply forallb_satisfied in Hall. rewrite Hall. reflexivity.
  - intros Hnot. cbn [Grade.score]. rewrite missing_none.
    destruct (forallb _ required) eqn:E; [| reflexivity].
    apply forallb_satisfied in E. contradiction.
  - intros partial_credit. cbn [Grade.score Grade.passed]. apply Qge_bool_iff.
  - vm_compute. reflexivity.
Qed.

(** The ratio at a three-item list of which two items are satisfied. *)
Lemma keyword_score_is_satisfied_ratio_witness :
  ["6,600|6600"; "S&P 500 | SPX"; "record"] <> []
  /\ Grade.score (Keyword.grade_keyword_inclusion "The target is 6,600, a record"
                 ["6,600|6600"; "S&P 500 | SPX"; "record"] true)
  = len_Q (List.filter (Keyword.item_satisfiedb "The target is 6,600, a record")
             ["6,600|6600"; "S&P 500 | SPX"; "record"])
    / len_Q ["6,600|6600"; "S&P 500 | SPX"; "record"].
Proof.
  split; [discriminate |].
  refine (proj1 (proj2 (keyword_score_is_satisfied_ratio
                          "The target is 6,600, a record"
                          ["6,600|6600"; "S&P 500 | SPX"; "record"] _))).
  discriminate.
Defined.

(** C8, against the claim: invoked with the empty list under partial
    credit, the keyword grader does not report a skipped full-credit
    grade. *)
Lemma keyword_grader_empty_list_not_skipped :
  ~ (let r := Keyword.grade_keyword_inclusion "The target is 6,600" [] true in
     Grade.score r == 1 /\ Grade.passed r = true /\ Grade.grader r = "skipped").
Proof. cbv zeta. intros (H & _). vm_compute in H. discriminate. Qed.

(** C8, amended.  When the test case's list of required items is empty or
    absent, the per-test-case evaluation does not call the keyword grader:
    its keyword entry is score 1.0, passed true, grader "skipped".  The
    keyword grader itself, called with the empty list, marks nothing as
    skipped: with partial credit it returns score 0.0, passed false, and
    without partial credit score 1.0, passed true, both under the grader
    name "keyword_inclusion". *)
Theorem empty_requirements_skip_in_evaluation
        (now question_id question response ground_truth : string)
        (evaluation_criteria : Evals.Criteria) (source_docs : list string)
        (category : string) :
  default [] (Evals.must_include evaluation_criteria) = [] ->
  let r := Evals.evaluate_response now question_id question response ground_truth
             evaluation_criteria source_docs category in
  Evals.checks r !! "keyword_check" = Some Evals.skipped
  /\ Grade.score Evals.skipped = 1
  /\ Grade.passed Evals.skipped = true
  /\ Grade.grader Evals.skipped = "skipped"
  /\ Keyword.grade_keyword_inclusion response [] true
     = Grade.mkGrade 0 false "keyword_inclusion" (KeywordEvidence [] [])
  /\ Keyword.grade_keyword_inclusion response [] false
     = Grade.mkGrade 1 true "keyword_inclusion" (KeywordEvidence [] []).
Proof.
  intros Hempty. cbv zeta. unfold Evals.evaluate_response. cbn [Evals.checks].
  split; [| repeat split].
  rewrite lookup_insert_ne by discriminate.
  rewrite lookup_insert_ne by discriminate.
  rewrite lookup_insert_eq. unfold Evals.keyword_step. rewrite Hempty. reflexivity.
Qed.

(** A test case without [must_include]: the keyword entry is the skipped
    one. *)
Lemma empty_requirements_skip_in_evaluation_witness :
  default [] (Evals.must_include (Evals.mkCriteria None (Some false))) = []
  /\ Evals.checks (Evals.evaluate_response "2025-03-01T10:00:00" "q7" "What is the outlook?"
                  "It is positive" "positive" (Evals.mkCriteria None (Some false))
                  ["UBS_House_View_March_2025.pdf"] "synthesis")
    !! "keyword_check" = Some Evals.skipped.
Proof.
  split; [reflexivity |].
  refine (proj1 (empty_requirements_skip_in_evaluation
                   "2025-03-01T10:00:00" "q7" "What is the outlook?"
                   "It is positive" "positive" (Evals.mkCriteria None (Some false))
                   ["UBS_House_View_March_2025.pdf"] "synthesis" _)).
  reflexivity.
Defined.

(** ** The compliance grader *)

Lemma compliance_keywords_lower :
  Forall (fun kw => PyStr.lower kw = kw) Compliance.compliance_keywords.
Proof. repeat constructor. Qed.

Lemma phrase_present_spec (response : string) :
  existsb (fun kw => PyStr.contains kw (PyStr.lower response)) Compliance.compliance_keywords
  = true <-> Compliance.phrase_present response.
Proof.
  unfold Compliance.phrase_present, PyStr.contains_ci. rewrite existsb_exists.
  pose proof compliance_keywords_lower as Hlow. rewrite List.Forall_forall in Hlow.
  split; intros (kw & Hin & H); exists kw; (split; [exact Hin |]).
  - rewrite (Hlow kw Hin). apply contains_spec. exact H.
  - rewrite (Hlow kw Hin) in H. apply contains_spec. exact H.
Qed.

Lemma disclaimer_category_spec (category : string) :
  Compliance.disclaimer_category category = true
  <-> category = "comparative" \/ category = "edge_cases".
Proof.
  unfold Compliance.disclaimer_category. cbn [existsb].
  rewrite !orb_true_iff, !String.eqb_eq. intuition discriminate.
Qed.

(** C5.  For every response: in the categories "comparative" and
    "edge_cases" the compliance grader scores 1.0 when some compliance
    phrase occurs in the response up to case and 0.5 otherwise; in every
    other category it scores 1.0 when a phrase occurs and 0.8 otherwise; the
    grade passes exactly when the score is at least 0.7, so an "edge_cases"
    response without any compliance phrase scores 0.5 and fails. *)
Theorem compliance_score_by_category (response category : string) :
  let r := Compliance.grade_compliance response category in
  (category = "comparative" \/ category = "edge_cases" ->
   (Compliance.phrase_present response -> Grade.score r = 1)
   /\ (~ Compliance.phrase_present response -> Grade.score r = 1 # 2))
  /\ (category <> "comparative" -> category <> "edge_cases" ->
      (Compliance.phrase_present response -> Grade.score r = 1)
      /\ (~ Compliance.phrase_present response -> Grade.score r = 4 # 5))
  /\ (Grade.passed r = true <-> 7 # 10 <= Grade.score r)
  /\ (category = "edge_cases" -> ~ Compliance.phrase_present response ->
      Grade.score r = 1 # 2 /\ Grade.passed r = false).
Proof.
  cbv zeta. unfold Compliance.grade_compliance. cbn [Grade.score Grade.passed].
  rewrite truthy_filter.
  pose proof (phrase_present_spec response) as Hp.
  pose proof (disclaimer_category_spec category) as Hc.
  destruct (Compliance.disclaimer_category category) eqn:Ec;
    destruct (existsb _ Compliance.compliance_keywords) eqn:Ep.
  all: split; [| split; [| split]].
  all: try (apply Qge_bool_iff).
  all: try (intros Hcat; split; intros Hph).
  all: try (intros Hn1 Hn2; split; intros Hph).
  all: try (intros Hcat Hph).
  all: try reflexivity.
  all: try (exfalso; apply Hph, Hp; reflexivity).
  all: try (apply Hp in Hph; discriminate).
  all: try (exfalso; destruct (proj1 Hc eq_refl); contradiction).
  all: try (exfalso; assert (false = true) by (apply Hc; auto); discriminate).
  all: split; reflexivity.
Qed.

(** An "edge_cases" answer without any compliance phrase. *)
Lemma compliance_score_by_category_witness :
  "edge_cases" = "edge_cases"
  /\ ~ Compliance.phrase_present "Buy the index now."
  /\ Grade.score (Compliance.grade_compliance "Buy the index now." "edge_cases") = 1 # 2
  /\ Grade.passed (Compliance.grade_compliance "Buy the index now." "edge_cases") = false.
Proof.
  assert (Hno : ~ Compliance.phrase_present "Buy the index now.").
  { intros H. apply phrase_present_spec in H. vm_compute in H. discriminate. }
  split; [reflexivity |]. split; [exact Hno |].
  exact (proj2 (proj2 (proj2 (compliance_score_by_category "Buy the index now." "edge_cases")))
               eq_refl Hno).
Defined.

(** ** Score ranges *)

Lemma ratio_in_unit_interval (a b : nat) :
  (a <= b)%nat -> (0 < b)%nat ->
  unit_interval (inject_Z (Z.of_nat a) / inject_Z (Z.of_nat b)).
Proof.
  intros Hab Hb.
  assert (Hpos : 0 < inject_Z (Z.of_nat b)).
  { unfold Qlt. simpl. lia. }
  split.
  - apply Qle_shift_div_l; [exact Hpos |]. unfold Qle. simpl. lia.
  - apply Qle_shift_div_r; [exact Hpos |]. unfold Qle. simpl. lia.
Qed.

Lemma keyword_score_range (response : string) (required : list string) (partial_credit : bool) :
  unit_interval (Grade.score (Keyword.grade_keyword_inclusion response required partial_credit)).
Proof.
  unfold Keyword.grade_keyword_inclusion.
  rewrite (scan_closed_form response required [] []). cbn [app Grade.score].
  destruct partial_credit.
  - destruct required as [|kw rest]; [split; discriminate |].
    unfold len_Q. rewrite found_length. apply ratio_in_unit_interval.
    + apply List.filter_length_le.
    + simpl. lia.
  - destruct (_ =? _)%nat; split; discriminate.
Qed.

Lemma citation_score_range (response : string) (expected_sources : list string) :
  unit_interval (Grade.score (Citation.grade_citation_quality response expected_sources)).
Proof.
  unfold Citation.grade_citation_quality.
  destruct (Citation.has_citations response);
    destruct (truthy _); split; discriminate.
Qed.

Lemma compliance_score_range (response category : string) :
  unit_interval (Grade.score (Compliance.grade_compliance response category)).
Proof.
  unfold Compliance.grade_compliance. cbn [Grade.score].
  destruct (Compliance.disclaimer_category category);
    [destruct (existsb _ _) | destruct (truthy _)]; split; discriminate.
Qed.

Lemma skipped_score_range : unit_interval (Grade.score Evals.skipped).
Proof. split; discriminate. Qed.

(** ** The deterministic evaluator *)

Section EvaluateResponse.

Variables (now question_id question response ground_truth : string).
Variables (evaluation_criteria : Evals.Criteria) (source_docs : list string).
Variable category : string.

Let r : Evals.EvaluationRecord :=
  Evals.evaluate_response now question_id question response ground_truth
    evaluation_criteria source_docs category.

Lemma checks_lookup :
  Evals.checks r !! "keyword_check" = Some (Evals.keyword_step response evaluation_criteria)
  /\ Evals.checks r !! "citation_check"
     = Some (Evals.citation_step response evaluation_criteria source_docs)
  /\ Evals.checks r !! "compliance_check"
     = Some (Compliance.grade_compliance response category).
Proof.
  unfold r, Evals.evaluate_response. cbn [Evals.checks]. split; [| split].
  - rewrite !lookup_insert_ne by discriminate. apply lookup_insert_eq.
  - rewrite lookup_insert_ne by discriminate. apply lookup_insert_eq.
  - apply lookup_insert_eq.
Qed.

Lemma weighted_terms_checks :
  Evals.weighted_terms (Evals.checks r)
  = [ Grade.score (Evals.keyword_step response evaluation_criteria) * (1 # 2);
      Grade.score (Evals.citation_step response evaluation_criteria source_docs) * (3 # 10);
      Grade.score (Compliance.grade_compliance response category) * (1 # 5) ].
Proof.
  destruct checks_lookup as (Hk & Hc & Hm).
  unfold Evals.weighted_terms, Evals.weights. cbn [flat_map].
  rewrite Hk, Hc, Hm. reflexivity.
Qed.

Lemma overall_score_unfold :
  Evals.overall_score r = py_sum (Evals.weighted_terms (Evals.checks r)).
Proof. reflexivity. Qed.

Lemma overall_score_sum :
  Evals.overall_score r
  == (1 # 2) * Grade.score (Evals.keyword_step response evaluation_criteria)
     + (3 # 10) * Grade.score (Evals.citation_step response evaluation_criteria source_docs)
     + (1 # 5) * Grade.score (Compliance.grade_compliance response category).
Proof.
  rewrite overall_score_unfold, weighted_terms_checks. unfold py_sum. cbn [fold_left]. ring.
Qed.

Lemma keyword_step_range :
  unit_interval (Grade.score (Evals.keyword_step response evaluation_criteria)).
Proof.
  unfold Evals.keyword_step. destruct (truthy _).
  - apply keyword_score_range.
  - apply skipped_score_range.
Qed.

Lemma citation_step_range :
  unit_interval (Grade.score (Evals.citation_step response evaluation_criteria source_docs)).
Proof.
  unfold Evals.citation_step. destruct (_ && _).
  - apply citation_score_range.
  - apply skipped_score_range.
Qed.

End EvaluateResponse.

(** C2.  For every evaluated test case the deterministic evaluator's
    overall score is 0.5 * keyword score + 0.3 * citation score + 0.2 *
    compliance score, where a grader that is skipped for the test case
    enters with score 1.0; every grader score lies in [0,1] and so does the
    overall score; and the record passes exactly when the overall score is
    at least 0.7. *)
Theorem overall_score_weighted_sum
        (now question_id question response ground_truth : string)
        (evaluation_criteria : Evals.Criteria) (source_docs : list string)
        (category : string) :
  let r := Evals.evaluate_response now question_id question response ground_truth
             evaluation_criteria source_docs category in
  let must_include := default [] (Evals.must_include evaluation_criteria) in
  let should_cite := default true (Evals.should_cite evaluation_criteria) in
  exists keyword citation compliance : GradeResult,
    Evals.checks r !! "keyword_check" = Some keyword
    /\ Evals.checks r !! "citation_check" = Some citation
    /\ Evals.checks r !! "compliance_check" = Some compliance
    /\ keyword = (match must_include with
                  | [] => Evals.skipped
                  | _ :: _ => Keyword.grade_keyword_inclusion response must_include true
                  end)
    /\ citation = (match should_cite, source_docs with
                   | true, _ :: _ => Citation.grade_citation_quality response source_docs
                   | _, _ => Evals.skipped
                   end)
    /\ compliance = Compliance.grade_compliance response category
    /\ Grade.score Evals.skipped = 1
    /\ Evals.overall_score r
       == (1 # 2) * Grade.score keyword + (3 # 10) * Grade.score citation
          + (1 # 5) * Grade.score compliance
    /\ unit_interval (Grade.score keyword)
    /\ unit_interval (Grade.score citation)
    /\ unit_interval (Grade.score compliance)
    /\ unit_interval (Evals.overall_score r)
    /\ (Evals.passed r = true <-> 7 # 10 <= Evals.overall_score r).
Proof.
  cbv zeta.
  destruct (checks_lookup now question_id question response ground_truth
              evaluation_criteria source_docs category) as (Hk & Hc & Hm).
  pose proof (keyword_step_range response evaluation_criteria) as Rk.
  pose proof (citation_step_range response evaluation_criteria source_docs) as Rc.
  pose proof (compliance_score_range response category) as Rm.
  exists (Evals.keyword_step response evaluation_criteria),
         (Evals.citation_step response evaluation_criteria source_docs),
         (Compliance.grade_compliance response category).
  pose proof (overall_score_sum now question_id question response ground_truth
                evaluation_criteria source_docs category) as Hsum.
  split; [exact Hk |]. split; [exact Hc |]. split; [exact Hm |].
  split. { unfold Evals.keyword_step. destruct (default [] _); reflexivity. }
  split. { unfold Evals.citation_step. destruct (default true _), source_docs; reflexivity. }
  split; [reflexivity |]. split; [reflexivity |].
  split; [exact Hsum |]. split; [exact Rk |]. split; [exact Rc |]. split; [exact Rm |].
  split.
  - unfold unit_interval in *. rewrite Hsum. destruct Rk, Rc, Rm. split; lra.
  - apply Qge_bool_iff.
Qed.

(** ** The citation grader *)

(** The scoring policy of [grade_citation_quality], over what the grader
    computed for its two tests. *)
Lemma citation_policy (response : string) (expected_sources : list string) :
  let r := Citation.grade_citation_quality response expected_sources in
  let has := Citation.has_citations response in
  let mentioned := Citation.sources_mentioned response expected_sources in
  Grade.evidence r
  = CitationEvidence has mentioned
      (match has, mentioned with
       | true, _ :: _ => "excellent"
       | true, [] => "good"
       | false, _ :: _ => "partial"
       | false, [] => "none"
       end)
  /\ Grade.score r
     = (match has, mentioned with
        | true, _ :: _ => 1
        | true, [] => 7 # 10
        | false, _ :: _ => 1 # 2
        | false, [] => 0
        end)
  /\ (Grade.passed r = true <-> 1 # 2 <= Grade.score r).
Proof.
  cbv zeta. unfold Citation.grade_citation_quality.
  destruct (Citation.has_citations response);
    destruct (Citation.sources_mentioned response expected_sources);
    cbn; (split; [reflexivity | split; [reflexivity | apply Qge_bool_iff]]).
Qed.

(** C4, at the specification's own example.  For the response
    "According to UBS House View March 2025 (Page 17)" and the expected
    source "UBS_House_View_March_2025.pdf" the grader finds a citation
    pattern, but extracts no period label from the source name (the
    pattern wants blanks, not an underscore, between month and year), so no
    source counts as mentioned: the grade is 0.7 "good", where the
    specification and the grader's own comment expect 1.0 "excellent". *)
Theorem citation_example_is_good_not_excellent :
  let response := "According to UBS House View March 2025 (Page 17)" in
  let source := "UBS_House_View_March_2025.pdf" in
  let r := Citation.grade_citation_quality response [source] in
  Citation.has_citations response = true
  /\ PyStr.contains (PyStr.lower "March 2025") (PyStr.lower response) = true
  /\ Citation.findall source = []
  /\ Citation.sources_mentioned response [source] = []
  /\ Grade.score r = 7 # 10
  /\ Grade.evidence r = CitationEvidence true [] "good"
  /\ Grade.passed r = true.
Proof. vm_compute. repeat split. Qed.

(** ** The comparator *)

(** C1, at the specification's own example.  With a judgment overall
    average of 4.0 and a deterministic overall average of 0.8,
    [compare_overall_scores] subtracts the raw averages: the reported
    difference is 3.2 and the winner is the judgment evaluator, where the
    normalised averages 0.8 and 0.8 differ by 0; in general the difference
    is that of the raw averages, while [compare_by_category] divides the
    judgment score by 5. *)
Theorem overall_difference_is_not_normalized :
  let llm := Compare.mkResults 4 ∅ in
  let evals := Compare.mkResults (8 # 10) ∅ in
  let c := Compare.compare_overall_scores llm evals in
  Compare.llm_judge_score c = 4
  /\ Compare.difference c == 32 # 10
  /\ ~ Compare.difference c == Qabs (4 / 5 - (8 # 10))
  /\ Compare.winner c = "llm-judge"
  /\ (forall a b : Compare.ResultSummary,
        Compare.difference (Compare.compare_overall_scores a b)
        = Qabs (Compare.overall_average a - Compare.overall_average b))
  /\ Compare.normalize 4 == 8 # 10.
Proof.
  cbv zeta. split; [reflexivity |]. split; [reflexivity |].
  split; [intros H; vm_compute in H; discriminate |].
  split; [reflexivity |]. split; [reflexivity |]. reflexivity.
Qed.

Lemma normalize_spec (llm_score : Q) : Compare.normalize llm_score == llm_score / 5.
Proof.
  unfold Compare.normalize. destruct (Qeq_bool llm_score 0) eqn:E; [| reflexivity].
  apply Qeq_bool_iff in E. rewrite E. reflexivity.
Qed.

Lemma compare_by_category_lookup (llm_results evals_results : Compare.ResultSummary)
      (category : string) :
  Compare.compare_by_category llm_results evals_results !! category
  = if decide (category ∈ dom (Compare.category_breakdown llm_results)
                          ∪ dom (Compare.category_breakdown evals_results))
    then Some (Compare.compare_category (Compare.category_breakdown llm_results)
                 (Compare.category_breakdown evals_results) category)
    else None.
Proof.
  unfold Compare.compare_by_category.
  set (keys := dom _ ∪ dom _).
  set (f := fun c : string => (c, Compare.compare_category _ _ c)).
  assert (Hinj : forall y y' : string, y ∈ keys -> y' ∈ keys -> (f y).1 = (f y').1 -> y = y').
  { intros y y' _ _ H. exact H. }
  destruct (decide (category ∈ keys)) as [Hin | Hout].
  - apply (lookup_set_to_map f keys category _ Hinj). exists category.
    split; [exact Hin | reflexivity].
  - destruct (set_to_map f keys !! category) as [x |] eqn:E; [| reflexivity].
    apply (lookup_set_to_map f keys category x Hinj) in E as (y & Hy & Hf).
    unfold f in Hf. injection Hf as -> _. contradiction.
Qed.

Lemma Qgt_bool_proper (a a' b b' : Q) :
  a == a' -> b == b' -> Qgt_bool a b = Qgt_bool a' b'.
Proof. intros Ha Hb. unfold Qgt_bool. rewrite Ha, Hb. reflexivity. Qed.

(** C9.  For every pair of result sets and every category of either, the
    comparison entry holds the judgment score divided by 5 and the
    deterministic score, and names the judgment evaluator better exactly
    when its normalised score is strictly greater, the deterministic
    evaluator otherwise; the verdict is a function of the two scores, so
    whenever they are equal it is the same fixed winner, the deterministic
    evaluator ("openai-evals"). *)
Theorem category_winner_strict_with_fixed_tiebreak
        (llm_results evals_results : Compare.ResultSummary) (category : string)
        (entry : Compare.CategoryComparison) :
  Compare.compare_by_category llm_results evals_results !! category = Some entry ->
  let llm_score := Compare.get_avg_score (Compare.category_breakdown llm_results) category in
  let evals_score := Compare.get_avg_score (Compare.category_breakdown evals_results) category in
  (category ∈ dom (Compare.category_breakdown llm_results)
              ∪ dom (Compare.category_breakdown evals_results))
  /\ Compare.llm_judge entry == llm_score / 5
  /\ Compare.openai_evals entry = evals_score
  /\ (Compare.better_evaluator entry = "llm-judge"
      <-> Compare.openai_evals entry < Compare.llm_judge entry)
  /\ (Compare.better_evaluator entry = "openai-evals"
      <-> ~ Compare.openai_evals entry < Compare.llm_judge entry)
  /\ (Compare.llm_judge entry == Compare.openai_evals entry ->
      Compare.better_evaluator entry = "openai-evals")
  /\ (forall (llm_results' evals_results' : Compare.ResultSummary) (category' : string)
             (entry' : Compare.CategoryComparison),
        Compare.compare_by_category llm_results' evals_results' !! category' = Some entry' ->
        Compare.llm_judge entry' == Compare.llm_judge entry ->
        Compare.openai_evals entry' == Compare.openai_evals entry ->
        Compare.better_evaluator entry' = Compare.better_evaluator entry).
Proof.
  intros Hlook. cbv zeta. rewrite compare_by_category_lookup in Hlook.
  destruct (decide _) as [Hin | Hout]; [| discriminate].
  injection Hlook as <-. unfold Compare.compare_category.
  cbn [Compare.llm_judge Compare.openai_evals Compare.better_evaluator].
  split; [exact Hin |]. split; [apply normalize_spec |]. split; [reflexivity |].
  set (a := Compare.normalize _). set (b := Compare.get_avg_score _ category).
  pose proof (Qgt_bool_iff a b) as Hgt.
  split; [| split; [| split]].
  - destruct (Qgt_bool a b); split; intros H; try reflexivity; try discriminate.
    + apply Hgt. reflexivity.
    + apply Hgt in H. discriminate.
  - destruct (Qgt_bool a b); split; intros H; try reflexivity; try discriminate.
    + exfalso. apply H, Hgt. reflexivity.
    + intros Hlt. apply Hgt in Hlt. discriminate.
  - intros Heq. destruct (Qgt_bool a b); [| reflexivity].
    assert (Hlt : b < a) by (apply Hgt; reflexivity).
    rewrite Heq in Hlt. exfalso. exact (Qlt_irrefl _ Hlt).
  - intros llm' evals' category' entry' Hlook' Ha Hb.
    rewrite compare_by_category_lookup in Hlook'.
    destruct (decide _) as [Hin' | Hout']; [| discriminate].
    injection Hlook' as <-. unfold Compare.compare_category in *.
    cbn [Compare.llm_judge Compare.openai_evals Compare.better_evaluator] in *.
    rewrite (Qgt_bool_proper _ _ _ _ Ha Hb). reflexivity.
Qed.

(** A tie at 0.75: judgment average 3.75, deterministic average 0.75. *)
Lemma category_winner_strict_with_fixed_tiebreak_witness :
  let llm := Compare.mkResults (15 # 4)
               (<["factual_recall" := Compare.mkEntry (Some (15 # 4))]> ∅) in
  let evals := Compare.mkResults (3 # 4)
                 (<["factual_recall" := Compare.mkEntry (Some (3 # 4))]> ∅) in
  let entry := Compare.mkComparison (15 # 20) (3 # 4) "openai-evals" in
  Compare.compare_by_category llm evals !! "factual_recall" = Some entry
  /\ Compare.llm_judge entry == Compare.openai_evals entry
  /\ Compare.better_evaluator entry = "openai-evals".
Proof.
  cbv zeta.
  assert (Hlook : Compare.compare_by_category
                    (Compare.mkResults (15 # 4)
                       (<["factual_recall" := Compare.mkEntry (Some (15 # 4))]> ∅))
                    (Compare.mkResults (3 # 4)
                       (<["factual_recall" := Compare.mkEntry (Some (3 # 4))]> ∅))
                  !! "factual_recall"
                  = Some (Compare.mkComparison (15 # 20) (3 # 4) "openai-evals")).
  { vm_compute. reflexivity. }
  assert (Htie : Compare.llm_judge (Compare.mkComparison (15 # 20) (3 # 4) "openai-evals")
                 == Compare.openai_evals (Compare.mkComparison (15 # 20) (3 # 4) "openai-evals")).
  { reflexivity. }
  split; [exact Hlook |]. split; [exact Htie |].
  exact (proj1 (proj2 (proj2 (proj2 (proj2 (proj2
           (category_winner_strict_with_fixed_tiebreak _ _ _ _ Hlook)))))) Htie).
Defined.

(** ** Batch summaries *)

Lemma len_Q_cons_nonzero {A} (x : A) (xs : list A) : Qeq_bool (len_Q (x :: xs)) 0 = false.
Proof.
  destruct (Qeq_bool _ 0) eqn:E; [| reflexivity].
  apply Qeq_bool_iff in E. unfold len_Q, Qeq in E. simpl in E. lia.
Qed.

Lemma py_div_len {A} (a : Q) (x : A) (xs : list A) :
  py_div a (len_Q (x :: xs)) = Some (a / len_Q (x :: xs)).
Proof. unfold py_div. rewrite len_Q_cons_nonzero. reflexivity. Qed.

Lemma mean_or_zero_total (xs : list Q) : mean_or_zero xs = Some (mean xs).
Proof. destruct xs as [|x xs]; [reflexivity | apply py_div_len]. Qed.

Lemma evals_averaged_total (category_stats : gmap string Evals.CategoryStats) :
  Evals.averaged category_stats
  = Some ((fun s => Evals.mkStats (Evals.count s) (Evals.cat_passed s) (Evals.scores s)
                      (Some (mean (Evals.scores s)))) <$> category_stats).
Proof.
  unfold Evals.averaged.
  apply (map_fold_weak_ind (fun r m => r = Some (_ <$> m))).
  - rewrite fmap_empty. reflexivity.
  - intros cat s m r Hfresh ->. cbn. rewrite mean_or_zero_total. cbn.
    rewrite fmap_insert. reflexivity.
Qed.

Lemma judge_averaged_total (category_stats : gmap string Judge.Collected) :
  Judge.averaged category_stats
  = Some ((fun s => Judge.mkStats (Judge.c_count s) (Judge.c_passed s)
                      (mean (Judge.c_scores s))) <$> category_stats).
Proof.
  unfold Judge.averaged.
  apply (map_fold_weak_ind (fun r m => r = Some (_ <$> m))).
  - rewrite fmap_empty. reflexivity.
  - intros cat s m r Hfresh ->. cbn. rewrite mean_or_zero_total. cbn.
    rewrite fmap_insert. reflexivity.
Qed.

Lemma run_scores_where_ran (check : string) (evaluations : list Evals.EvaluationRecord) :
  Evals.run_scores check evaluations
  = map (check_score check) (List.filter (grader_ran check) evaluations).
Proof.
  unfold Evals.run_scores.
  induction evaluations as [|e rest IH]; [reflexivity |].
  cbn [omap list_omap List.filter]. unfold grader_ran at 1.
  destruct (Evals.checks e !! check) as [g |] eqn:E; [| exact IH].
  destruct (negb _); [| exact IH].
  cbn [map]. unfold check_score at 1. rewrite E, IH. reflexivity.
Qed.

(** The deterministic summary always returns: its divisions are guarded. *)
Lemma evals_summary_total (e : Evals.EvaluationRecord) (rest : list Evals.EvaluationRecord) :
  let evaluations := e :: rest in
  Evals._calculate_summary evaluations
  = Some (Evals.SummaryOf
            {| Evals.overall_average := mean (map Evals.overall_score evaluations);
               Evals.pass_rate :=
                 inject_Z (Z.of_nat (Evals.pass_count evaluations)) / len_Q evaluations;
               Evals.avg_keyword_score := mean (Evals.run_scores "keyword_check" evaluations);
               Evals.avg_citation_score := mean (Evals.run_scores "citation_check" evaluations);
               Evals.avg_compliance_score :=
                 mean (Evals.present_scores "compliance_check" evaluations);
               Evals.total_evaluated := length evaluations;
               Evals.category_breakdown :=
                 (fun s => Evals.mkStats (Evals.count s) (Evals.cat_passed s) (Evals.scores s)
                             (Some (mean (Evals.scores s))))
                   <$> fold_left Evals.tally evaluations ∅ |}).
Proof.
  cbv zeta. unfold Evals._calculate_summary.
  rewrite evals_averaged_total, !mean_or_zero_total, py_div_len. reflexivity.
Qed.

(** C10.  In the deterministic evaluator's batch summary the averages
    [avg_keyword_score] and [avg_citation_score] are means over the records
    whose grader was actually run (entries marked "skipped" stay out of
    numerator and denominator), although a skipped grader enters its
    record's overall score with 1.0 at full weight; the summary of the
    empty batch is the empty mapping, and no batch makes an average divide
    by zero. *)
Theorem summary_averages_leave_out_skipped_graders
        (evaluations : list Evals.EvaluationRecord) :
  (evaluations = [] -> Evals._calculate_summary evaluations = Some Evals.EmptyDict)
  /\ (evaluations <> [] ->
      exists s, Evals._calculate_summary evaluations = Some (Evals.SummaryOf s)
        /\ Evals.avg_keyword_score s
           = mean (map (check_score "keyword_check")
                     (List.filter (grader_ran "keyword_check") evaluations))
        /\ Evals.avg_citation_score s
           = mean (map (check_score "citation_check")
                     (List.filter (grader_ran "citation_check") evaluations))
        /\ Evals.overall_average s = mean (map Evals.overall_score evaluations)
        /\ Evals.total_evaluated s = length evaluations)
  /\ Evals._calculate_summary evaluations <> None
  /\ (forall (now question_id question response ground_truth : string)
             (evaluation_criteria : Evals.Criteria) (source_docs : list string)
             (category : string),
        let r := Evals.evaluate_response now question_id question response ground_truth
                   evaluation_criteria source_docs category in
        (default [] (Evals.must_include evaluation_criteria) = [] ->
         grader_ran "keyword_check" r = false /\ check_score "keyword_check" r = 1)
        /\ (default [] (Evals.must_include evaluation_criteria) <> [] ->
            grader_ran "keyword_check" r = true)
        /\ (default true (Evals.should_cite evaluation_criteria)
            && truthy source_docs = false ->
            grader_ran "citation_check" r = false /\ check_score "citation_check" r = 1)
        /\ (default true (Evals.should_cite evaluation_criteria)
            && truthy source_docs = true ->
            grader_ran "citation_check" r = true)
        /\ Evals.overall_score r
           == (1 # 2) * check_score "keyword_check" r
              + (3 # 10) * check_score "citation_check" r
              + (1 # 5) * check_score "compliance_check" r).
Proof.
  split; [intros ->; reflexivity |]. split; [| split].
  - intros Hne. destruct evaluations as [|e rest]; [contradiction |].
    eexists. split; [apply evals_summary_total |].
    cbn [Evals.avg_keyword_score Evals.avg_citation_score Evals.overall_average
         Evals.total_evaluated].
    rewrite !run_scores_where_ran. repeat split.
  - destruct evaluations as [|e rest]; [discriminate |].
    rewrite evals_summary_total. discriminate.
  - intros now question_id question response ground_truth evaluation_criteria source_docs
           category. cbv zeta.
    destruct (checks_lookup now question_id question response ground_truth
                evaluation_criteria source_docs category) as (Hk & Hc & Hm).
    pose proof (overall_score_sum now question_id question response ground_truth
                  evaluation_criteria source_docs category) as Hsum.
    unfold grader_ran, check_score. rewrite Hk, Hc, Hm. cbn [fmap option_fmap option_map default].
    split; [| split; [| split; [| split]]].
    + intros Hempty. unfold Evals.keyword_step. rewrite Hempty. split; reflexivity.
    + intros Hsome. unfold Evals.keyword_step, Keyword.grade_keyword_inclusion.
      destruct (default [] _) as [|kw rest]; [contradiction |].
      cbn [truthy]. destruct (Keyword.scan _ _ _ _). reflexivity.
    + intros Hskip. unfold Evals.citation_step. rewrite Hskip. split; reflexivity.
    + intros Hrun. unfold Evals.citation_step, Citation.grade_citation_quality.
      rewrite Hrun. destruct (Citation.has_citations response);
        destruct (truthy (Citation.sources_mentioned _ _)); reflexivity.
    + exact Hsum.
Qed.

(** A batch of two records, the keyword grader run on the first (score
    0.5) and skipped on the second: the keyword average is 0.5. *)
Lemma summary_averages_leave_out_skipped_graders_witness :
  let ran := Evals.evaluate_response "2025-03-01T10:00:00" "q1" "What is the target?"
               "The target is 6600" "6,600"
               (Evals.mkCriteria (Some ["6,600|6600"; "S&P 500|SPX"]) None) []
               "factual_recall" in
  let skipped := Evals.evaluate_response "2025-03-01T10:00:05" "q2" "Should I buy?"
                   "Please consult a licensed advisor." "decline"
                   (Evals.mkCriteria None (Some false)) [] "edge_cases" in
  [ran; skipped] <> []
  /\ exists s, Evals._calculate_summary [ran; skipped] = Some (Evals.SummaryOf s)
       /\ Evals.avg_keyword_score s == 1 # 2
       /\ Evals.overall_average s == 171 # 200.
Proof.
  cbv zeta.
  match goal with |- ?l <> [] /\ _ =>
    assert (Hne : l <> []) by discriminate;
    split; [exact Hne |];
    destruct (proj1 (proj2 (summary_averages_leave_out_skipped_graders l)) Hne)
      as (s & Hs & Hk & _ & Ho & _)
  end.
  exists s. split; [exact Hs |]. rewrite Hk, Ho. split; vm_compute; reflexivity.
Defined.

(** ** The judgment evaluator *)

Lemma criterion_fold_total (valid_evals : list Judge.Evaluation) (criteria : list string)
      (acc : gmap string Judge.CriterionStats) :
  exists criteria_scores,
    fold_left (Judge.criterion_step valid_evals) criteria (Some acc) = Some criteria_scores.
Proof.
  revert acc. induction criteria as [|criterion rest IH]; intros acc.
  - exists acc. reflexivity.
  - cbn [fold_left]. unfold Judge.criterion_step at 2. cbn [mbind option_bind].
    destruct (Judge.criterion_scores criterion valid_evals) as [|x xs].
    + apply IH.
    + rewrite py_div_len. cbn [mbind option_bind]. apply IH.
Qed.

Lemma filter_idempotent {A} (f : A -> bool) (l : list A) :
  List.filter f (List.filter f l) = List.filter f l.
Proof.
  induction l as [|x l IH]; [reflexivity |]. cbn [List.filter].
  destruct (f x) eqn:E; [| exact IH]. cbn [List.filter]. rewrite E, IH. reflexivity.
Qed.

(** With one valid record at least, the judge summary returns the six
    statistics, all computed from the valid records. *)
Lemma judge_summary_total (evaluations : list Judge.Evaluation) :
  let valid_evals := List.filter Judge.no_error evaluations in
  valid_evals <> [] ->
  exists criteria_scores,
    fold_left (Judge.criterion_step valid_evals) Judge.evaluation_criteria (Some ∅)
    = Some criteria_scores
    /\ Judge._calculate_summary evaluations
       = Some (Judge.SummaryOf
                 {| Judge.criteria_scores := criteria_scores;
                    Judge.overall_average := mean (omap Judge.overall_score valid_evals);
                    Judge.pass_rate :=
                      inject_Z (Z.of_nat (Judge.pass_count valid_evals)) / len_Q valid_evals;
                    Judge.total_evaluated := length valid_evals;
                    Judge.total_failed := (length evaluations - length valid_evals)%nat;
                    Judge.category_breakdown :=
                      (fun s => Judge.mkStats (Judge.c_count s) (Judge.c_passed s)
                                  (mean (Judge.c_scores s)))
                        <$> fold_left Judge.tally valid_evals ∅ |}).
Proof.
  cbv zeta. intros Hvalid.
  destruct (criterion_fold_total (List.filter Judge.no_error evaluations)
              Judge.evaluation_criteria ∅) as [cs Hcs].
  exists cs. split; [exact Hcs |].
  unfold Judge._calculate_summary.
  destruct evaluations as [|e rest]; [contradiction |].
  destruct (List.filter Judge.no_error (e :: rest)) as [|v vs] eqn:Ev; [contradiction |].
  rewrite Hcs. cbn [mbind option_bind].
  rewrite judge_averaged_total. cbn [mbind option_bind].
  rewrite mean_or_zero_total. cbn [mbind option_bind].
  rewrite py_div_len. reflexivity.
Qed.

(** ** The judgment evaluator over decoded replies *)

Lemma py_number_spec (v : Json) :
  py_number v = if is_number v then Returns (as_number v) else Raises TypeError.
Proof. destruct v; reflexivity. Qed.

Lemma py_numbers_spec (vs : list Json) :
  py_numbers vs = if forallb is_number vs then Returns (map as_number vs) else Raises TypeError.
Proof.
  induction vs as [|v rest IH]; [reflexivity |].
  cbn [py_numbers forallb map]. rewrite py_number_spec, IH.
  destruct (is_number v); [| reflexivity]. destruct (forallb is_number rest); reflexivity.
Qed.

Lemma divide_len {A} (a : Q) (x : A) (xs : list A) :
  divide a (len_Q (x :: xs)) = Returns (a / len_Q (x :: xs)).
Proof. unfold divide. rewrite py_div_len. reflexivity. Qed.

Lemma len_Q_map {A B} (f : A -> B) (xs : list A) : len_Q (map f xs) = len_Q xs.
Proof. unfold len_Q. rewrite length_map. reflexivity. Qed.

Lemma mean_or_zero_of_spec (vs : list Json) :
  mean_or_zero_of vs
  = if forallb is_number vs then Returns (mean (map as_number vs)) else Raises TypeError.
Proof.
  destruct vs as [|v rest]; [reflexivity |].
  unfold mean_or_zero_of. cbn [truthy]. rewrite py_numbers_spec.
  destruct (forallb is_number (v :: rest)); [| reflexivity].
  cbn [mbind outcome_bind]. rewrite divide_len.
  unfold mean. cbn [map]. rewrite <- (len_Q_map as_number (v :: rest)). reflexivity.
Qed.

Lemma omap_cons {A B} (f : A -> option B) (x : A) (xs : list A) :
  omap f (x :: xs) = match f x with Some y => y :: omap f xs | None => omap f xs end.
Proof. reflexivity. Qed.

Lemma criterion_ok_split (criterion : string) (es : list Dict) :
  forallb (criterion_ok criterion) es
  = forallb (criterion_shaped criterion) es
    && forallb is_number (omap (criterion_score criterion) es).
Proof.
  induction es as [|e rest IH]; [reflexivity |].
  rewrite omap_cons. cbn [forallb]. rewrite IH. unfold criterion_ok at 1.
  destruct (criterion_score criterion e) as [x|]; cbn [number_if_present forallb].
  - destruct (criterion_shaped criterion e), (is_number x),
      (forallb (criterion_shaped criterion) rest); reflexivity.
  - destruct (criterion_shaped criterion e); cbn [andb]; reflexivity.
Qed.

(** The comprehension raises exactly when some criterion entry cannot be
    searched for a score. *)
Lemma criterion_scores_spec (criterion : string) (es : list Dict) :
  LLMJudge.criterion_scores criterion es
  = if forallb (criterion_shaped criterion) es
    then Returns (omap (criterion_score criterion) es)
    else Raises TypeError.
Proof.
  induction es as [|e rest IH]; [reflexivity |].
  rewrite omap_cons. cbn [LLMJudge.criterion_scores forallb].
  unfold criterion_shaped at 1, criterion_score at 1.
  destruct (e !! criterion) as [v|]; [| rewrite IH; reflexivity].
  destruct v as [| b | q | s | l | o].
  1-3: reflexivity.
  - cbn [has_score mbind outcome_bind].
    destruct (PyStr.contains "score" s); cbn [negb andb get_score mbind outcome_bind];
      [reflexivity | rewrite IH; reflexivity].
  - cbn [has_score mbind outcome_bind].
    destruct (existsb _ l); cbn [negb andb get_score mbind outcome_bind];
      [reflexivity | rewrite IH; reflexivity].
  - unfold has_score, get_score. destruct (o !! "score") as [x|];
      cbn [mbind outcome_bind andb]; rewrite IH;
      destruct (forallb (criterion_shaped criterion) rest); reflexivity.
Qed.

Lemma criterion_step_spec (valid_evals : list Dict)
      (acc : gmap string Judge.CriterionStats) (criterion : string) :
  LLMJudge.criterion_step valid_evals (Returns acc) criterion
  = if forallb (criterion_ok criterion) valid_evals
    then Returns (match criterion_stats criterion valid_evals with
                  | Some st => <[criterion := st]> acc
                  | None => acc
                  end)
    else Raises TypeError.
Proof.
  unfold LLMJudge.criterion_step. cbn [mbind outcome_bind].
  rewrite criterion_scores_spec, criterion_ok_split.
  destruct (forallb (criterion_shaped criterion) valid_evals); [| reflexivity].
  cbn [mbind outcome_bind andb]. unfold criterion_stats, criterion_numbers.
  destruct (omap (criterion_score criterion) valid_evals) as [|v vs]; [reflexivity |].
  pose proof (py_numbers_spec (v :: vs)) as Hn. cbn [py_numbers] in Hn. 
  cbn [forallb map] in *. rewrite py_number_spec in *.
  destruct (is_number v); cbn [andb mbind outcome_bind] in *; [| reflexivity].
  rewrite py_numbers_spec in *.
  destruct (forallb is_number vs); cbn [mbind outcome_bind]; [| reflexivity].
  rewrite divide_len. unfold mean.
  change (as_number v :: map as_number vs) with (map as_number (v :: vs)).
  rewrite (len_Q_map as_number (v :: vs)). reflexivity.
Qed.

Lemma criteria_fold_raises (valid_evals : list Dict) (criteria : list string) (e : Exn) :
  fold_left (LLMJudge.criterion_step valid_evals) criteria (Raises e) = Raises e.
Proof. induction criteria as [|c rest IH]; [reflexivity | exact IH]. Qed.

(** The loop over the criteria raises exactly when some entry of some
    criterion cannot be read. *)
Lemma criteria_fold_spec (valid_evals : list Dict) (criteria : list string)
      (acc : gmap string Judge.CriterionStats) :
  fold_left (LLMJudge.criterion_step valid_evals) criteria (Returns acc)
  = if forallb (fun criterion => forallb (criterion_ok criterion) valid_evals) criteria
    then Returns (criteria_table valid_evals criteria acc)
    else Raises TypeError.
Proof.
  revert acc. induction criteria as [|c rest IH]; intros acc; [reflexivity |].
  cbn [fold_left forallb]. rewrite criterion_step_spec.
  destruct (forallb (criterion_ok c) valid_evals); cbn [andb].
  - rewrite IH. reflexivity.
  - apply criteria_fold_raises.
Qed.

Lemma forallb_swap {A B} (p : A -> B -> bool) (xs : list A) (ys : list B) :
  forallb (fun x => forallb (p x) ys) xs = forallb (fun y => forallb (fun x => p x y) xs) ys.
Proof.
  induction xs as [|x xs IH]; cbn [forallb].
  - induction ys as [|y ys IHy]; [reflexivity |]. cbn [forallb]. exact IHy.
  - rewrite IH. clear IH. induction ys as [|y ys IHy]; [reflexivity |].
    cbn [forallb]. rewrite <- IHy.
    destruct (p x y), (forallb (fun x0 => p x0 y) xs), (forallb (p x) ys); reflexivity.
Qed.

Lemma criteria_table_lookup (valid_evals : list Dict) (criteria : list string)
      (acc : gmap string Judge.CriterionStats) (criterion : string) :
  criteria_table valid_evals criteria acc !! criterion
  = if bool_decide (criterion ∈ criteria)
    then match criterion_stats criterion valid_evals with
         | Some st => Some st
         | None => acc !! criterion
         end
    else acc !! criterion.
Proof.
  revert acc. induction criteria as [|c rest IH]; intros acc; [reflexivity |].
  unfold criteria_table in *. cbn [fold_left]. rewrite IH.
  destruct (bool_decide_reflect (criterion ∈ rest)) as [Hin | Hout].
  - rewrite bool_decide_eq_true_2 by (apply elem_of_cons; right; exact Hin).
    destruct (criterion_stats criterion valid_evals) as [st|] eqn:E; [reflexivity |].
    destruct (criterion_stats c valid_evals) as [st'|] eqn:E'; [| reflexivity].
    destruct (decide (c = criterion)) as [-> | Hne]; [congruence |].
    rewrite lookup_insert_ne by exact Hne. reflexivity.
  - destruct (decide (c = criterion)) as [-> | Hne].
    + rewrite bool_decide_eq_true_2 by (apply elem_of_cons; left; reflexivity).
      destruct (criterion_stats criterion valid_evals) as [st|]; [| reflexivity].
      rewrite lookup_insert_eq. reflexivity.
    + rewrite bool_decide_eq_false_2.
      * destruct (criterion_stats c valid_evals) as [st'|]; [| reflexivity].
        rewrite lookup_insert_ne by exact Hne. reflexivity.
      * intros [H | H]%elem_of_cons; [symmetry in H |]; contradiction.
Qed.

Lemma hash_key_spec (e : Dict) :
  py_hash_key (default (JStr "unknown") (e !! "category"))
  = if category_ok e then Returns (category_key e) else Raises TypeError.
Proof.
  unfold category_ok, category_key.
  destruct (e !! "category") as [[| b | q | s | l | o]|]; reflexivity.
Qed.

Lemma tally_spec (category_stats : gmap Key LLMJudge.Collected) (e : Dict) :
  LLMJudge.tally (Returns category_stats) e
  = if category_ok e then Returns (filed category_stats e) else Raises TypeError.
Proof.
  unfold LLMJudge.tally. cbn [mbind outcome_bind]. rewrite hash_key_spec.
  destruct (category_ok e); reflexivity.
Qed.

Lemma tally_fold_raises (es : list Dict) (e : Exn) :
  fold_left LLMJudge.tally es (Raises e) = Raises e.
Proof. induction es as [|x rest IH]; [reflexivity | exact IH]. Qed.

(** The category loop raises exactly when some category cannot be a key. *)
Lemma tally_fold_spec (es : list Dict) (category_stats : gmap Key LLMJudge.Collected) :
  fold_left LLMJudge.tally es (Returns category_stats)
  = if forallb category_ok es
    then Returns (fold_left filed es category_stats)
    else Raises TypeError.
Proof.
  revert category_stats. induction es as [|e rest IH]; intros category_stats; [reflexivity |].
  cbn [fold_left forallb]. rewrite tally_spec.
  destruct (category_ok e); cbn [andb]; [apply IH | apply tally_fold_raises].
Qed.

Lemma filed_numeric (category_stats : gmap Key LLMJudge.Collected) (e : Dict) :
  scores_numeric category_stats ->
  number_if_present (e !! "overall_score") = true ->
  scores_numeric (filed category_stats e).
Proof.
  intros Hm He. unfold filed. set (cat := category_key e).
  assert (Hm' : scores_numeric
                  match category_stats !! cat with
                  | Some _ => category_stats
                  | None => <[cat := LLMJudge.mkCollected 0 0 []]> category_stats
                  end).
  { destruct (category_stats !! cat) eqn:E; [exact Hm |].
    apply map_Forall_insert; [exact E |]. split; [reflexivity | exact Hm]. }
  revert Hm'. generalize (match category_stats !! cat with
                          | Some _ => category_stats
                          | None => <[cat := LLMJudge.mkCollected 0 0 []]> category_stats
                          end).
  intros m Hmn k s. destruct (decide (k = cat)) as [-> | Hne].
  - rewrite lookup_alter_eq. destruct (m !! cat) as [s0|] eqn:E; [| discriminate].
    intros [= <-]. cbn [LLMJudge.c_scores]. specialize (Hmn cat s0 E). cbn beta in Hmn.
    destruct (e !! "overall_score") as [x|]; [| exact Hmn].
    rewrite forallb_app, Hmn. cbn [forallb number_if_present] in *. rewrite He. reflexivity.
  - rewrite lookup_alter_ne by (intros H; apply Hne; symmetry; exact H). apply Hmn.
Qed.

Lemma filed_fold_numeric (es : list Dict) (category_stats : gmap Key LLMJudge.Collected) :
  scores_numeric category_stats ->
  forallb (fun e : Dict => number_if_present (e !! "overall_score")) es = true ->
  scores_numeric (fold_left filed es category_stats).
Proof.
  revert category_stats. induction es as [|e rest IH]; intros category_stats Hm Hes;
    [exact Hm |].
  cbn [fold_left forallb] in *. apply andb_true_iff in Hes as [He Hrest].
  apply IH; [apply filed_numeric; assumption | exact Hrest].
Qed.

(** The averaging loop raises nothing but [TypeError], and returns the
    averaged entries when all collected scores are numbers. *)
Lemma averaged_spec (category_stats : gmap Key LLMJudge.Collected) :
  (scores_numeric category_stats ->
   LLMJudge.averaged category_stats = Returns (category_entry <$> category_stats))
  /\ (LLMJudge.averaged category_stats = Raises TypeError
      \/ exists m, LLMJudge.averaged category_stats = Returns m).
Proof.
  unfold LLMJudge.averaged.
  apply (map_fold_weak_ind
           (fun r (m : gmap Key LLMJudge.Collected) =>
              (scores_numeric m -> r = Returns (category_entry <$> m))
              /\ (r = Raises TypeError \/ exists m', r = Returns m'))).
  - split; [intros _; rewrite fmap_empty; reflexivity | right; eexists; reflexivity].
  - intros cat s m r Hnone [IH1 IH2]. rewrite mean_or_zero_of_spec. split.
    + intros Hall. apply map_Forall_insert in Hall as [Hs Hm]; [| exact Hnone].
      rewrite (IH1 Hm). cbn [mbind outcome_bind]. cbn beta in Hs. rewrite Hs.
      cbn [mbind outcome_bind]. rewrite fmap_insert. reflexivity.
    + destruct IH2 as [-> | [m' ->]]; [left; reflexivity |].
      cbn [mbind outcome_bind].
      destruct (forallb is_number (LLMJudge.c_scores s)); cbn [mbind outcome_bind];
        [right; eexists; reflexivity | left; reflexivity].
Qed.

Lemma forallb_andb {A} (p q : A -> bool) (xs : list A) :
  forallb (fun x => p x && q x) xs = forallb p xs && forallb q xs.
Proof.
  induction xs as [|x xs IH]; [reflexivity |]. cbn [forallb]. rewrite IH.
  destruct (p x), (q x), (forallb p xs); reflexivity.
Qed.

Lemma well_typed_split (es : list Dict) :
  forallb well_typed es
  = forallb (fun criterion => forallb (criterion_ok criterion) es) Judge.evaluation_criteria
    && forallb (fun e : Dict => number_if_present (e !! "overall_score")) es
    && forallb category_ok es.
Proof.
  unfold well_typed.
  rewrite (forallb_andb
             (fun e : Dict =>
                forallb (fun criterion => criterion_ok criterion e) Judge.evaluation_criteria
                && number_if_present (e !! "overall_score")) category_ok).
  rewrite (forallb_andb
             (fun e : Dict =>
                forallb (fun criterion => criterion_ok criterion e) Judge.evaluation_criteria)
             (fun e : Dict => number_if_present (e !! "overall_score"))).
  rewrite (forallb_swap (fun (e : Dict) criterion => criterion_ok criterion e)).
  reflexivity.
Qed.

Lemma overall_scores_numeric (es : list Dict) :
  forallb is_number (omap (fun e : Dict => e !! "overall_score") es)
  = forallb (fun e : Dict => number_if_present (e !! "overall_score")) es.
Proof.
  induction es as [|e rest IH]; [reflexivity |]. rewrite omap_cons. cbn [forallb].
  destruct (e !! "overall_score") as [x|]; cbn [forallb number_if_present]; rewrite IH;
    reflexivity.
Qed.

(** The summary of a batch with a valid record: the statistics of the
    valid records when each of them can be read, [TypeError] otherwise. *)
Lemma summary_spec (evaluations : list Dict) :
  let valid_evals := List.filter LLMJudge.no_error evaluations in
  valid_evals <> [] ->
  LLMJudge._calculate_summary evaluations
  = if forallb well_typed valid_evals
    then Returns (LLMJudge.SummaryOf
                    (statistics (length evaluations - length valid_evals) valid_evals))
    else Raises TypeError.
Proof.
  cbv zeta. intros Hvalid. unfold LLMJudge._calculate_summary.
  destruct evaluations as [|e0 rest0]; [contradiction |].
  destruct (List.filter LLMJudge.no_error (e0 :: rest0)) as [|v vs] eqn:Ev; [contradiction |].
  set (valid := v :: vs) in *.
  rewrite well_typed_split, criteria_fold_spec, tally_fold_spec.
  destruct (forallb (fun criterion => forallb (criterion_ok criterion) valid)
              Judge.evaluation_criteria); cbn [andb mbind outcome_bind]; [| reflexivity].
  rewrite mean_or_zero_of_spec, overall_scores_numeric.
  destruct (forallb category_ok valid); cbn [andb mbind outcome_bind];
    [| rewrite andb_false_r; reflexivity].
  rewrite andb_true_r.
  destruct (averaged_spec (fold_left filed valid ∅)) as [Hret Honly].
  destruct (forallb (fun e : Dict => number_if_present (e !! "overall_score")) valid) eqn:Eo.
  - rewrite Hret.
    + cbn [mbind outcome_bind]. unfold valid. cbn [truthy].
      rewrite divide_len. reflexivity.
    + apply filed_fold_numeric; [| exact Eo]. intros k s H. rewrite lookup_empty in H.
      discriminate.
  - destruct Honly as [-> | [m ->]]; reflexivity.
Qed.

Lemma failed_count (evaluations : list Dict) :
  length (List.filter failed evaluations)
  = (length evaluations - length (List.filter LLMJudge.no_error evaluations))%nat.
Proof.
  induction evaluations as [|e rest IH]; [reflexivity |].
  pose proof (List.filter_length_le LLMJudge.no_error rest) as Hle.
  unfold failed in *. cbn [List.filter]. destruct (LLMJudge.no_error e); cbn [negb length].
  - rewrite IH. lia.
  - rewrite IH. lia.
Qed.

Lemma forallb_Forall_true {A} (p : A -> bool) (xs : list A) :
  forallb p xs = true <-> Forall (fun x => p x = true) xs.
Proof. rewrite forallb_forall, List.Forall_forall. reflexivity. Qed.

(** C7, against the claim.  A reply that decodes to an object without the
    rubric's fields is returned as a record with no error field, no overall
    score and no pass flag; a reply whose object holds a bare number where
    the rubric has an object is kept as a valid record and makes the
    summary of its batch raise [TypeError], so that nothing is reported;
    and a batch whose records all failed is summarised by a lone error
    message, with no [total_failed] tally. *)
Lemma judge_malformed_reply_and_failed_batch :
  let evaluate reply :=
    LLMJudge.evaluate_response "gpt-4-turbo-preview" "2025-03-01T10:00:00" reply
      "What is the target?" (Some "The target is 6,600") "6,600"
      ["UBS_House_View_March_2025.pdf"] "factual_recall" in
  let r := evaluate (LLMJudge.Object ∅) in
  let r' := evaluate (LLMJudge.Object (<["compliance" := JNum 4]> ∅)) in
  let failure := LLMJudge.error_record "timeout" "What is the target?" in
  ~ (r !! "overall_score" = Some (JNum 0) /\ r !! "pass" = Some (JBool false)
     /\ is_Some (r !! "error"))
  /\ r !! "error" = None
  /\ LLMJudge.no_error r' = true
  /\ LLMJudge._calculate_summary [failure; r'] = Raises TypeError
  /\ ~ (exists s, LLMJudge._calculate_summary [failure] = Returns (LLMJudge.SummaryOf s)
                  /\ LLMJudge.total_failed s = 1%nat)
  /\ LLMJudge._calculate_summary [failure]
     = Returns (LLMJudge.ErrorDict "All evaluations failed").
Proof.
  cbv zeta. split; [intros (H & _); vm_compute in H; discriminate |].
  split; [reflexivity |]. split; [reflexivity |]. split; [vm_compute; reflexivity |].
  split; [intros (s & H & _); vm_compute in H; discriminate | reflexivity].
Qed.

(** C7, amended.  A per-test-case evaluation whose service call raises, or
    whose reply does not decode to an object, yields a record with overall
    score 0, a false pass flag and an error field; a reply that decodes to
    an object is returned with its own fields, checked for nothing.  In the
    summary of a batch with at least one record free of an error field,
    the records carrying one are left out of everything: the outcome is
    that of the valid records alone, with [total_failed] counting the
    records left out.  When every valid record can be read (numbers where
    the summary adds scores up) that outcome is a summary whose averages
    and pass rate are those of the valid records and whose
    [total_evaluated] is their number; when some valid record cannot, the
    summary raises [TypeError].  A non-empty batch whose records all carry
    an error field is summarised as the lone message "All evaluations
    failed", and the empty batch as the empty mapping. *)
Theorem judge_failures_recorded_and_left_out
        (model now question : string) (agent_response : option string)
        (ground_truth : string) (source_docs : list string) (category : string)
        (reply : LLMJudge.Reply) (evaluations : list Dict) :
  let r := LLMJudge.evaluate_response model now reply question agent_response ground_truth
             source_docs category in
  let valid_evals := List.filter LLMJudge.no_error evaluations in
  Forall (fun e => scores_float_sized e = true) valid_evals ->
  ((forall o, reply <> LLMJudge.Object o) ->
   r !! "overall_score" = Some (JNum 0) /\ r !! "pass" = Some (JBool false)
   /\ is_Some (r !! "error"))
  /\ (forall o, reply = LLMJudge.Object o ->
        forall key, key ∉ ["question"; "category"; "timestamp"; "judge_model"] ->
                    r !! key = o !! key)
  /\ (valid_evals <> [] ->
      LLMJudge._calculate_summary evaluations
      = with_failures (length (List.filter failed evaluations))
          <$> LLMJudge._calculate_summary valid_evals)
  /\ (valid_evals <> [] -> Forall (fun e => well_typed e = true) valid_evals ->
      exists s,
        LLMJudge._calculate_summary evaluations = Returns (LLMJudge.SummaryOf s)
        /\ LLMJudge.total_failed s = length (List.filter failed evaluations)
        /\ LLMJudge.total_evaluated s = length valid_evals
        /\ LLMJudge.pass_rate s
           = inject_Z (Z.of_nat (LLMJudge.pass_count valid_evals)) / len_Q valid_evals
        /\ LLMJudge.overall_average s = mean (overall_numbers valid_evals)
        /\ (forall criterion,
              LLMJudge.criteria_scores s !! criterion
              = if bool_decide (criterion ∈ Judge.evaluation_criteria)
                then criterion_stats criterion valid_evals else None)
        /\ LLMJudge.category_breakdown s = category_entry <$> fold_left filed valid_evals ∅)
  /\ (valid_evals <> [] -> ~ Forall (fun e => well_typed e = true) valid_evals ->
      LLMJudge._calculate_summary evaluations = Raises TypeError)
  /\ (evaluations <> [] -> valid_evals = [] ->
      LLMJudge._calculate_summary evaluations
      = Returns (LLMJudge.ErrorDict "All evaluations failed"))
  /\ (evaluations = [] -> LLMJudge._calculate_summary evaluations = Returns LLMJudge.EmptyDict).
Proof.
  cbv zeta. intros _. split; [| split; [| split; [| split; [| split; [| split]]]]].
  - intros Hfail. destruct reply as [e | e | e | o];
      [| | | exfalso; exact (Hfail o eq_refl)];
      (split; [reflexivity | split; [reflexivity | eexists; reflexivity]]).
  - intros o -> key Hkey. cbn [LLMJudge.evaluate_response].
    rewrite !lookup_insert_ne; [reflexivity | | | |];
      intros <-; apply Hkey; repeat (first [left; fail | apply elem_of_cons; tauto
                                           | apply elem_of_cons; right]).
  - intros Hvalid.
    pose proof (summary_spec evaluations Hvalid) as He.
    pose proof (summary_spec (List.filter LLMJudge.no_error evaluations)) as Hv.
    cbv zeta in He, Hv. rewrite filter_idempotent in Hv. rewrite He, (Hv Hvalid).
    destruct (forallb well_typed (List.filter LLMJudge.no_error evaluations)); [| reflexivity].
    cbn [fmap outcome_fmap with_failures]. rewrite failed_count. reflexivity.
  - intros Hvalid Hall. apply forallb_Forall_true in Hall.
    pose proof (summary_spec evaluations Hvalid) as He. cbv zeta in He.
    rewrite Hall in He. eexists. split; [exact He |].
    cbn [statistics LLMJudge.total_failed LLMJudge.total_evaluated LLMJudge.pass_rate
         LLMJudge.overall_average LLMJudge.criteria_scores LLMJudge.category_breakdown].
    rewrite failed_count. repeat (split; [reflexivity |]). split; [| reflexivity].
    intros criterion. rewrite criteria_table_lookup, lookup_empty.
    destruct (bool_decide _); [| reflexivity].
    destruct (criterion_stats criterion _); reflexivity.
  - intros Hvalid Hnot.
    pose proof (summary_spec evaluations Hvalid) as He. cbv zeta in He.
    destruct (forallb well_typed (List.filter LLMJudge.no_error evaluations)) eqn:E;
      [| exact He].
    exfalso. apply Hnot, forallb_Forall_true, E.
  - intros Hne Hnone. unfold LLMJudge._calculate_summary.
    destruct evaluations as [|e rest]; [contradiction |]. rewrite Hnone. reflexivity.
  - intros ->. reflexivity.
Qed.

(** An unparsable reply, and a batch of one valid and two failed records. *)
Lemma judge_failures_recorded_and_left_out_witness :
  let ok :=
    LLMJudge.evaluate_response "gpt-4-turbo-preview" "2025-03-01T10:00:00"
      (LLMJudge.Object
         (<["pass" := JBool true]>
            (<["overall_score" := JNum (9 # 2)]>
               (<["compliance" := JObj (<["score" := JNum 4]> ∅)]>
                  (<["factual_accuracy" := JObj (<["score" := JNum 5]> ∅)]> ∅)))))
      "What is the target?" (Some "The target is 6,600") "6,600" [] "factual_recall" in
  let failure := LLMJudge.error_record "timeout" "Should I buy?" in
  let reply := LLMJudge.Unparsable "Expecting value: line 1 column 1 (char 0)" in
  let r := LLMJudge.evaluate_response "gpt-4-turbo-preview" "2025-03-01T10:00:00" reply
             "Should I buy?" (Some "No advice") "decline" [] "edge_cases" in
  let batch := [failure; ok; failure] in
  Forall (fun e => scores_float_sized e = true) (List.filter LLMJudge.no_error batch)
  /\ (forall o, reply <> LLMJudge.Object o)
  /\ List.filter LLMJudge.no_error batch <> []
  /\ Forall (fun e => well_typed e = true) (List.filter LLMJudge.no_error batch)
  /\ (r !! "overall_score" = Some (JNum 0) /\ r !! "pass" = Some (JBool false)
      /\ is_Some (r !! "error"))
  /\ exists s, LLMJudge._calculate_summary batch = Returns (LLMJudge.SummaryOf s)
       /\ LLMJudge.total_failed s = 2%nat
       /\ LLMJudge.total_evaluated s = 1%nat
       /\ LLMJudge.overall_average s == 9 # 2.
Proof.
  cbv zeta.
  match goal with
  | |- Forall _ (List.filter _ ?l) /\ (forall o, ?reply <> _) /\ _ =>
      assert (Hsized : Forall (fun e => scores_float_sized e = true)
                         (List.filter LLMJudge.no_error l))
        by (apply forallb_Forall_true; vm_compute; reflexivity);
      assert (Hreply : forall o, reply <> LLMJudge.Object o) by (intros o; discriminate);
      assert (Hvalid : List.filter LLMJudge.no_error l <> [])
        by (vm_compute; discriminate);
      assert (Htyped : Forall (fun e => well_typed e = true)
                         (List.filter LLMJudge.no_error l))
        by (apply forallb_Forall_true; vm_compute; reflexivity);
      pose proof (judge_failures_recorded_and_left_out
                    "gpt-4-turbo-preview" "2025-03-01T10:00:00" "Should I buy?"
                    (Some "No advice") "decline" [] "edge_cases" reply l Hsized) as H
  end.
  cbv zeta in H. destruct H as (H1 & _ & _ & H4 & _).
  split; [exact Hsized |]. split; [exact Hreply |]. split; [exact Hvalid |].
  split; [exact Htyped |]. split; [exact (H1 Hreply) |].
  destruct (H4 Hvalid Htyped) as (s & Hs & Hf & He & _ & Ho & _).
  exists s. split; [exact Hs |]. split; [rewrite Hf; vm_compute; reflexivity |].
  split; [rewrite He; vm_compute; reflexivity |].
  rewrite Ho. vm_compute. reflexivity.
Defined.

(** * Further properties of the evaluation code *)

(** ** Case and extension of strings *)

Lemma lower_char_idempotent (c : ascii) :
  PyStr.lower_char (PyStr.lower_char c) = PyStr.lower_char c.
Proof. destruct c as [[] [] [] [] [] [] [] []]; vm_compute; reflexivity. Qed.

Lemma lower_idempotent (s : string) : PyStr.lower (PyStr.lower s) = PyStr.lower s.
Proof.
  induction s as [|c s IH]; [reflexivity |]. cbn [PyStr.lower].
  rewrite lower_char_idempotent, IH. reflexivity.
Qed.

Lemma lower_app (a b : string) :
  PyStr.lower (a ++ b) = (PyStr.lower a ++ PyStr.lower b)%string.
Proof.
  induction a as [|c a IH]; [reflexivity |].
  rewrite append_cons. cbn [PyStr.lower]. rewrite IH, append_cons. reflexivity.
Qed.

Lemma string_app_assoc (a b c : string) :
  ((a ++ b) ++ c)%string = (a ++ (b ++ c))%string.
Proof.
  induction a as [|x a IH]; [reflexivity |]. rewrite !append_cons, IH. reflexivity.
Qed.

Lemma substring_of_trans (a b c : string) :
  PyStr.substring_of a b -> PyStr.substring_of b c -> PyStr.substring_of a c.
Proof.
  intros (p1 & q1 & ->) (p2 & q2 & ->).
  exists (p2 ++ p1)%string, (q1 ++ q2)%string.
  rewrite !string_app_assoc. reflexivity.
Qed.

Lemma extends_lower (response response' : string) :
  extends response response' ->
  PyStr.substring_of (PyStr.lower response) (PyStr.lower response').
Proof.
  intros (pre & post & ->). exists (PyStr.lower pre), (PyStr.lower post).
  rewrite !lower_app. reflexivity.
Qed.

(** Whatever occurs in a response occurs in every extension of it. *)
Lemma contains_extends (needle response response' : string) :
  extends response response' ->
  PyStr.contains needle (PyStr.lower response) = true ->
  PyStr.contains needle (PyStr.lower response') = true.
Proof.
  intros Hext H. apply contains_spec. apply contains_spec in H.
  exact (substring_of_trans _ _ _ H (extends_lower _ _ Hext)).
Qed.

(** ** The exact-match grader *)

Lemma first_match_spec (response_lower : string) (expected : list string) :
  match Exact.first_match response_lower expected with
  | Some exp =>
      exists before after,
        expected = (before ++ exp :: after)%list
        /\ PyStr.contains (PyStr.lower exp) response_lower = true
        /\ Forall (fun e => PyStr.contains (PyStr.lower e) response_lower = false) before
  | None => Forall (fun e => PyStr.contains (PyStr.lower e) response_lower = false) expected
  end.
Proof.
  induction expected as [|e rest IH]; cbn [Exact.first_match].
  - constructor.
  - destruct (PyStr.contains (PyStr.lower e) response_lower) eqn:E.
    + exists [], rest. repeat split; [exact E | constructor].
    + destruct (Exact.first_match response_lower rest) as [exp |].
      * destruct IH as (before & after & -> & Hin & Hbefore).
        exists (e :: before), after. repeat split; [exact Hin | constructor; assumption].
      * constructor; assumption.
Qed.

(** The exact-match grade is 1.0 and passing exactly when some expected
    string occurs in the response up to case, and then [matched] is the
    first such string of the list; otherwise it is 0.0 and failing, with
    the whole list reported, in particular for the empty list. *)
Theorem exact_match_first_expected (response : string) (expected : list string) :
  let r := Exact.grade_exact_match response expected in
  (Exact.passed r = true
   <-> exists exp, In exp expected /\ PyStr.contains_ci exp response)
  /\ (forall exp, Exact.matched r = Some exp ->
        exists before after,
          expected = (before ++ exp :: after)%list
          /\ PyStr.contains_ci exp response
          /\ Forall (fun e => ~ PyStr.contains_ci e response) before)
  /\ (Exact.passed r = true -> Exact.score r = 1 /\ Exact.expected_one_of r = None)
  /\ (Exact.passed r = false ->
      Exact.score r = 0 /\ Exact.matched r = None /\ Exact.expected_one_of r = Some expected)
  /\ Exact.passed (Exact.grade_exact_match response []) = false.
Proof.
  cbv zeta. unfold Exact.grade_exact_match, PyStr.contains_ci.
  pose proof (first_match_spec (PyStr.lower response) expected) as H.
  destruct (Exact.first_match (PyStr.lower response) expected) as [exp |];
    cbn [Exact.passed Exact.matched Exact.score Exact.expected_one_of].
  - destruct H as (before & after & Hexp & Hin & Hbefore).
    split; [| split; [| split; [| split]]].
    + split; [intros _ | reflexivity]. exists exp. split.
      * rewrite Hexp. apply in_elt.
      * apply contains_spec. exact Hin.
    + intros exp' [= <-]. exists before, after. split; [exact Hexp |].
      split; [apply contains_spec; exact Hin |].
      eapply Forall_impl; [exact Hbefore |]. cbn. intros e He Hc.
      apply contains_spec in Hc. congruence.
    + intros _. split; reflexivity.
    + discriminate.
    + reflexivity.
  - split; [| split; [| split; [| split]]].
    + split; [discriminate |]. intros (exp & Hin & Hc).
      rewrite List.Forall_forall in H. apply contains_spec in Hc.
      rewrite (H exp Hin) in Hc. discriminate.
    + discriminate.
    + discriminate.
    + intros _. repeat split.
    + reflexivity.
Qed.

Lemma exact_match_first_expected_witness :
  Exact.matched (Exact.grade_exact_match "The S&P 500 target is 6,600" ["SPX"; "s&p 500"; "6,600"])
  = Some "s&p 500"
  /\ exists before after,
       ["SPX"; "s&p 500"; "6,600"] = (before ++ "s&p 500" :: after)%list
       /\ PyStr.contains_ci "s&p 500" "The S&P 500 target is 6,600"
       /\ Forall (fun e => ~ PyStr.contains_ci e "The S&P 500 target is 6,600") before.
Proof.
  assert (H : Exact.matched (Exact.grade_exact_match "The S&P 500 target is 6,600"
                               ["SPX"; "s&p 500"; "6,600"]) = Some "s&p 500")
    by (vm_compute; reflexivity).
  split; [exact H |].
  exact (proj1 (proj2 (exact_match_first_expected "The S&P 500 target is 6,600"
                         ["SPX"; "s&p 500"; "6,600"])) _ H).
Defined.

(** ** More on the keyword grader *)

Lemma first_alternative_some (response_lower : string) (alternatives : list string) (kw : string) :
  Keyword.first_alternative response_lower alternatives = Some kw ->
  exists alt, In alt alternatives /\ kw = PyStr.strip alt
              /\ PyStr.contains (PyStr.lower (PyStr.strip alt)) response_lower = true.
Proof.
  induction alternatives as [|alt rest IH]; cbn [Keyword.first_alternative]; [discriminate |].
  destruct (PyStr.contains _ response_lower) eqn:E.
  - intros [= <-]. exists alt. repeat split; [left; reflexivity | exact E].
  - intros H. destruct (IH H) as (alt' & Hin & Hkw & Hc).
    exists alt'. repeat split; [right; exact Hin | exact Hkw | exact Hc].
Qed.

Lemma filter_split_length {A} (f : A -> bool) (l : list A) :
  (length (List.filter f l) + length (List.filter (fun x => negb (f x)) l) = length l)%nat.
Proof.
  induction l as [|x l IH]; [reflexivity |]. cbn [List.filter].
  destruct (f x); cbn [negb length]; lia.
Qed.

Lemma filter_length_mono {A} (f g : A -> bool) (l : list A) :
  (forall x, In x l -> f x = true -> g x = true) ->
  (length (List.filter f l) <= length (List.filter g l))%nat.
Proof.
  induction l as [|x l IH]; intros H; [apply le_n |]. cbn [List.filter].
  assert (IH' : (length (List.filter f l) <= length (List.filter g l))%nat).
  { apply IH. intros y Hy. apply H. right. exact Hy. }
  destruct (f x) eqn:Ef.
  - rewrite (H x (or_introl eq_refl) Ef). cbn [length]. lia.
  - destruct (g x); cbn [length]; lia.
Qed.

Lemma keyword_evidence (response : string) (required : list string) (partial_credit : bool) :
  Grade.evidence (Keyword.grade_keyword_inclusion response required partial_credit)
  = KeywordEvidence
      (omap (fun kw => Keyword.first_alternative (PyStr.lower response) (PyStr.split "|" kw))
            required)
      (List.filter (fun kw => negb (Keyword.item_satisfiedb response kw)) required).
Proof.
  unfold Keyword.grade_keyword_inclusion.
  rewrite (scan_closed_form response required [] []). reflexivity.
Qed.

Lemma keyword_score_closed (response : string) (required : list string) (partial_credit : bool) :
  Grade.score (Keyword.grade_keyword_inclusion response required partial_credit)
  = if partial_credit then
      match required with
      | [] => 0
      | _ :: _ => len_Q (List.filter (Keyword.item_satisfiedb response) required)
                  / len_Q required
      end
    else if forallb (Keyword.item_satisfiedb response) required then 1 else 0.
Proof.
  unfold Keyword.grade_keyword_inclusion.
  rewrite (scan_closed_form response required [] []). cbn [app Grade.score].
  rewrite missing_none. unfold len_Q. rewrite found_length. reflexivity.
Qed.

Lemma keyword_passed_closed (response : string) (required : list string) (partial_credit : bool) :
  Grade.passed (Keyword.grade_keyword_inclusion response required partial_credit)
  = Qge_bool (Grade.score (Keyword.grade_keyword_inclusion response required partial_credit))
             (7 # 10).
Proof.
  unfold Keyword.grade_keyword_inclusion.
  destruct (Keyword.scan _ _ _ _). reflexivity.
Qed.

(** The keyword grader sorts every required item into exactly one of its
    two lists: [missing_keywords] holds the unsatisfied items, in order and
    as written, and [found_keywords] one entry per satisfied item, namely
    an alternative of some item, stripped, that occurs in the response up
    to case; the two lengths add up to the number of required items. *)
Theorem keyword_found_and_missing_partition
        (response : string) (required : list string) (partial_credit : bool) :
  exists found missing,
    Grade.evidence (Keyword.grade_keyword_inclusion response required partial_credit)
    = KeywordEvidence found missing
    /\ (length found + length missing = length required)%nat
    /\ length found = length (List.filter (Keyword.item_satisfiedb response) required)
    /\ missing = List.filter (fun item => negb (Keyword.item_satisfiedb response item)) required
    /\ (forall item, In item missing <->
                     In item required /\ ~ Keyword.item_satisfied response item)
    /\ Forall (fun kw => exists item alt,
                 In item required /\ In alt (PyStr.split "|" item)
                 /\ kw = PyStr.strip alt /\ PyStr.contains_ci kw response) found.
Proof.
  eexists. eexists. split; [apply keyword_evidence |].
  split; [| split; [| split; [| split]]].
  - rewrite found_length. apply filter_split_length.
  - apply found_length.
  - reflexivity.
  - intros item. rewrite filter_In, negb_true_iff.
    pose proof (item_satisfiedb_spec response item) as H.
    destruct (Keyword.item_satisfiedb response item); split.
    + intros [_ Hf]. discriminate.
    + intros [_ Hn]. exfalso. apply Hn, H. reflexivity.
    + intros [Hin _]. split; [exact Hin |]. intros Hs. apply H in Hs. discriminate.
    + intros [Hin _]. split; [exact Hin | reflexivity].
  - apply List.Forall_forall. intros kw Hkw.
    apply list_elem_of_In, list_elem_of_omap in Hkw as (item & Hitem & Hfirst).
    apply list_elem_of_In in Hitem.
    apply first_alternative_some in Hfirst as (alt & Halt & -> & Hc).
    exists item, alt. repeat split; [exact Hitem | exact Halt |].
    apply contains_spec. exact Hc.
Qed.

Lemma item_satisfiedb_extends (response response' item : string) :
  extends response response' ->
  Keyword.item_satisfiedb response item = true ->
  Keyword.item_satisfiedb response' item = true.
Proof.
  intros Hext. unfold Keyword.item_satisfiedb. rewrite !existsb_exists.
  intros (alt & Hin & Hc). exists alt. split; [exact Hin |].
  exact (contains_extends _ _ _ Hext Hc).
Qed.

Lemma len_Q_nonneg {A} (l : list A) : 0 <= len_Q l.
Proof. unfold len_Q, Qle. simpl. lia. Qed.

Lemma len_Q_le {A B} (l : list A) (l' : list B) :
  (length l <= length l')%nat -> len_Q l <= len_Q l'.
Proof. intros H. unfold len_Q, Qle. simpl. lia. Qed.

Lemma keyword_score_extends (response response' : string) (required : list string)
      (partial_credit : bool) :
  extends response response' ->
  Grade.score (Keyword.grade_keyword_inclusion response required partial_credit)
  <= Grade.score (Keyword.grade_keyword_inclusion response' required partial_credit).
Proof.
  intros Hext. rewrite !keyword_score_closed. destruct partial_credit.
  - destruct required as [|kw rest]; [apply Qle_refl |].
    unfold Qdiv. apply Qmult_le_compat_r.
    + apply len_Q_le, filter_length_mono. intros x _. apply item_satisfiedb_extends, Hext.
    + apply Qinv_le_0_compat, len_Q_nonneg.
  - destruct (forallb (Keyword.item_satisfiedb response) required) eqn:E.
    + replace (forallb (Keyword.item_satisfiedb response') required) with true;
        [apply Qle_refl |].
      symmetry. rewrite forallb_forall in *. intros x Hx.
      apply (item_satisfiedb_extends _ _ _ Hext), E, Hx.
    + destruct (forallb (Keyword.item_satisfiedb response') required); discriminate.
Qed.

(** Putting ASCII text before or after an ASCII response never lowers its
    keyword score, in either scoring mode, and never turns a passing
    keyword grade into a failing one. *)
Theorem keyword_score_monotone_in_response
        (response response' : string) (required : list string) (partial_credit : bool) :
  isascii response' = true ->
  extends response response' ->
  let r := Keyword.grade_keyword_inclusion response required partial_credit in
  let r' := Keyword.grade_keyword_inclusion response' required partial_credit in
  Grade.score r <= Grade.score r'
  /\ (Grade.passed r = true -> Grade.passed r' = true).
Proof.
  intros _ Hext. cbv zeta.
  pose proof (keyword_score_extends _ _ required partial_credit Hext) as Hle.
  split; [exact Hle |]. rewrite !keyword_passed_closed, !Qge_bool_iff.
  intros H. exact (Qle_trans _ _ _ H Hle).
Qed.

Lemma keyword_score_monotone_in_response_witness :
  isascii "The S&P 500 target 6600 for 2025" = true
  /\ extends "target 6600" "The S&P 500 target 6600 for 2025"
  /\ Grade.score (Keyword.grade_keyword_inclusion "target 6600"
                    ["S&P 500|SPX"; "6,600|6600"] true)
     <= Grade.score (Keyword.grade_keyword_inclusion "The S&P 500 target 6600 for 2025"
                       ["S&P 500|SPX"; "6,600|6600"] true).
Proof.
  assert (H : extends "target 6600" "The S&P 500 target 6600 for 2025").
  { exists "The S&P 500 ", " for 2025". reflexivity. }
  split; [reflexivity |]. split; [exact H |].
  exact (proj1 (keyword_score_monotone_in_response "target 6600"
                  "The S&P 500 target 6600 for 2025"
                  ["S&P 500|SPX"; "6,600|6600"] true eq_refl H)).
Defined.

Lemma forallb_filter_all {A} (f : A -> bool) (l : list A) :
  forallb f l = true -> List.filter f l = l.
Proof.
  induction l as [|x l IH]; [reflexivity |]. cbn [forallb List.filter].
  intros [Hx Hl]%andb_true_iff. rewrite Hx, (IH Hl). reflexivity.
Qed.

(** For a non-empty requirement list the all-or-nothing score never
    exceeds the partial-credit score, so a response that passes without
    partial credit passes with it. *)
Theorem binary_score_below_partial_credit (response : string) (required : list string) :
  required <> [] ->
  let binary := Keyword.grade_keyword_inclusion response required false in
  let partial := Keyword.grade_keyword_inclusion response required true in
  Grade.score binary <= Grade.score partial
  /\ (Grade.passed binary = true -> Grade.passed partial = true).
Proof.
  intros Hne. cbv zeta.
  assert (Hle : Grade.score (Keyword.grade_keyword_inclusion response required false)
                <= Grade.score (Keyword.grade_keyword_inclusion response required true)).
  { rewrite (keyword_score_closed response required false).
    destruct (forallb _ required) eqn:E.
    - rewrite (keyword_score_closed response required true).
      destruct required as [|kw rest]; [contradiction |].
      rewrite (forallb_filter_all _ _ E).
      apply Qle_shift_div_l.
      + unfold len_Q, Qlt. simpl. lia.
      + rewrite Qmult_1_l. apply Qle_refl.
    - apply (keyword_score_range response required true). }
  split; [exact Hle |]. rewrite !keyword_passed_closed, !Qge_bool_iff.
  intros H. exact (Qle_trans _ _ _ H Hle).
Qed.

Lemma binary_score_below_partial_credit_witness :
  ["S&P 500|SPX"; "6,600|6600"] <> []
  /\ Grade.score (Keyword.grade_keyword_inclusion "target 6600"
                    ["S&P 500|SPX"; "6,600|6600"] false)
     <= Grade.score (Keyword.grade_keyword_inclusion "target 6600"
                       ["S&P 500|SPX"; "6,600|6600"] true).
Proof.
  split; [discriminate |].
  refine (proj1 (binary_score_below_partial_credit "target 6600"
                   ["S&P 500|SPX"; "6,600|6600"] _)).
  discriminate.
Defined.

(** ** Case-insensitivity *)

Lemma isspace_lower (c : ascii) : PyStr.isspace (PyStr.lower_char c) = PyStr.isspace c.
Proof. destruct c as [[] [] [] [] [] [] [] []]; vm_compute; reflexivity. Qed.

Lemma isdigit_lower (c : ascii) : PyStr.isdigit (PyStr.lower_char c) = PyStr.isdigit c.
Proof. destruct c as [[] [] [] [] [] [] [] []]; vm_compute; reflexivity. Qed.

Lemma pipe_lower (c : ascii) : Ascii.eqb (PyStr.lower_char c) "|" = Ascii.eqb c "|".
Proof. destruct c as [[] [] [] [] [] [] [] []]; vm_compute; reflexivity. Qed.

Lemma lstrip_lower (s : string) : PyStr.lower (PyStr.lstrip s) = PyStr.lstrip (PyStr.lower s).
Proof.
  induction s as [|c s IH]; [reflexivity |]. cbn [PyStr.lstrip PyStr.lower].
  rewrite isspace_lower. destruct (PyStr.isspace c); [exact IH | reflexivity].
Qed.

Lemma rstrip_lower (s : string) : PyStr.lower (PyStr.rstrip s) = PyStr.rstrip (PyStr.lower s).
Proof.
  induction s as [|c s IH]; [reflexivity |]. cbn [PyStr.rstrip PyStr.lower].
  rewrite <- IH, isspace_lower.
  destruct (PyStr.rstrip s) as [|d r]; cbn [PyStr.lower]; [| reflexivity].
  destruct (PyStr.isspace c); reflexivity.
Qed.

Lemma strip_lower (s : string) : PyStr.lower (PyStr.strip s) = PyStr.strip (PyStr.lower s).
Proof. unfold PyStr.strip. rewrite rstrip_lower, lstrip_lower. reflexivity. Qed.

Lemma split_lower (s : string) :
  map PyStr.lower (PyStr.split "|" s) = PyStr.split "|" (PyStr.lower s).
Proof.
  induction s as [|c s IH]; [reflexivity |]. cbn [PyStr.split PyStr.lower].
  rewrite pipe_lower, <- IH. destruct (Ascii.eqb c "|"); [reflexivity |].
  destruct (PyStr.split "|" s); reflexivity.
Qed.

Lemma item_satisfiedb_lower (response item : string) :
  Keyword.item_satisfiedb response item
  = existsb (fun alt => PyStr.contains (PyStr.strip alt) (PyStr.lower response))
            (PyStr.split "|" (PyStr.lower item)).
Proof.
  unfold Keyword.item_satisfiedb. rewrite <- split_lower.
  induction (PyStr.split "|" item) as [|alt rest IH]; [reflexivity |].
  cbn [existsb map]. rewrite IH, strip_lower. reflexivity.
Qed.

Lemma item_satisfiedb_case (response response' item item' : string) :
  PyStr.lower response = PyStr.lower response' ->
  PyStr.lower item = PyStr.lower item' ->
  Keyword.item_satisfiedb response item = Keyword.item_satisfiedb response' item'.
Proof. intros Hr Hi. rewrite !item_satisfiedb_lower, Hr, Hi. reflexivity. Qed.

Lemma satisfied_case (response response' : string) (required required' : list string) :
  PyStr.lower response = PyStr.lower response' ->
  map PyStr.lower required = map PyStr.lower required' ->
  length required = length required'
  /\ length (List.filter (Keyword.item_satisfiedb response) required)
     = length (List.filter (Keyword.item_satisfiedb response') required')
  /\ forallb (Keyword.item_satisfiedb response) required
     = forallb (Keyword.item_satisfiedb response') required'.
Proof.
  intros Hr. revert required'.
  induction required as [|item rest IH]; intros [|item' rest']; try discriminate.
  - intros _. repeat split.
  - cbn [map]. intros [= Hi Hrest]. destruct (IH rest' Hrest) as (Hlen & Hfil & Hall).
    cbn [List.filter forallb length].
    rewrite (item_satisfiedb_case _ _ _ _ Hr Hi), Hall, Hlen.
    destruct (Keyword.item_satisfiedb response' item'); cbn [length]; rewrite Hfil; repeat split.
Qed.

(** The keyword score and verdict do not depend on case, neither that of
    the response nor that of the required items: two responses, and two
    requirement lists, that agree once lowered get the same score and the
    same verdict, in either scoring mode. *)
Theorem keyword_score_case_insensitive
        (response response' : string) (required required' : list string)
        (partial_credit : bool) :
  PyStr.lower response = PyStr.lower response' ->
  map PyStr.lower required = map PyStr.lower required' ->
  let r := Keyword.grade_keyword_inclusion response required partial_credit in
  let r' := Keyword.grade_keyword_inclusion response' required' partial_credit in
  Grade.score r = Grade.score r' /\ Grade.passed r = Grade.passed r'.
Proof.
  intros Hr Hreq. cbv zeta.
  destruct (satisfied_case _ _ _ _ Hr Hreq) as (Hlen & Hfil & Hall).
  assert (Hscore : Grade.score (Keyword.grade_keyword_inclusion response required partial_credit)
                   = Grade.score (Keyword.grade_keyword_inclusion response' required'
                                    partial_credit)).
  { rewrite !keyword_score_closed, Hall. unfold len_Q. rewrite Hfil, Hlen.
    destruct required, required'; try discriminate; reflexivity. }
  split; [exact Hscore |]. rewrite !keyword_passed_closed, Hscore. reflexivity.
Qed.

Lemma keyword_score_case_insensitive_witness :
  PyStr.lower "THE SPX TARGET" = PyStr.lower "the spx target"
  /\ map PyStr.lower ["S&P 500|SPX"; "Target"] = map PyStr.lower ["s&p 500|spx"; "TARGET"]
  /\ Grade.score (Keyword.grade_keyword_inclusion "THE SPX TARGET" ["S&P 500|SPX"; "Target"] true)
     = Grade.score (Keyword.grade_keyword_inclusion "the spx target"
                      ["s&p 500|spx"; "TARGET"] true).
Proof.
  split; [reflexivity |]. split; [reflexivity |].
  exact (proj1 (keyword_score_case_insensitive "THE SPX TARGET" "the spx target"
                  ["S&P 500|SPX"; "Target"] ["s&p 500|spx"; "TARGET"] true
                  eq_refl eq_refl)).
Defined.

(** *** Regular expressions under [re.IGNORECASE] *)

Lemma deriv_lower (r : Re.regex) (c : ascii) :
  case_blind r -> Re.deriv (PyStr.lower_char c) r = Re.deriv c r.
Proof.
  induction r as [| | p | r1 IH1 r2 IH2 | r1 IH1 r2 IH2 | r1 IH1]; cbn [case_blind Re.deriv].
  - reflexivity.
  - reflexivity.
  - intros H. rewrite H. reflexivity.
  - intros [H1 H2]. rewrite (IH1 H1), (IH2 H2). reflexivity.
  - intros [H1 H2]. rewrite (IH1 H1), (IH2 H2). reflexivity.
  - intros H. rewrite (IH1 H). reflexivity.
Qed.

Lemma case_blind_deriv (r : Re.regex) (c : ascii) :
  case_blind r -> case_blind (Re.deriv c r).
Proof.
  induction r as [| | p | r1 IH1 r2 IH2 | r1 IH1 r2 IH2 | r1 IH1]; cbn [case_blind Re.deriv].
  - trivial.
  - trivial.
  - intros _. destruct (p c); exact I.
  - intros [H1 H2]. destruct (Re.nullable r1); cbn [case_blind]; auto.
  - intros [H1 H2]. auto.
  - intros H. split; [apply IH1, H | exact H].
Qed.

Lemma matches_prefix_unfold (r : Re.regex) (s : string) :
  Re.matches_prefix r s
  = Re.nullable r ||
    match s with
    | EmptyString => false
    | String c s' => Re.matches_prefix (Re.deriv c r) s'
    end.
Proof. destruct s; reflexivity. Qed.

Lemma search_unfold (r : Re.regex) (s : string) :
  Re.search r s
  = Re.matches_prefix r s ||
    match s with
    | EmptyString => false
    | String _ s' => Re.search r s'
    end.
Proof. destruct s; reflexivity. Qed.

Lemma matches_prefix_lower (r : Re.regex) (s : string) :
  case_blind r -> Re.matches_prefix r (PyStr.lower s) = Re.matches_prefix r s.
Proof.
  revert r. induction s as [|c s IH]; intros r H; [reflexivity |].
  cbn [PyStr.lower]. rewrite !(matches_prefix_unfold r (String _ _)).
  rewrite (deriv_lower r c H), (IH _ (case_blind_deriv r c H)). reflexivity.
Qed.

Lemma search_lower (r : Re.regex) (s : string) :
  case_blind r -> Re.search r (PyStr.lower s) = Re.search r s.
Proof.
  intros H. induction s as [|c s IH]; [reflexivity |].
  rewrite (search_unfold r (String c s)).
  change (PyStr.lower (String c s)) with (String (PyStr.lower_char c) (PyStr.lower s)).
  rewrite (search_unfold r (String _ (PyStr.lower s))), IH.
  change (String (PyStr.lower_char c) (PyStr.lower s)) with (PyStr.lower (String c s)).
  rewrite (matches_prefix_lower r _ H). reflexivity.
Qed.

Lemma case_blind_lit_ci (s : string) : case_blind (Re.lit_ci s).
Proof.
  induction s as [|a s IH]; cbn [Re.lit_ci case_blind]; [exact I |].
  split; [| exact IH]. unfold Re.chr_ci. cbn [case_blind]. intros c.
  rewrite lower_char_idempotent. reflexivity.
Qed.

Lemma case_blind_digits : case_blind (Re.Plus Re.digit).
Proof. cbn [Re.Plus Re.digit case_blind]. split; apply isdigit_lower. Qed.

Lemma citation_patterns_case_blind : Forall case_blind Citation.citation_patterns.
Proof.
  unfold Citation.citation_patterns.
  apply List.Forall_cons; [apply case_blind_lit_ci |].
  apply List.Forall_cons; [apply case_blind_lit_ci |].
  apply List.Forall_cons; [split; [apply case_blind_lit_ci | apply case_blind_digits] |].
  apply List.Forall_cons.
  { split; [apply case_blind_lit_ci |].
    split; [apply case_blind_digits | apply case_blind_lit_ci]. }
  apply List.Forall_cons; [| apply List.Forall_nil].
  repeat (split; [apply case_blind_lit_ci |]). apply case_blind_lit_ci.
Qed.

Lemma has_citations_lower (response : string) :
  Citation.has_citations (PyStr.lower response) = Citation.has_citations response.
Proof.
  unfold Citation.has_citations.
  pose proof citation_patterns_case_blind as H.
  induction H as [|pattern rest Hp Hrest IH]; [reflexivity |].
  cbn [existsb]. rewrite IH, (search_lower _ _ Hp). reflexivity.
Qed.

Lemma has_citations_case (response response' : string) :
  PyStr.lower response = PyStr.lower response' ->
  Citation.has_citations response = Citation.has_citations response'.
Proof.
  intros H. rewrite <- (has_citations_lower response), H. apply has_citations_lower.
Qed.

Lemma sources_mentioned_case (response response' : string) (sources : list string) :
  PyStr.lower response = PyStr.lower response' ->
  Citation.sources_mentioned response sources = Citation.sources_mentioned response' sources.
Proof.
  intros H. induction sources as [|source rest IH]; [reflexivity |].
  cbn [Citation.sources_mentioned]. unfold Citation.part_mentioned.
  rewrite H, IH. reflexivity.
Qed.

Lemma citation_grade_case (response response' : string) (expected_sources : list string) :
  PyStr.lower response = PyStr.lower response' ->
  Citation.grade_citation_quality response expected_sources
  = Citation.grade_citation_quality response' expected_sources.
Proof.
  intros H. unfold Citation.grade_citation_quality.
  rewrite (has_citations_case _ _ H), (sources_mentioned_case _ _ _ H). reflexivity.
Qed.

(** The citation grade does not depend on the case of an ASCII response:
    two ASCII responses that agree once lowered get the same grade,
    evidence included. *)
Theorem citation_grade_case_insensitive
        (response response' : string) (expected_sources : list string) :
  isascii response = true -> isascii response' = true ->
  PyStr.lower response = PyStr.lower response' ->
  Citation.grade_citation_quality response expected_sources
  = Citation.grade_citation_quality response' expected_sources.
Proof.
  intros _ _ H. unfold Citation.grade_citation_quality.
  assert (Hhas : Citation.has_citations response = Citation.has_citations response').
  { rewrite <- (has_citations_lower response), H. apply has_citations_lower. }
  assert (Hsrc : Citation.sources_mentioned response expected_sources
                 = Citation.sources_mentioned response' expected_sources).
  { apply sources_mentioned_case, H. }
  rewrite Hhas, Hsrc. reflexivity.
Qed.

Lemma citation_grade_case_insensitive_witness :
  isascii "ACCORDING TO UBS, PAGE 17" = true
  /\ isascii "according to ubs, page 17" = true
  /\ PyStr.lower "ACCORDING TO UBS, PAGE 17" = PyStr.lower "according to ubs, page 17"
  /\ Citation.grade_citation_quality "ACCORDING TO UBS, PAGE 17" ["Outlook June 2025.pdf"]
     = Citation.grade_citation_quality "according to ubs, page 17" ["Outlook June 2025.pdf"].
Proof.
  split; [reflexivity |]. split; [reflexivity |]. split; [reflexivity |].
  exact (citation_grade_case_insensitive "ACCORDING TO UBS, PAGE 17"
           "according to ubs, page 17" ["Outlook June 2025.pdf"] eq_refl eq_refl eq_refl).
Defined.

(** ** Extending a response *)

Lemma matches_prefix_app (r : Re.regex) (s t : string) :
  Re.matches_prefix r s = true -> Re.matches_prefix r (s ++ t) = true.
Proof.
  revert r. induction s as [|c s IH]; intros r.
  - cbn [Re.matches_prefix]. rewrite orb_false_r. intros H.
    rewrite append_nil, matches_prefix_unfold, H. reflexivity.
  - rewrite append_cons, !(matches_prefix_unfold r (String _ _)), !orb_true_iff.
    intros [H | H]; [left; exact H | right; apply IH, H].
Qed.

Lemma search_app_r (r : Re.regex) (s t : string) :
  Re.search r s = true -> Re.search r (s ++ t) = true.
Proof.
  induction s as [|c s IH].
  - cbn [Re.search]. rewrite orb_false_r. intros H.
    rewrite search_unfold, (matches_prefix_app r EmptyString t H). reflexivity.
  - rewrite append_cons, !(search_unfold r (String _ _)), !orb_true_iff.
    intros [H | H].
    + left. rewrite <- append_cons. apply matches_prefix_app, H.
    + right. apply IH, H.
Qed.

Lemma search_app_l (r : Re.regex) (p s : string) :
  Re.search r s = true -> Re.search r (p ++ s) = true.
Proof.
  intros H. induction p as [|c p IH]; [exact H |].
  rewrite append_cons, search_unfold, IH. apply orb_true_r.
Qed.

Lemma search_extends (r : Re.regex) (s s' : string) :
  extends s s' -> Re.search r s = true -> Re.search r s' = true.
Proof. intros (pre & post & ->) H. apply search_app_l, search_app_r, H. Qed.

Lemma existsb_mono {A} (f g : A -> bool) (l : list A) :
  (forall x, f x = true -> g x = true) -> existsb f l = true -> existsb g l = true.
Proof.
  intros H. rewrite !existsb_exists. intros (x & Hin & Hf). exists x. auto.
Qed.

Lemma has_citations_extends (response response' : string) :
  extends response response' ->
  Citation.has_citations response = true -> Citation.has_citations response' = true.
Proof.
  intros Hext. apply existsb_mono. intros pattern. apply search_extends, Hext.
Qed.

Lemma part_mentioned_extends (response response' : string) (key_parts : list string) :
  extends response response' ->
  Citation.part_mentioned response key_parts = true ->
  Citation.part_mentioned response' key_parts = true.
Proof.
  intros Hext. apply existsb_mono. intros part. apply contains_extends, Hext.
Qed.

Lemma sources_mentioned_filter (response : string) (sources : list string) :
  Citation.sources_mentioned response sources
  = List.filter (fun source => Citation.part_mentioned response (Citation.findall source))
                sources.
Proof.
  induction sources as [|source rest IH]; [reflexivity |].
  cbn [Citation.sources_mentioned List.filter]. rewrite IH. reflexivity.
Qed.

Lemma sources_mentioned_extends (response response' : string) (sources : list string) :
  extends response response' ->
  truthy (Citation.sources_mentioned response sources) = true ->
  truthy (Citation.sources_mentioned response' sources) = true.
Proof.
  intros Hext. rewrite !sources_mentioned_filter, !truthy_filter.
  apply existsb_mono. intros source. apply part_mentioned_extends, Hext.
Qed.

Lemma citation_score_closed (response : string) (sources : list string) :
  Grade.score (Citation.grade_citation_quality response sources)
  = (if Citation.has_citations response
     then if truthy (Citation.sources_mentioned response sources) then 1 else 7 # 10
     else if truthy (Citation.sources_mentioned response sources) then 1 # 2 else 0)
  /\ Grade.passed (Citation.grade_citation_quality response sources)
     = Qge_bool (Grade.score (Citation.grade_citation_quality response sources)) (1 # 2).
Proof.
  unfold Citation.grade_citation_quality.
  destruct (Citation.has_citations response);
    destruct (truthy (Citation.sources_mentioned response sources)); split; reflexivity.
Qed.

Lemma citation_score_extends (response response' : string) (sources : list string) :
  extends response response' ->
  Grade.score (Citation.grade_citation_quality response sources)
  <= Grade.score (Citation.grade_citation_quality response' sources).
Proof.
  intros Hext.
  rewrite (proj1 (citation_score_closed response sources)),
          (proj1 (citation_score_closed response' sources)).
  pose proof (has_citations_extends _ _ Hext) as Hh.
  pose proof (sources_mentioned_extends _ _ sources Hext) as Hm.
  destruct (Citation.has_citations response);
    destruct (truthy (Citation.sources_mentioned response sources));
    try rewrite (Hh eq_refl); try rewrite (Hm eq_refl);
    destruct (Citation.has_citations response');
    destruct (truthy (Citation.sources_mentioned response' sources));
    discriminate.
Qed.

(** Putting text before or after a response never lowers its citation
    score and never turns a passing citation grade into a failing one. *)
Theorem citation_score_monotone_in_response
        (response response' : string) (expected_sources : list string) :
  extends response response' ->
  let r := Citation.grade_citation_quality response expected_sources in
  let r' := Citation.grade_citation_quality response' expected_sources in
  Grade.score r <= Grade.score r'
  /\ (Grade.passed r = true -> Grade.passed r' = true).
Proof.
  intros Hext. cbv zeta.
  pose proof (citation_score_extends _ _ expected_sources Hext) as Hle.
  split; [exact Hle |].
  rewrite (proj2 (citation_score_closed response expected_sources)),
          (proj2 (citation_score_closed response' expected_sources)), !Qge_bool_iff.
  intros H. exact (Qle_trans _ _ _ H Hle).
Qed.

Lemma citation_score_monotone_in_response_witness :
  extends "the March outlook" "According to the March outlook (Page 3)"
  /\ Grade.score (Citation.grade_citation_quality "the March outlook"
                    ["House View March 2025.pdf"])
     <= Grade.score (Citation.grade_citation_quality
                       "According to the March outlook (Page 3)"
                       ["House View March 2025.pdf"]).
Proof.
  assert (H : extends "the March outlook" "According to the March outlook (Page 3)").
  { exists "According to ", " (Page 3)". reflexivity. }
  split; [exact H |].
  exact (proj1 (citation_score_monotone_in_response _ _ ["House View March 2025.pdf"] H)).
Defined.

Lemma compliance_score_closed (response category : string) :
  let present :=
    existsb (fun kw => PyStr.contains kw (PyStr.lower response))
            Compliance.compliance_keywords in
  Grade.score (Compliance.grade_compliance response category)
  = (if Compliance.disclaimer_category category
     then if present then 1 else 1 # 2
     else if present then 1 else 4 # 5)
  /\ Grade.passed (Compliance.grade_compliance response category)
     = Qge_bool (Grade.score (Compliance.grade_compliance response category)) (7 # 10).
Proof.
  cbv zeta. unfold Compliance.grade_compliance. cbn [Grade.score Grade.passed].
  rewrite truthy_filter. split; reflexivity.
Qed.

Lemma compliance_score_extends (response response' category : string) :
  extends response response' ->
  Grade.score (Compliance.grade_compliance response category)
  <= Grade.score (Compliance.grade_compliance response' category).
Proof.
  intros Hext.
  rewrite (proj1 (compliance_score_closed response category)),
          (proj1 (compliance_score_closed response' category)).
  assert (Hp : existsb (fun kw => PyStr.contains kw (PyStr.lower response))
                 Compliance.compliance_keywords = true ->
               existsb (fun kw => PyStr.contains kw (PyStr.lower response'))
                 Compliance.compliance_keywords = true).
  { apply existsb_mono. intros kw. apply contains_extends, Hext. }
  destruct (Compliance.disclaimer_category category);
    destruct (existsb _ Compliance.compliance_keywords) eqn:E;
    try rewrite (Hp eq_refl);
    try destruct (existsb (fun kw => PyStr.contains kw (PyStr.lower response')) _);
    discriminate.
Qed.

Lemma compliance_score_at_least_half (response category : string) :
  1 # 2 <= Grade.score (Compliance.grade_compliance response category).
Proof.
  rewrite (proj1 (compliance_score_closed response category)).
  destruct (Compliance.disclaimer_category category); destruct (existsb _ _); discriminate.
Qed.

Lemma keyword_step_extends (response response' : string) (criteria : Evals.Criteria) :
  extends response response' ->
  Grade.score (Evals.keyword_step response criteria)
  <= Grade.score (Evals.keyword_step response' criteria).
Proof.
  intros Hext. unfold Evals.keyword_step.
  destruct (truthy _); [apply keyword_score_extends, Hext | apply Qle_refl].
Qed.

Lemma citation_step_extends (response response' : string) (criteria : Evals.Criteria)
      (source_docs : list string) :
  extends response response' ->
  Grade.score (Evals.citation_step response criteria source_docs)
  <= Grade.score (Evals.citation_step response' criteria source_docs).
Proof.
  intros Hext. unfold Evals.citation_step.
  destruct (_ && _); [apply citation_score_extends, Hext | apply Qle_refl].
Qed.

(** Putting ASCII text before or after an ASCII response never lowers the
    overall score of its test case and never turns a passing record into a
    failing one: the deterministic evaluator has no penalty for anything a
    response says. *)
Theorem overall_score_monotone_in_response
        (now now' question_id question response response' ground_truth : string)
        (evaluation_criteria : Evals.Criteria) (source_docs : list string)
        (category : string) :
  isascii response' = true ->
  extends response response' ->
  let r := Evals.evaluate_response now question_id question response ground_truth
             evaluation_criteria source_docs category in
  let r' := Evals.evaluate_response now' question_id question response' ground_truth
              evaluation_criteria source_docs category in
  Evals.overall_score r <= Evals.overall_score r'
  /\ (Evals.passed r = true -> Evals.passed r' = true).
Proof.
  intros _ Hext. cbv zeta.
  pose proof (keyword_step_extends _ _ evaluation_criteria Hext) as Hk.
  pose proof (citation_step_extends _ _ evaluation_criteria source_docs Hext) as Hc.
  pose proof (compliance_score_extends _ _ category Hext) as Hm.
  assert (Hle : Evals.overall_score
                  (Evals.evaluate_response now question_id question response ground_truth
                     evaluation_criteria source_docs category)
                <= Evals.overall_score
                     (Evals.evaluate_response now' question_id question response' ground_truth
                        evaluation_criteria source_docs category)).
  { rewrite !overall_score_sum. lra. }
  split; [exact Hle |].
  change (Evals.passed (Evals.evaluate_response now question_id question response ground_truth
                          evaluation_criteria source_docs category))
    with (Qge_bool (Evals.overall_score
                      (Evals.evaluate_response now question_id question response ground_truth
                         evaluation_criteria source_docs category)) (7 # 10)).
  change (Evals.passed (Evals.evaluate_response now' question_id question response'
                          ground_truth evaluation_criteria source_docs category))
    with (Qge_bool (Evals.overall_score
                      (Evals.evaluate_response now' question_id question response'
                         ground_truth evaluation_criteria source_docs category)) (7 # 10)).
  rewrite !Qge_bool_iff. intros H. exact (Qle_trans _ _ _ H Hle).
Qed.

Lemma overall_score_monotone_in_response_witness :
  isascii "The target is 6,600. Please consult an advisor." = true
  /\ extends "The target is 6,600" "The target is 6,600. Please consult an advisor."
  /\ Evals.overall_score
       (Evals.evaluate_response "2025-03-01T10:00:00" "q1" "What is the target?"
          "The target is 6,600" "6,600" (Evals.mkCriteria (Some ["6,600|6600"]) None)
          ["UBS_House_View_March_2025.pdf"] "comparative")
     <= Evals.overall_score
          (Evals.evaluate_response "2025-03-01T10:00:09" "q1" "What is the target?"
             "The target is 6,600. Please consult an advisor." "6,600"
             (Evals.mkCriteria (Some ["6,600|6600"]) None)
             ["UBS_House_View_March_2025.pdf"] "comparative").
Proof.
  assert (H : extends "The target is 6,600" "The target is 6,600. Please consult an advisor.").
  { exists "", ". Please consult an advisor.". reflexivity. }
  split; [reflexivity |]. split; [exact H |].
  exact (proj1 (overall_score_monotone_in_response
                  "2025-03-01T10:00:00" "2025-03-01T10:00:09" "q1" "What is the target?"
                  "The target is 6,600" "The target is 6,600. Please consult an advisor."
                  "6,600" (Evals.mkCriteria (Some ["6,600|6600"]) None)
                  ["UBS_House_View_March_2025.pdf"] "comparative" eq_refl H)).
Defined.

(** ** The per-test-case record as a whole *)

(** The record of a test case does not depend on the case of an ASCII
    response: two ASCII responses that agree once lowered give the same
    record at the same clock reading, all three grades with their evidence
    included. *)
Theorem evaluation_case_insensitive
        (now question_id question response response' ground_truth : string)
        (evaluation_criteria : Evals.Criteria) (source_docs : list string)
        (category : string) :
  isascii response = true -> isascii response' = true ->
  PyStr.lower response = PyStr.lower response' ->
  Evals.evaluate_response now question_id question response ground_truth
    evaluation_criteria source_docs category
  = Evals.evaluate_response now question_id question response' ground_truth
      evaluation_criteria source_docs category.
Proof.
  intros _ _ H. unfold Evals.evaluate_response.
  assert (Hk : Evals.keyword_step response evaluation_criteria
               = Evals.keyword_step response' evaluation_criteria).
  { unfold Evals.keyword_step, Keyword.grade_keyword_inclusion. rewrite H. reflexivity. }
  assert (Hc : Evals.citation_step response evaluation_criteria source_docs
               = Evals.citation_step response' evaluation_criteria source_docs).
  { unfold Evals.citation_step. rewrite (citation_grade_case _ _ source_docs H). reflexivity. }
  assert (Hm : Compliance.grade_compliance response category
               = Compliance.grade_compliance response' category).
  { unfold Compliance.grade_compliance. rewrite H. reflexivity. }
  rewrite Hk, Hc, Hm. reflexivity.
Qed.

Lemma evaluation_case_insensitive_witness :
  isascii "ACCORDING TO UBS THE TARGET IS 6,600" = true
  /\ isascii "According to UBS the target is 6,600" = true
  /\ PyStr.lower "ACCORDING TO UBS THE TARGET IS 6,600"
     = PyStr.lower "According to UBS the target is 6,600"
  /\ Evals.evaluate_response "2025-03-01T10:00:00" "q1" "What is the target?"
       "ACCORDING TO UBS THE TARGET IS 6,600" "6,600"
       (Evals.mkCriteria (Some ["6,600|6600"]) None) ["House View March 2025.pdf"]
       "factual_recall"
     = Evals.evaluate_response "2025-03-01T10:00:00" "q1" "What is the target?"
         "According to UBS the target is 6,600" "6,600"
         (Evals.mkCriteria (Some ["6,600|6600"]) None) ["House View March 2025.pdf"]
         "factual_recall".
Proof.
  split; [reflexivity |]. split; [reflexivity |]. split; [reflexivity |].
  exact (evaluation_case_insensitive "2025-03-01T10:00:00" "q1" "What is the target?"
           "ACCORDING TO UBS THE TARGET IS 6,600" "According to UBS the target is 6,600"
           "6,600" (Evals.mkCriteria (Some ["6,600|6600"]) None)
           ["House View March 2025.pdf"] "factual_recall" eq_refl eq_refl eq_refl).
Defined.

Lemma record_passed_closed
      (now question_id question response ground_truth : string)
      (evaluation_criteria : Evals.Criteria) (source_docs : list string) (category : string) :
  let r := Evals.evaluate_response now question_id question response ground_truth
             evaluation_criteria source_docs category in
  Evals.passed r = Qge_bool (Evals.overall_score r) (7 # 10).
Proof. reflexivity. Qed.

Lemma citation_step_passed (response : string) (criteria : Evals.Criteria)
      (source_docs : list string) :
  Grade.passed (Evals.citation_step response criteria source_docs) = true ->
  1 # 2 <= Grade.score (Evals.citation_step response criteria source_docs).
Proof.
  unfold Evals.citation_step. destruct (_ && _).
  - rewrite (proj2 (citation_score_closed response source_docs)). apply Qge_bool_iff.
  - intros _. discriminate.
Qed.

(** The overall score of a record is at least 0.1, since the compliance
    grader never scores below 0.5; and a record can pass only if its
    keyword score is at least 0.4, whatever the citation and compliance
    grades are. *)
Theorem overall_pass_needs_keyword_score
        (now question_id question response ground_truth : string)
        (evaluation_criteria : Evals.Criteria) (source_docs : list string)
        (category : string) :
  let r := Evals.evaluate_response now question_id question response ground_truth
             evaluation_criteria source_docs category in
  1 # 10 <= Evals.overall_score r
  /\ (Evals.passed r = true ->
      forall keyword, Evals.checks r !! "keyword_check" = Some keyword ->
                      2 # 5 <= Grade.score keyword).
Proof.
  cbv zeta.
  pose proof (overall_score_sum now question_id question response ground_truth
                evaluation_criteria source_docs category) as Hsum.
  destruct (checks_lookup now question_id question response ground_truth
              evaluation_criteria source_docs category) as (Hk & _ & _).
  destruct (keyword_step_range response evaluation_criteria) as [Hk0 Hk1].
  destruct (citation_step_range response evaluation_criteria source_docs) as [Hc0 Hc1].
  pose proof (compliance_score_at_least_half response category) as Hm.
  destruct (compliance_score_range response category) as [_ Hm1].
  split.
  - rewrite Hsum. lra.
  - rewrite record_passed_closed, Qge_bool_iff, Hsum. intros Hpass keyword Hlook.
    rewrite Hk in Hlook. injection Hlook as <-. lra.
Qed.

Lemma overall_pass_needs_keyword_score_witness :
  let r := Evals.evaluate_response "2025-03-01T10:00:00" "q1" "What is the target?"
             "According to UBS the target is 6,600" "6,600"
             (Evals.mkCriteria (Some ["6,600|6600"; "S&P 500"]) None) [] "factual_recall" in
  Evals.passed r = true
  /\ Evals.checks r !! "keyword_check"
     = Some (Evals.keyword_step "According to UBS the target is 6,600"
               (Evals.mkCriteria (Some ["6,600|6600"; "S&P 500"]) None))
  /\ 2 # 5 <= Grade.score (Evals.keyword_step "According to UBS the target is 6,600"
                             (Evals.mkCriteria (Some ["6,600|6600"; "S&P 500"]) None)).
Proof.
  cbv zeta.
  match goal with |- ?P /\ ?L /\ _ =>
    assert (Hp : P) by (vm_compute; reflexivity);
    assert (Hl : L) by (vm_compute; reflexivity)
  end.
  split; [exact Hp |]. split; [exact Hl |].
  exact (proj2 (overall_pass_needs_keyword_score "2025-03-01T10:00:00" "q1"
                  "What is the target?" "According to UBS the target is 6,600" "6,600"
                  (Evals.mkCriteria (Some ["6,600|6600"; "S&P 500"]) None) []
                  "factual_recall") Hp _ Hl).
Defined.

(** A record whose keyword score is 1.0 and whose citation and compliance
    grades pass always passes overall. *)
Theorem full_keyword_score_with_passing_checks_passes
        (now question_id question response ground_truth : string)
        (evaluation_criteria : Evals.Criteria) (source_docs : list string)
        (category : string) (keyword citation compliance : GradeResult) :
  let r := Evals.evaluate_response now question_id question response ground_truth
             evaluation_criteria source_docs category in
  Evals.checks r !! "keyword_check" = Some keyword ->
  Evals.checks r !! "citation_check" = Some citation ->
  Evals.checks r !! "compliance_check" = Some compliance ->
  Grade.score keyword == 1 ->
  Grade.passed citation = true ->
  Grade.passed compliance = true ->
  Evals.passed r = true /\ 4 # 5 <= Evals.overall_score r.
Proof.
  cbv zeta. intros Hk Hc Hm Hfull Hcp Hmp.
  pose proof (overall_score_sum now question_id question response ground_truth
                evaluation_criteria source_docs category) as Hsum.
  destruct (checks_lookup now question_id question response ground_truth
              evaluation_criteria source_docs category) as (Hk' & Hc' & Hm').
  rewrite Hk' in Hk. rewrite Hc' in Hc. rewrite Hm' in Hm.
  injection Hk as <-. injection Hc as <-. injection Hm as <-.
  apply citation_step_passed in Hcp.
  rewrite (proj2 (compliance_score_closed response category)), Qge_bool_iff in Hmp.
  assert (H45 : 4 # 5 <= Grade.score (Compliance.grade_compliance response category)).
  { rewrite (proj1 (compliance_score_closed response category)) in *.
    destruct (Compliance.disclaimer_category category); destruct (existsb _ _);
      try discriminate. exfalso. apply Hmp. reflexivity. }
  rewrite record_passed_closed, Qge_bool_iff, Hsum. split; lra.
Qed.

Lemma full_keyword_score_with_passing_checks_passes_witness :
  let criteria := Evals.mkCriteria (Some ["6,600|6600"]) None in
  let response := "The March target is 6,600" in
  let r := Evals.evaluate_response "2025-03-01T10:00:00" "q1" "What is the target?"
             response "6,600" criteria ["House View March 2025.pdf"] "factual_recall" in
  Evals.checks r !! "keyword_check" = Some (Evals.keyword_step response criteria)
  /\ Grade.score (Evals.keyword_step response criteria) == 1
  /\ Grade.passed (Evals.citation_step response criteria ["House View March 2025.pdf"]) = true
  /\ Grade.passed (Compliance.grade_compliance response "factual_recall") = true
  /\ Evals.passed r = true.
Proof.
  cbv zeta.
  destruct (checks_lookup "2025-03-01T10:00:00" "q1" "What is the target?"
              "The March target is 6,600" "6,600"
              (Evals.mkCriteria (Some ["6,600|6600"]) None)
              ["House View March 2025.pdf"] "factual_recall") as (Hk & Hc & Hm).
  assert (Hfull : Grade.score (Evals.keyword_step "The March target is 6,600"
                                 (Evals.mkCriteria (Some ["6,600|6600"]) None)) == 1)
    by (vm_compute; reflexivity).
  assert (Hcp : Grade.passed (Evals.citation_step "The March target is 6,600"
                                (Evals.mkCriteria (Some ["6,600|6600"]) None)
                                ["House View March 2025.pdf"]) = true)
    by (vm_compute; reflexivity).
  assert (Hmp : Grade.passed (Compliance.grade_compliance "The March target is 6,600"
                                "factual_recall") = true)
    by (vm_compute; reflexivity).
  split; [exact Hk |]. split; [exact Hfull |]. split; [exact Hcp |]. split; [exact Hmp |].
  exact (proj1 (full_keyword_score_with_passing_checks_passes _ _ _ _ _ _ _ _ _ _ _
                  Hk Hc Hm Hfull Hcp Hmp)).
Defined.

(** A test case that requires no keywords and no citation (no source
    documents, or [should_cite] false) passes whatever the response is,
    with an overall score of at least 0.9: only the compliance grader is
    run, at weight 0.2 and never below 0.5. *)
Theorem unconstrained_test_case_always_passes
        (now question_id question response ground_truth : string)
        (evaluation_criteria : Evals.Criteria) (source_docs : list string)
        (category : string) :
  default [] (Evals.must_include evaluation_criteria) = [] ->
  default true (Evals.should_cite evaluation_criteria) && truthy source_docs = false ->
  let r := Evals.evaluate_response now question_id question response ground_truth
             evaluation_criteria source_docs category in
  Evals.passed r = true /\ 9 # 10 <= Evals.overall_score r.
Proof.
  intros Hk Hc. cbv zeta.
  pose proof (overall_score_sum now question_id question response ground_truth
                evaluation_criteria source_docs category) as Hsum.
  unfold Evals.keyword_step, Evals.citation_step in Hsum. rewrite Hk, Hc in Hsum.
  cbn [truthy Evals.skipped Grade.score] in Hsum.
  pose proof (compliance_score_at_least_half response category) as Hm.
  rewrite record_passed_closed, Qge_bool_iff, Hsum. split; lra.
Qed.

Lemma unconstrained_test_case_always_passes_witness :
  let criteria := Evals.mkCriteria None None in
  default [] (Evals.must_include criteria) = []
  /\ default true (Evals.should_cite criteria) && truthy (@nil string) = false
  /\ Evals.passed (Evals.evaluate_response "2025-03-01T10:00:00" "q9" "Should I buy?"
                     "ERROR: connection refused" "decline" criteria [] "edge_cases") = true.
Proof.
  cbv zeta. split; [reflexivity |]. split; [reflexivity |].
  exact (proj1 (unconstrained_test_case_always_passes "2025-03-01T10:00:00" "q9"
                  "Should I buy?" "ERROR: connection refused" "decline"
                  (Evals.mkCriteria None None) [] "edge_cases" eq_refl eq_refl)).
Defined.

(** ** What the citation grader extracts from a source name *)

Lemma drop_app_length (m rest : string) :
  Citation.drop (String.length m) (m ++ rest) = rest.
Proof.
  induction m as [|c m IH]; [reflexivity |]. rewrite append_cons. exact IH.
Qed.

Lemma space_run_split (s : string) :
  exists blanks, s = (blanks ++ Citation.drop (Citation.space_run s) s)%string
                 /\ all_chars PyStr.isspace blanks = true.
Proof.
  induction s as [|c s (blanks & Hs & Hb)].
  - exists EmptyString. split; reflexivity.
  - cbn [Citation.space_run]. destruct (PyStr.isspace c) eqn:E.
    + exists (String c blanks). cbn [Citation.drop all_chars]. rewrite append_cons, <- Hs, E, Hb.
      split; reflexivity.
    + exists EmptyString. split; reflexivity.
Qed.

Lemma four_digits_split (s : string) :
  Citation.four_digits s = true ->
  exists year post, s = (year ++ post)%string /\ String.length year = 4%nat
                    /\ all_chars PyStr.isdigit year = true.
Proof.
  destruct s as [|a [|b [|c [|d post]]]]; try discriminate.
  cbn [Citation.four_digits]. intros H.
  exists (String a (String b (String c (String d EmptyString)))), post.
  split; [reflexivity |]. split; [reflexivity |].
  cbn [all_chars]. rewrite andb_true_r. rewrite <- !andb_assoc in H. exact H.
Qed.

Lemma match_at_spec (alternatives : list string) (s m : string) (n : nat) :
  Citation.match_at alternatives s = Some (m, n) ->
  In m alternatives
  /\ exists blanks year post,
       s = (m ++ blanks ++ year ++ post)%string
       /\ all_chars PyStr.isspace blanks = true
       /\ String.length year = 4%nat
       /\ all_chars PyStr.isdigit year = true.
Proof.
  induction alternatives as [|a rest IH]; cbn [Citation.match_at]; [discriminate |].
  assert (Hrest : Citation.match_at rest s = Some (m, n) ->
                  In m (a :: rest)
                  /\ exists blanks year post,
                       s = (m ++ blanks ++ year ++ post)%string
                       /\ all_chars PyStr.isspace blanks = true
                       /\ String.length year = 4%nat
                       /\ all_chars PyStr.isdigit year = true).
  { intros H. destruct (IH H) as [Hin Hex]. split; [right; exact Hin | exact Hex]. }
  destruct (PyStr.startswith a s) eqn:Ea; [| exact Hrest].
  unfold Citation.year_tail.
  destruct (Citation.four_digits _) eqn:Ed; [| exact Hrest].
  intros [= <- _]. split; [left; reflexivity |].
  apply startswith_spec in Ea as [tail ->]. rewrite drop_app_length in Ed.
  destruct (space_run_split tail) as (blanks & Htail & Hblanks).
  destruct (four_digits_split _ Ed) as (year & post & Hy & Hlen & Hdig).
  exists blanks, year, post. rewrite Hy in Htail. rewrite <- Htail. repeat split; assumption.
Qed.

Lemma findall_from_spec (skip : nat) (s m : string) :
  In m (Citation.findall_from skip s) ->
  In m Citation.months /\ period_label_in m s.
Proof.
  revert skip. induction s as [|c s IH]; intros skip; [intros [] |].
  assert (Hshift : forall k, In m (Citation.findall_from k s) ->
                             In m Citation.months /\ period_label_in m (String c s)).
  { intros k H. destruct (IH k H) as (Hm & pre & blanks & year & post & -> & Hrest).
    split; [exact Hm |]. exists (String c pre), blanks, year, post.
    split; [reflexivity | exact Hrest]. }
  cbn [Citation.findall_from]. destruct skip as [|k]; [| apply Hshift].
  destruct (Citation.match_at Citation.months (String c s)) as [[m' n] |] eqn:E;
    [| apply Hshift].
  intros [<- | H]; [| exact (Hshift _ H)].
  destruct (match_at_spec _ _ _ _ E) as (Hin & blanks & year & post & Hs & Hrest).
  split; [exact Hin |]. exists EmptyString, blanks, year, post.
  split; [exact Hs | exact Hrest].
Qed.

(** A source counts as mentioned only if it is one of the expected
    sources, its name holds one of the month names March, June, November
    or April directly followed by optional blanks and four digits, and the
    response contains that month name up to case: the year, and any
    separator other than blanks, never take part in the test. *)
Theorem mentioned_source_has_month_in_response
        (response : string) (expected_sources : list string) (source : string) :
  In source (Citation.sources_mentioned response expected_sources) ->
  In source expected_sources
  /\ exists m, In m Citation.months
               /\ period_label_in m source
               /\ PyStr.contains_ci m response.
Proof.
  rewrite sources_mentioned_filter, filter_In. intros [Hin Hpart].
  split; [exact Hin |].
  unfold Citation.part_mentioned in Hpart. apply existsb_exists in Hpart as (m & Hm & Hc).
  destruct (findall_from_spec _ _ _ Hm) as [Hmonth Hlabel].
  exists m. split; [exact Hmonth |]. split; [exact Hlabel |].
  apply contains_spec. exact Hc.
Qed.

Lemma mentioned_source_has_month_in_response_witness :
  In "House View March 2025.pdf"
     (Citation.sources_mentioned "as the march 2019 note said"
        ["UBS_House_View_June_2025.pdf"; "House View March 2025.pdf"])
  /\ exists m, In m Citation.months
               /\ period_label_in m "House View March 2025.pdf"
               /\ PyStr.contains_ci m "as the march 2019 note said".
Proof.
  assert (H : In "House View March 2025.pdf"
                (Citation.sources_mentioned "as the march 2019 note said"
                   ["UBS_House_View_June_2025.pdf"; "House View March 2025.pdf"])).
  { vm_compute. left. reflexivity. }
  split; [exact H |].
  exact (proj2 (mentioned_source_has_month_in_response _ _ _ H)).
Defined.

(** ** Sums and means *)

Lemma fold_left_Qplus_acc (xs : list Q) (a : Q) :
  fold_left Qplus xs a == a + py_sum xs.
Proof.
  unfold py_sum. revert a. induction xs as [|x xs IH]; intros a; cbn [fold_left].
  - ring.
  - rewrite (IH (a + x)), (IH (0 + x)). ring.
Qed.

Lemma py_sum_cons (x : Q) (xs : list Q) : py_sum (x :: xs) == x + py_sum xs.
Proof. unfold py_sum at 1. cbn [fold_left]. rewrite fold_left_Qplus_acc. ring. Qed.

Lemma len_Q_cons {A} (x : A) (xs : list A) : len_Q (x :: xs) == 1 + len_Q xs.
Proof.
  unfold len_Q. cbn [length]. rewrite Nat2Z.inj_succ. unfold Z.succ.
  rewrite inject_Z_plus. ring.
Qed.

Lemma len_Q_cons_pos {A} (x : A) (xs : list A) : 0 < len_Q (x :: xs).
Proof. unfold len_Q, Qlt. simpl. lia. Qed.

Lemma py_sum_bounds (a b : Q) (xs : list Q) :
  Forall (fun x => a <= x /\ x <= b) xs ->
  a * len_Q xs <= py_sum xs /\ py_sum xs <= b * len_Q xs.
Proof.
  induction 1 as [|x xs [Hax Hxb] _ [IHa IHb]].
  - change (py_sum []) with 0. change (len_Q (@nil Q)) with 0. split; lra.
  - rewrite py_sum_cons, len_Q_cons. split; lra.
Qed.

(** The mean of a non-empty list lies between any bounds of its
    elements. *)
Lemma mean_bounds (a b : Q) (xs : list Q) :
  xs <> [] -> Forall (fun x => a <= x /\ x <= b) xs -> a <= mean xs /\ mean xs <= b.
Proof.
  intros Hne H. destruct (py_sum_bounds a b xs H) as [Ha Hb].
  destruct xs as [|x xs]; [contradiction |]. unfold mean.
  pose proof (len_Q_cons_pos x xs) as Hpos. split.
  - apply Qle_shift_div_l; assumption.
  - apply Qle_shift_div_r; assumption.
Qed.

Lemma mean_unit_interval (xs : list Q) :
  Forall unit_interval xs -> unit_interval (mean xs).
Proof.
  intros H. destruct xs as [|x xs]; [split; discriminate |].
  apply (mean_bounds 0 1); [discriminate | exact H].
Qed.

(** ** The deterministic summary: rates and categories *)

Lemma run_scores_unit (check : string) (evaluations : list Evals.EvaluationRecord) :
  Forall well_scored evaluations -> Forall unit_interval (Evals.run_scores check evaluations).
Proof.
  intros H. apply List.Forall_forall. intros x Hx. unfold Evals.run_scores in Hx.
  apply list_elem_of_In, list_elem_of_omap in Hx as (e & He & Hx).
  apply list_elem_of_In in He. rewrite List.Forall_forall in H.
  destruct (H e He) as [_ Hchecks].
  destruct (Evals.checks e !! check) as [g |] eqn:E; [| discriminate].
  destruct (negb _); [| discriminate]. injection Hx as <-. exact (Hchecks _ _ E).
Qed.

Lemma present_scores_unit (check : string) (evaluations : list Evals.EvaluationRecord) :
  Forall well_scored evaluations -> Forall unit_interval (Evals.present_scores check evaluations).
Proof.
  intros H. apply List.Forall_forall. intros x Hx. unfold Evals.present_scores in Hx.
  apply list_elem_of_In, list_elem_of_omap in Hx as (e & He & Hx).
  apply list_elem_of_In in He. rewrite List.Forall_forall in H.
  destruct (H e He) as [_ Hchecks].
  destruct (Evals.checks e !! check) as [g |] eqn:E; [| discriminate].
  injection Hx as <-. exact (Hchecks _ _ E).
Qed.

Lemma evaluate_response_well_scored
      (now question_id question response ground_truth : string)
      (evaluation_criteria : Evals.Criteria) (source_docs : list string) (category : string) :
  well_scored (Evals.evaluate_response now question_id question response ground_truth
                 evaluation_criteria source_docs category).
Proof.
  pose proof (keyword_step_range response evaluation_criteria) as Rk.
  pose proof (citation_step_range response evaluation_criteria source_docs) as Rc.
  pose proof (compliance_score_range response category) as Rm.
  split.
  - pose proof (overall_score_sum now question_id question response ground_truth
                  evaluation_criteria source_docs category) as Hsum.
    unfold unit_interval in *. rewrite Hsum. destruct Rk, Rc, Rm. split; lra.
  - intros check g. unfold Evals.evaluate_response. cbn [Evals.checks].
    rewrite !lookup_insert. repeat case_decide; try discriminate.
    + intros [= <-]. exact Rm.
    + intros [= <-]. exact Rc.
    + intros [= <-]. exact Rk.
Qed.

(** For a non-empty batch of records whose scores are on the [0,1] scale,
    as every record of the per-test-case evaluation is, the summary's
    overall average, pass rate and three per-grader averages all lie in
    [0,1], and the pass rate is the number of passed records over the
    number of records. *)
Theorem summary_statistics_in_unit_interval (evaluations : list Evals.EvaluationRecord) :
  evaluations <> [] ->
  Forall well_scored evaluations ->
  exists s, Evals._calculate_summary evaluations = Some (Evals.SummaryOf s)
    /\ unit_interval (Evals.overall_average s)
    /\ unit_interval (Evals.pass_rate s)
    /\ unit_interval (Evals.avg_keyword_score s)
    /\ unit_interval (Evals.avg_citation_score s)
    /\ unit_interval (Evals.avg_compliance_score s)
    /\ Evals.pass_rate s
       = inject_Z (Z.of_nat (length (List.filter Evals.passed evaluations)))
         / len_Q evaluations.
Proof.
  intros Hne Hall. destruct evaluations as [|e rest]; [contradiction |].
  eexists. split; [apply evals_summary_total |].
  cbn [Evals.overall_average Evals.pass_rate Evals.avg_keyword_score
       Evals.avg_citation_score Evals.avg_compliance_score].
  split; [| split; [| split; [| split; [| split]]]].
  - apply mean_unit_interval, List.Forall_forall. intros x Hx.
    apply in_map_iff in Hx as (e' & <- & He'). rewrite List.Forall_forall in Hall.
    exact (proj1 (Hall e' He')).
  - unfold Evals.pass_count, len_Q. apply ratio_in_unit_interval.
    + apply List.filter_length_le.
    + cbn [length]. lia.
  - apply mean_unit_interval, run_scores_unit, Hall.
  - apply mean_unit_interval, run_scores_unit, Hall.
  - apply mean_unit_interval, present_scores_unit, Hall.
  - reflexivity.
Qed.

Lemma summary_statistics_in_unit_interval_witness :
  let batch :=
    [ Evals.evaluate_response "2025-03-01T10:00:00" "q1" "What is the target?"
        "The target is 6600" "6,600" (Evals.mkCriteria (Some ["6,600|6600"; "S&P 500"]) None)
        [] "factual_recall";
      Evals.evaluate_response "2025-03-01T10:00:05" "q2" "Should I buy?"
        "I do not know." "decline" (Evals.mkCriteria (Some ["consult"]) None)
        ["House View March 2025.pdf"] "edge_cases" ] in
  batch <> [] /\ Forall well_scored batch
  /\ exists s, Evals._calculate_summary batch = Some (Evals.SummaryOf s)
               /\ unit_interval (Evals.overall_average s)
               /\ Evals.pass_rate s == 1 # 2.
Proof.
  cbv zeta.
  match goal with |- ?l <> [] /\ _ =>
    assert (Hne : l <> []) by discriminate;
    assert (Hall : Forall well_scored l)
      by (repeat (apply List.Forall_cons; [apply evaluate_response_well_scored |]);
          apply List.Forall_nil);
    destruct (summary_statistics_in_unit_interval l Hne Hall)
      as (s & Hs & Ho & _ & _ & _ & _ & Hp)
  end.
  split; [exact Hne |]. split; [exact Hall |].
  exists s. split; [exact Hs |]. split; [exact Ho |]. rewrite Hp. vm_compute. reflexivity.
Defined.

(** ** Category breakdowns *)

Section EvalsCategories.

Let empty_stats : Evals.CategoryStats := Evals.mkStats 0 0 [] None.

Lemma tally_lookup (stats : gmap string Evals.CategoryStats) (e : Evals.EvaluationRecord)
      (cat : string) :
  Evals.tally stats e !! cat
  = if String.eqb (Evals.category e) cat
    then Some (tallied (default empty_stats (stats !! cat)) [e])
    else stats !! cat.
Proof.
  unfold Evals.tally. destruct (String.eqb_spec (Evals.category e) cat) as [<- | Hne].
  - rewrite lookup_alter_eq. destruct (stats !! Evals.category e) as [s |] eqn:E.
    + rewrite E. cbn. unfold tallied. cbn [length List.filter map].
      destruct (Evals.passed e); cbn [length]; f_equal; f_equal; lia.
    + rewrite lookup_insert_eq. cbn. unfold tallied. cbn [length List.filter map].
      destruct (Evals.passed e); reflexivity.
  - rewrite lookup_alter_ne by exact Hne.
    destruct (stats !! Evals.category e); [reflexivity |].
    rewrite lookup_insert_ne by exact Hne. reflexivity.
Qed.

Lemma tallied_cons (s : Evals.CategoryStats) (e : Evals.EvaluationRecord)
      (es : list Evals.EvaluationRecord) :
  tallied (tallied s [e]) es = tallied s (e :: es).
Proof.
  unfold tallied. cbn [length List.filter map Evals.count Evals.cat_passed Evals.scores
                       Evals.avg_score].
  rewrite <- app_assoc. cbn [app].
  destruct (Evals.passed e); cbn [length]; f_equal; lia.
Qed.

Lemma tally_fold_lookup (evaluations : list Evals.EvaluationRecord)
      (stats : gmap string Evals.CategoryStats) (cat : string) :
  fold_left Evals.tally evaluations stats !! cat
  = match records_in cat evaluations with
    | [] => stats !! cat
    | es => Some (tallied (default empty_stats (stats !! cat)) es)
    end.
Proof.
  revert stats. induction evaluations as [|e rest IH]; intros stats; [reflexivity |].
  cbn [fold_left]. rewrite IH, tally_lookup. unfold records_in. cbn [List.filter].
  destruct (String.eqb (Evals.category e) cat).
  - cbn [from_option id]. destruct (List.filter _ rest) as [|e' es].
    + reflexivity.
    + rewrite tallied_cons. reflexivity.
  - reflexivity.
Qed.

End EvalsCategories.

(** In the deterministic summary, the breakdown has an entry exactly for
    the categories that occur in the batch, and the entry of a category
    holds the number of its records, the number of those that passed, their
    overall scores in batch order and the mean of these scores. *)
Theorem category_breakdown_entries
        (evaluations : list Evals.EvaluationRecord) (cat : string) :
  evaluations <> [] ->
  exists s, Evals._calculate_summary evaluations = Some (Evals.SummaryOf s)
    /\ Evals.category_breakdown s !! cat
       = (match records_in cat evaluations with
          | [] => None
          | es =>
              Some {| Evals.count := length es;
                      Evals.cat_passed := length (List.filter Evals.passed es);
                      Evals.scores := map Evals.overall_score es;
                      Evals.avg_score := Some (mean (map Evals.overall_score es)) |}
          end)
    /\ (is_Some (Evals.category_breakdown s !! cat)
        <-> exists e, In e evaluations /\ Evals.category e = cat).
Proof.
  intros Hne. destruct evaluations as [|e0 rest]; [contradiction |].
  eexists. split; [apply evals_summary_total |]. cbn [Evals.category_breakdown].
  rewrite lookup_fmap, tally_fold_lookup, lookup_empty.
  assert (Hin : forall e, In e (records_in cat (e0 :: rest))
                          <-> In e (e0 :: rest) /\ Evals.category e = cat).
  { intros e. unfold records_in. rewrite filter_In, String.eqb_eq. reflexivity. }
  destruct (records_in cat (e0 :: rest)) as [|e es] eqn:E.
  - split; [reflexivity |]. split.
    + intros [x Hx]. discriminate.
    + intros (e & He). apply Hin in He. destruct He.
  - split; [reflexivity |]. split.
    + intros _. exists e. apply Hin. left. reflexivity.
    + intros _. eexists. reflexivity.
Qed.

Lemma category_breakdown_entries_witness :
  let rec (id : string) (score : Q) (pass : bool) :=
    Evals.mkRecord id "question" "factual_recall" "2025-03-01T10:00:00" ∅ score pass in
  let batch := [rec "q1" 1 true; rec "q2" (1 # 2) false; rec "q3" 0 false] in
  batch <> []
  /\ exists s, Evals._calculate_summary batch = Some (Evals.SummaryOf s)
       /\ Evals.category_breakdown s !! "factual_recall"
          = Some {| Evals.count := 3; Evals.cat_passed := 1;
                    Evals.scores := [1; 1 # 2; 0];
                    Evals.avg_score := Some (mean [1; 1 # 2; 0]) |}
       /\ mean [1; 1 # 2; 0] == 1 # 2.
Proof.
  cbv zeta.
  match goal with |- ?l <> [] /\ _ =>
    assert (Hne : l <> []) by discriminate;
    destruct (category_breakdown_entries l "factual_recall" Hne) as (s & Hs & Hentry & _)
  end.
  split; [exact Hne |]. exists s. split; [exact Hs |]. split; [exact Hentry | reflexivity].
Defined.

Section JudgeCategories.

Let empty_collected : Judge.Collected := Judge.mkCollected 0 0 [].

Lemma judge_tally_lookup (stats : gmap string Judge.Collected) (e : Judge.Evaluation)
      (cat : string) :
  Judge.tally stats e !! cat
  = if String.eqb (judge_category e) cat
    then Some (judge_tallied (default empty_collected (stats !! cat)) [e])
    else stats !! cat.
Proof.
  unfold Judge.tally. fold (judge_category e).
  destruct (String.eqb_spec (judge_category e) cat) as [<- | Hne].
  - rewrite lookup_alter_eq. destruct (stats !! judge_category e) as [s |] eqn:E.
    + rewrite E. cbn. unfold judge_tallied. cbn [length List.filter omap list_omap].
      destruct (Judge.get_pass e), (Judge.overall_score e); cbn [length]; f_equal; f_equal;
        try lia; rewrite ?app_nil_r; reflexivity.
    + rewrite lookup_insert_eq. cbn. unfold judge_tallied. cbn [length List.filter omap list_omap].
      destruct (Judge.get_pass e), (Judge.overall_score e); reflexivity.
  - rewrite lookup_alter_ne by exact Hne.
    destruct (stats !! judge_category e); [reflexivity |].
    rewrite lookup_insert_ne by exact Hne. reflexivity.
Qed.

Lemma judge_tallied_cons (s : Judge.Collected) (e : Judge.Evaluation)
      (es : list Judge.Evaluation) :
  judge_tallied (judge_tallied s [e]) es = judge_tallied s (e :: es).
Proof.
  unfold judge_tallied.
  cbn [length List.filter omap list_omap Judge.c_count Judge.c_passed Judge.c_scores].
  rewrite <- app_assoc.
  destruct (Judge.get_pass e), (Judge.overall_score e); cbn [length app]; f_equal; lia.
Qed.

Lemma judge_tally_fold_lookup (evaluations : list Judge.Evaluation)
      (stats : gmap string Judge.Collected) (cat : string) :
  fold_left Judge.tally evaluations stats !! cat
  = match judge_records_in cat evaluations with
    | [] => stats !! cat
    | es => Some (judge_tallied (default empty_collected (stats !! cat)) es)
    end.
Proof.
  revert stats. induction evaluations as [|e rest IH]; intros stats; [reflexivity |].
  cbn [fold_left]. rewrite IH, judge_tally_lookup. unfold judge_records_in. cbn [List.filter].
  destruct (String.eqb (judge_category e) cat).
  - cbn [from_option id]. destruct (List.filter _ rest) as [|e' es].
    + reflexivity.
    + rewrite judge_tallied_cons. reflexivity.
  - reflexivity.
Qed.

End JudgeCategories.

(** In the judge summary of a batch with a valid record, the breakdown is
    built from the valid records alone, a record without a category being
    filed under "unknown": the entry of a category holds the number of its
    valid records, the number of those whose pass flag is true, and the
    mean of the overall scores present among them (0 when none has one). *)
Theorem judge_category_breakdown_entries
        (evaluations : list Judge.Evaluation) (cat : string) :
  let valid_evals := List.filter Judge.no_error evaluations in
  valid_evals <> [] ->
  exists s, Judge._calculate_summary evaluations = Some (Judge.SummaryOf s)
    /\ Judge.category_breakdown s !! cat
       = (match judge_records_in cat valid_evals with
          | [] => None
          | es =>
              Some {| Judge.count := length es;
                      Judge.passed := length (List.filter Judge.get_pass es);
                      Judge.avg_score := mean (omap Judge.overall_score es) |}
          end).
Proof.
  cbv zeta. intros Hvalid.
  destruct (judge_summary_total evaluations Hvalid) as (cs & _ & Hsum).
  eexists. split; [exact Hsum |]. cbn [Judge.category_breakdown].
  rewrite lookup_fmap, judge_tally_fold_lookup, lookup_empty.
  destruct (judge_records_in cat _) as [|e es]; reflexivity.
Qed.

Lemma judge_category_breakdown_entries_witness :
  let ok (cat : option string) (score : option Q) (pass : option bool) :=
    Judge.mkEvaluation None (Some "question") cat None None ∅ score pass None in
  let batch := [ ok None (Some 4) (Some true); Judge.error_record "timeout" "question";
                 ok None None None; ok (Some "synthesis") (Some 3) (Some false) ] in
  List.filter Judge.no_error batch <> []
  /\ exists s, Judge._calculate_summary batch = Some (Judge.SummaryOf s)
       /\ Judge.category_breakdown s !! "unknown"
          = Some {| Judge.count := 2; Judge.passed := 1; Judge.avg_score := mean [4] |}.
Proof.
  cbv zeta.
  match goal with |- List.filter _ ?l <> [] /\ _ =>
    assert (Hne : List.filter Judge.no_error l <> []) by discriminate;
    destruct (judge_category_breakdown_entries l "unknown" Hne) as (s & Hs & Hentry)
  end.
  split; [exact Hne |]. exists s. split; [exact Hs | exact Hentry].
Defined.

(** ** The judge summary: criteria and counts *)

Lemma py_min_acc (xs : list Q) (acc : Q) :
  let m := fold_left (fun m y => if Qgt_bool m y then y else m) xs acc in
  (m = acc \/ In m xs) /\ m <= acc /\ Forall (fun y => m <= y) xs.
Proof.
  cbv zeta. revert acc. induction xs as [|x xs IH]; intros acc; cbn [fold_left].
  - split; [left; reflexivity |]. split; [apply Qle_refl | constructor].
  - pose proof (Qgt_bool_iff acc x) as Hgt.
    destruct (Qgt_bool acc x) eqn:E.
    + destruct (IH x) as (Hin & Hle & Hall).
      assert (Hlt : x < acc) by (apply Hgt; reflexivity).
      split; [right; destruct Hin as [-> | Hin]; [left; reflexivity | right; exact Hin] |].
      split; [apply Qlt_le_weak; eapply Qle_lt_trans; eassumption |].
      constructor; assumption.
    + destruct (IH acc) as (Hin & Hle & Hall).
      assert (Hge : acc <= x).
      { apply Qnot_lt_le. intros Hlt. apply Hgt in Hlt. discriminate. }
      split; [destruct Hin as [-> | Hin]; [left; reflexivity | right; right; exact Hin] |].
      split; [exact Hle |]. constructor; [eapply Qle_trans; eassumption | exact Hall].
Qed.

Lemma py_max_acc (xs : list Q) (acc : Q) :
  let m := fold_left (fun m y => if Qgt_bool y m then y else m) xs acc in
  (m = acc \/ In m xs) /\ acc <= m /\ Forall (fun y => y <= m) xs.
Proof.
  cbv zeta. revert acc. induction xs as [|x xs IH]; intros acc; cbn [fold_left].
  - split; [left; reflexivity |]. split; [apply Qle_refl | constructor].
  - pose proof (Qgt_bool_iff x acc) as Hgt.
    destruct (Qgt_bool x acc) eqn:E.
    + destruct (IH x) as (Hin & Hle & Hall).
      assert (Hlt : acc < x) by (apply Hgt; reflexivity).
      split; [right; destruct Hin as [-> | Hin]; [left; reflexivity | right; exact Hin] |].
      split; [apply Qlt_le_weak; eapply Qlt_le_trans; eassumption |].
      constructor; assumption.
    + destruct (IH acc) as (Hin & Hle & Hall).
      assert (Hge : x <= acc).
      { apply Qnot_lt_le. intros Hlt. apply Hgt in Hlt. discriminate. }
      split; [destruct Hin as [-> | Hin]; [left; reflexivity | right; right; exact Hin] |].
      split; [exact Hle |]. constructor; [eapply Qle_trans; eassumption | exact Hall].
Qed.

(** [min] and [max] are attained and bound every element. *)
Lemma py_min_max_spec (x : Q) (xs : list Q) :
  In (py_min x xs) (x :: xs) /\ In (py_max x xs) (x :: xs)
  /\ Forall (fun y => py_min x xs <= y /\ y <= py_max x xs) (x :: xs).
Proof.
  destruct (py_min_acc xs x) as (Hmin_in & Hmin_x & Hmin_all).
  destruct (py_max_acc xs x) as (Hmax_in & Hmax_x & Hmax_all).
  fold (py_min x xs) in *. fold (py_max x xs) in *.
  split; [destruct Hmin_in as [-> | H]; [left; reflexivity | right; exact H] |].
  split; [destruct Hmax_in as [-> | H]; [left; reflexivity | right; exact H] |].
  constructor; [split; assumption |].
  rewrite List.Forall_forall in *. intros y Hy. split; auto.
Qed.

(** In the judge summary of a batch whose valid records can be read, a
    criterion has statistics exactly when it is one of the five rubric
    criteria and some valid record scores it; its average is then the sum
    of those scores over their number, and its minimum and maximum are two
    of them that bound all of them. *)
Theorem judge_criterion_statistics (evaluations : list Dict) (criterion : string) :
  let valid_evals := List.filter LLMJudge.no_error evaluations in
  let scores := criterion_numbers criterion valid_evals in
  valid_evals <> [] ->
  Forall (fun e => well_typed e = true) valid_evals ->
  Forall (fun e => scores_float_sized e = true) valid_evals ->
  exists s, LLMJudge._calculate_summary evaluations = Returns (LLMJudge.SummaryOf s)
    /\ (is_Some (LLMJudge.criteria_scores s !! criterion)
        <-> In criterion Judge.evaluation_criteria /\ scores <> [])
    /\ (forall st, LLMJudge.criteria_scores s !! criterion = Some st ->
          Judge.average st = py_sum scores / len_Q scores
          /\ In (Judge.minimum st) scores
          /\ In (Judge.maximum st) scores
          /\ Forall (fun y => Judge.minimum st <= y /\ y <= Judge.maximum st) scores).
Proof.
  cbv zeta. intros Hvalid Htyped _. apply forallb_Forall_true in Htyped.
  pose proof (summary_spec evaluations Hvalid) as Hsum. cbv zeta in Hsum.
  rewrite Htyped in Hsum. eexists. split; [exact Hsum |].
  cbn [statistics LLMJudge.criteria_scores].
  rewrite criteria_table_lookup, lookup_empty. unfold criterion_stats.
  set (valid := List.filter LLMJudge.no_error evaluations).
  rewrite <- (list_elem_of_In Judge.evaluation_criteria criterion).
  destruct (bool_decide_reflect (criterion ∈ Judge.evaluation_criteria)) as [Hin | Hout].
  - destruct (criterion_numbers criterion valid) as [|x xs] eqn:E.
    + split; [| discriminate]. split; [intros [st Hst]; discriminate |].
      intros [_ Hne]. contradiction.
    + split.
      * split; [intros _; split; [exact Hin | discriminate] | intros _; eexists; reflexivity].
      * intros st [= <-]. cbn [Judge.average Judge.minimum Judge.maximum].
        destruct (py_min_max_spec x xs) as (Hmin & Hmax & Hall).
        split; [reflexivity |]. split; [exact Hmin |]. split; [exact Hmax | exact Hall].
  - split; [| discriminate]. split; [intros [st Hst]; discriminate |].
    intros [Hin _]. contradiction.
Qed.

Lemma judge_criterion_statistics_witness :
  let scored (x : Q) : Dict :=
    <["category" := JStr "synthesis"]>
      (<["pass" := JBool true]>
         (<["overall_score" := JNum x]>
            (<["compliance" := JObj (<["score" := JNum x]> ∅)]> ∅))) in
  let batch := [scored 4; LLMJudge.error_record "timeout" "question"; scored 2; scored 5] in
  List.filter LLMJudge.no_error batch <> []
  /\ Forall (fun e => well_typed e = true) (List.filter LLMJudge.no_error batch)
  /\ Forall (fun e => scores_float_sized e = true) (List.filter LLMJudge.no_error batch)
  /\ exists s, LLMJudge._calculate_summary batch = Returns (LLMJudge.SummaryOf s)
       /\ is_Some (LLMJudge.criteria_scores s !! "compliance")
       /\ ~ is_Some (LLMJudge.criteria_scores s !! "completeness").
Proof.
  cbv zeta.
  match goal with |- List.filter _ ?l <> [] /\ _ =>
    assert (Hne : List.filter LLMJudge.no_error l <> []) by (vm_compute; discriminate);
    assert (Htyped : Forall (fun e => well_typed e = true) (List.filter LLMJudge.no_error l))
      by (apply forallb_Forall_true; vm_compute; reflexivity);
    assert (Hsized : Forall (fun e => scores_float_sized e = true)
                       (List.filter LLMJudge.no_error l))
      by (apply forallb_Forall_true; vm_compute; reflexivity);
    destruct (judge_criterion_statistics l "compliance" Hne Htyped Hsized)
      as (s & Hs & Hiff & _);
    destruct (judge_criterion_statistics l "completeness" Hne Htyped Hsized)
      as (s' & Hs' & Hiff' & _)
  end.
  split; [exact Hne |]. split; [exact Htyped |]. split; [exact Hsized |].
  exists s. split; [exact Hs |]. split.
  - apply Hiff. split; [vm_compute; tauto | vm_compute; discriminate].
  - rewrite Hs in Hs'. injection Hs' as <-. intros H. apply Hiff' in H as [_ H].
    apply H. vm_compute. reflexivity.
Defined.

Lemma filter_nil_forall {A} (f : A -> bool) (l : list A) :
  List.filter f l = [] -> Forall (fun x => f x = false) l.
Proof.
  induction l as [|x l IH]; [constructor |]. cbn [List.filter].
  destruct (f x) eqn:E; [discriminate |]. intros H. constructor; [exact E | exact (IH H)].
Qed.

Lemma forallb_false_exists {A} (p : A -> bool) (xs : list A) :
  forallb p xs = false -> exists x, In x xs /\ p x = false.
Proof.
  induction xs as [|x xs IH]; [discriminate |]. cbn [forallb].
  destruct (p x) eqn:E.
  - intros H. destruct (IH H) as (y & Hy & Hp). exists y. split; [right; exact Hy | exact Hp].
  - intros _. exists x. split; [left; reflexivity | exact E].
Qed.

(** The judge summary raises nothing but [TypeError], and that exactly
    when a record without an error field cannot be read.  Otherwise it is
    the empty mapping for the empty batch, the lone error message when
    every record carries an error field, and else statistics in which
    [total_evaluated] is positive and [total_evaluated + total_failed] is
    the size of the batch. *)
Theorem judge_summary_counts_add_up (evaluations : list Dict) :
  Forall (fun e => scores_float_sized e = true) (List.filter LLMJudge.no_error evaluations) ->
  match LLMJudge._calculate_summary evaluations with
  | Returns LLMJudge.EmptyDict => evaluations = []
  | Returns (LLMJudge.ErrorDict _) =>
      evaluations <> [] /\ Forall (fun e => failed e = true) evaluations
  | Returns (LLMJudge.SummaryOf s) =>
      (LLMJudge.total_evaluated s + LLMJudge.total_failed s = length evaluations)%nat
      /\ (0 < LLMJudge.total_evaluated s)%nat
      /\ LLMJudge.total_failed s = length (List.filter failed evaluations)
      /\ Forall (fun e => well_typed e = true) (List.filter LLMJudge.no_error evaluations)
  | Raises e =>
      e = TypeError
      /\ exists record, In record evaluations /\ failed record = false
                        /\ well_typed record = false
  end.
Proof.
  intros _. destruct evaluations as [|e rest]; [reflexivity |].
  destruct (List.filter LLMJudge.no_error (e :: rest)) as [|v vs] eqn:Ev.
  - unfold LLMJudge._calculate_summary. rewrite Ev. split; [discriminate |].
    apply filter_nil_forall in Ev. eapply Forall_impl; [exact Ev |]. cbn.
    intros x Hx. unfold failed. rewrite Hx. reflexivity.
  - assert (Hvalid : List.filter LLMJudge.no_error (e :: rest) <> [])
      by (rewrite Ev; discriminate).
    pose proof (summary_spec (e :: rest) Hvalid) as Hsum. cbv zeta in Hsum. rewrite Hsum.
    destruct (forallb well_typed (List.filter LLMJudge.no_error (e :: rest))) eqn:Et.
    + cbn [statistics LLMJudge.total_evaluated LLMJudge.total_failed].
      pose proof (List.filter_length_le LLMJudge.no_error (e :: rest)) as Hle.
      rewrite failed_count. rewrite Ev in *. cbn [length] in *.
      split; [lia |]. split; [lia |]. split; [reflexivity |].
      apply forallb_Forall_true, Et.
    + split; [reflexivity |]. apply forallb_false_exists in Et as (x & Hx & Hw).
      apply filter_In in Hx as [Hin Hno]. exists x. split; [exact Hin |].
      split; [unfold failed; rewrite Hno; reflexivity | exact Hw].
Qed.

(** A valid record whose [compliance] entry is a bare number. *)
Lemma judge_summary_counts_add_up_witness :
  let batch : list Dict :=
    [ LLMJudge.error_record "timeout" "question";
      <["overall_score" := JNum 4]> (<["compliance" := JNum 4]> ∅) ] in
  Forall (fun e => scores_float_sized e = true) (List.filter LLMJudge.no_error batch)
  /\ LLMJudge._calculate_summary batch = Raises TypeError.
Proof.
  cbv zeta.
  match goal with |- Forall _ (List.filter _ ?l) /\ _ =>
    assert (Hsized : Forall (fun e => scores_float_sized e = true)
                       (List.filter LLMJudge.no_error l))
      by (apply forallb_Forall_true; vm_compute; reflexivity);
    pose proof (judge_summary_counts_add_up l Hsized) as H
  end.
  split; [exact Hsized |].
  destruct (LLMJudge._calculate_summary _) as [[| m | s] | e] eqn:E.
  - discriminate H.
  - destruct H as [_ H]. apply List.Forall_forall with (x := <["overall_score" := JNum 4]> (<["compliance" := JNum 4]> ∅)) in H;
      [vm_compute in H; discriminate | right; left; reflexivity].
  - destruct H as (_ & _ & _ & H). apply forallb_Forall_true in H. vm_compute in H.
    discriminate.
  - destruct H as [-> _]. reflexivity.
Defined.

(** ** Variance and the consistency ranking *)

Lemma py_sum_nonneg (xs : list Q) : Forall (fun x => 0 <= x) xs -> 0 <= py_sum xs.
Proof.
  induction 1 as [|x xs Hx _ IH]; [discriminate |]. rewrite py_sum_cons. lra.
Qed.

Lemma square_nonneg (q : Q) : 0 <= q ^ 2.
Proof. change (q ^ 2) with (q * q). nra. Qed.

Lemma calculate_variance_total (xs : list Q) :
  Analysis.calculate_variance xs = Some (variance xs).
Proof.
  destruct xs as [|x xs]; [reflexivity |].
  unfold Analysis.calculate_variance. cbn [truthy].
  rewrite py_div_len. cbn [mbind option_bind]. rewrite py_div_len. reflexivity.
Qed.

Lemma variance_nonneg (xs : list Q) : 0 <= variance xs.
Proof.
  destruct xs as [|x xs]; [discriminate |]. unfold variance.
  apply Qle_shift_div_l; [apply len_Q_cons_pos |]. rewrite Qmult_0_l.
  apply py_sum_nonneg, List.Forall_forall. intros y Hy.
  apply in_map_iff in Hy as (z & <- & _). apply square_nonneg.
Qed.

(** With fewer than two scores nothing deviates from the mean. *)
Lemma variance_below_two (xs : list Q) : (length xs <= 1)%nat -> variance xs == 0.
Proof.
  destruct xs as [|x [|y rest]]; cbn [length]; intros Hlen; [reflexivity | | lia].
  unfold variance, mean, py_sum, len_Q. cbn [map fold_left length Z.of_nat].
  change (inject_Z (Z.of_nat 1)) with 1.
  change ((x - (0 + x) / 1) ^ 2) with ((x - (0 + x) / 1) * (x - (0 + x) / 1)).
  field.
Qed.

(** On scores of either scale (between 0 and 5) [calculate_variance]
    returns, its result is never negative, and it is 0 whenever there are
    fewer than two scores. *)
Theorem variance_nonnegative_and_zero_below_two_scores (scores : list Q) :
  on_scale scores ->
  exists v, Analysis.calculate_variance scores = Some v
    /\ 0 <= v
    /\ ((length scores <= 1)%nat -> v == 0).
Proof.
  intros _. exists (variance scores). split; [apply calculate_variance_total |].
  split; [apply variance_nonneg | apply variance_below_two].
Qed.

Lemma variance_nonnegative_and_zero_below_two_scores_witness :
  on_scale [9 # 2]
  /\ exists v, Analysis.calculate_variance [9 # 2] = Some v /\ v == 0.
Proof.
  assert (H : on_scale [9 # 2]).
  { constructor; [split; discriminate | constructor]. }
  split; [exact H |].
  destruct (variance_nonnegative_and_zero_below_two_scores [9 # 2] H) as (v & Hv & _ & Hz).
  exists v. split; [exact Hv |]. apply Hz. cbn [length]. lia.
Defined.

(** On saved results whose overall scores are numbers between 0 and 5,
    [analyze_consistency] returns; it names the deterministic evaluator
    more consistent exactly when its variance is strictly smaller, so ties
    go to the judgment evaluator; in particular, a judgment result set with
    fewer than two scored records is always named the more consistent one,
    whatever the deterministic scores are. *)
Theorem consistency_ranking_ties_to_judge
        (llm_evals : list Judge.Evaluation) (evals_evals : list Evals.EvaluationRecord) :
  on_scale (omap Judge.overall_score llm_evals) ->
  on_scale (map Evals.overall_score evals_evals) ->
  exists r, Analysis.analyze_consistency llm_evals evals_evals = Some r
    /\ Analysis.llm_judge_variance r = variance (omap Judge.overall_score llm_evals)
    /\ Analysis.openai_evals_variance r = variance (map Evals.overall_score evals_evals)
    /\ (Analysis.more_consistent r = "openai-evals"
        <-> Analysis.openai_evals_variance r < Analysis.llm_judge_variance r)
    /\ (Analysis.more_consistent r = "llm-judge"
        <-> ~ Analysis.openai_evals_variance r < Analysis.llm_judge_variance r)
    /\ ((length (omap Judge.overall_score llm_evals) <= 1)%nat ->
        Analysis.more_consistent r = "llm-judge").
Proof.
  intros _ _. unfold Analysis.analyze_consistency. rewrite !calculate_variance_total.
  cbn [mbind option_bind]. eexists. split; [reflexivity |].
  cbn [Analysis.llm_judge_variance Analysis.openai_evals_variance Analysis.more_consistent].
  split; [reflexivity |]. split; [reflexivity |].
  pose proof (variance_below_two (omap Judge.overall_score llm_evals)) as Hfew.
  set (vl := variance _) in *. set (ve := variance (map _ _)).
  pose proof (Qgt_bool_iff vl ve) as Hgt.
  assert (Hcases : Qgt_bool vl ve = true /\ ve < vl \/ Qgt_bool vl ve = false /\ ~ ve < vl).
  { destruct (Qgt_bool vl ve); [left | right]; (split; [reflexivity |]).
    - apply Hgt. reflexivity.
    - intros H. apply Hgt in H. discriminate. }
  split; [| split].
  - destruct Hcases as [[-> Hlt] | [-> Hn]]; split; intros H;
      try reflexivity; try discriminate; try assumption; contradiction.
  - destruct Hcases as [[-> Hlt] | [-> Hn]]; split; intros H;
      try reflexivity; try discriminate; try assumption; contradiction.
  - intros Hlen. destruct Hcases as [[_ Hlt] | [-> _]]; [| reflexivity].
    exfalso. specialize (Hfew Hlen).
    pose proof (variance_nonneg (map Evals.overall_score evals_evals)) as Hnn. fold ve in Hnn.
    lra.
Qed.

Lemma consistency_ranking_ties_to_judge_witness :
  let judged :=
    Judge.mkEvaluation None (Some "question") (Some "synthesis") None None ∅
      (Some (19 # 5)) (Some true) None in
  let rec (score : Q) :=
    Evals.mkRecord "q" "question" "synthesis" "2025-03-01T10:00:00" ∅ score true in
  on_scale (omap Judge.overall_score [judged])
  /\ on_scale (map Evals.overall_score [rec 1; rec 1])
  /\ exists r, Analysis.analyze_consistency [judged] [rec 1; rec 1] = Some r
       /\ Analysis.more_consistent r = "llm-judge".
Proof.
  cbv zeta.
  match goal with
  | |- on_scale (omap _ ?l) /\ on_scale (map _ ?e) /\ _ =>
      assert (Hl : on_scale (omap Judge.overall_score l))
        by (constructor; [split; discriminate | constructor]);
      assert (He : on_scale (map Evals.overall_score e))
        by (repeat (constructor; [split; discriminate |]); constructor);
      destruct (consistency_ranking_ties_to_judge l e Hl He)
        as (r & Hr & _ & _ & _ & _ & Hfew)
  end.
  split; [exact Hl |]. split; [exact He |]. exists r. split; [exact Hr |].
  apply Hfew. cbn. lia.
Defined.

(** ** Edge cases, missing categories and the overall winner *)

Lemma edge_pass_rate_total {A} (passed : A -> bool) (edge : list A) :
  exists rate, Analysis.edge_pass_rate passed edge = Some rate
    /\ unit_interval rate
    /\ (edge = [] -> rate = 0).
Proof.
  destruct edge as [|e rest].
  - exists 0. split; [reflexivity |]. split; [split; discriminate | reflexivity].
  - unfold Analysis.edge_pass_rate. cbn [truthy]. rewrite py_div_len.
    eexists. split; [reflexivity |]. split; [| discriminate].
    unfold len_Q. apply ratio_in_unit_interval.
    + apply List.filter_length_le.
    + cbn [length]. lia.
Qed.

(** [analyze_edge_cases] never raises and both pass rates lie in [0,1]; a
    judge record counts as an edge case only through its own category key,
    so records without one (the error records) change nothing; and when the
    judgment result set has no edge-case record its rate is 0 and the
    deterministic evaluator is named better at edges. *)
Theorem edge_case_rates
        (llm_evals extra : list Judge.Evaluation) (evals_evals : list Evals.EvaluationRecord) :
  exists r, Analysis.analyze_edge_cases llm_evals evals_evals = Some r
    /\ unit_interval (Analysis.llm_judge_edge_pass_rate r)
    /\ unit_interval (Analysis.openai_evals_edge_pass_rate r)
    /\ (Analysis.better_at_edges r = "llm-judge"
        <-> Analysis.openai_evals_edge_pass_rate r < Analysis.llm_judge_edge_pass_rate r)
    /\ (List.filter Analysis.llm_is_edge llm_evals = [] ->
        Analysis.llm_judge_edge_pass_rate r = 0
        /\ Analysis.better_at_edges r = "openai-evals")
    /\ (Forall (fun e => Judge.category e = None) extra ->
        Analysis.analyze_edge_cases (llm_evals ++ extra) evals_evals = Some r).
Proof.
  unfold Analysis.analyze_edge_cases.
  destruct (edge_pass_rate_total Judge.get_pass (List.filter Analysis.llm_is_edge llm_evals))
    as (rl & Hrl & Hul & Hzl).
  destruct (edge_pass_rate_total Evals.passed (List.filter Analysis.evals_is_edge evals_evals))
    as (re & Hre & Hue & _).
  rewrite Hrl. cbn [mbind option_bind]. rewrite Hre. cbn [mbind option_bind].
  eexists. split; [reflexivity |].
  cbn [Analysis.llm_judge_edge_pass_rate Analysis.openai_evals_edge_pass_rate
       Analysis.better_at_edges].
  split; [exact Hul |]. split; [exact Hue |].
  pose proof (Qgt_bool_iff rl re) as Hgt.
  split; [| split].
  - destruct (Qgt_bool rl re); split; intros H; try reflexivity; try discriminate.
    + apply Hgt. reflexivity.
    + apply Hgt in H. discriminate.
  - intros Hnone. rewrite (Hzl Hnone) in *. split; [reflexivity |].
    destruct (Qgt_bool 0 re); [| reflexivity].
    assert (re < 0) by (apply Hgt; reflexivity). destruct Hue. lra.
  - intros Hextra. rewrite List.filter_app.
    assert (Hnil : List.filter Analysis.llm_is_edge extra = []).
    { induction Hextra as [|e rest He _ IH]; [reflexivity |]. cbn [List.filter].
      unfold Analysis.llm_is_edge at 1. rewrite He. exact IH. }
    rewrite Hnil, app_nil_r, Hrl. reflexivity.
Qed.

Lemma edge_case_rates_witness :
  let ok := Judge.mkEvaluation None (Some "question") (Some "synthesis") None None ∅
              (Some 4) (Some true) None in
  let rec := Evals.mkRecord "q" "question" "edge_cases" "2025-03-01T10:00:00" ∅ (1 # 2) false in
  List.filter Analysis.llm_is_edge [ok; Judge.error_record "timeout" "question"] = []
  /\ exists r, Analysis.analyze_edge_cases [ok; Judge.error_record "timeout" "question"] [rec]
               = Some r
       /\ Analysis.better_at_edges r = "openai-evals".
Proof.
  cbv zeta.
  match goal with |- List.filter _ ?l = [] /\ (exists r, Analysis.analyze_edge_cases _ ?e = _ /\ _) =>
    assert (Hnone : List.filter Analysis.llm_is_edge l = []) by reflexivity;
    destruct (edge_case_rates l [] e) as (r & Hr & _ & _ & _ & Hz & _)
  end.
  split; [exact Hnone |]. exists r. split; [exact Hr | exact (proj2 (Hz Hnone))].
Defined.

(** A category that only one result set has is compared against 0 for the
    other: when the judgment set lacks it, the deterministic evaluator is
    named better unless its score is negative; when the deterministic set
    lacks it, the judgment evaluator is named better exactly when its
    average is positive. *)
Theorem category_missing_on_one_side
        (llm_results evals_results : Compare.ResultSummary) (category : string) :
  let llm_categories := Compare.category_breakdown llm_results in
  let evals_categories := Compare.category_breakdown evals_results in
  let table := Compare.compare_by_category llm_results evals_results in
  (llm_categories !! category = None ->
   forall entry, evals_categories !! category = Some entry ->
     exists row, table !! category = Some row
       /\ Compare.llm_judge row = 0
       /\ Compare.openai_evals row = default 0 (Compare.avg_score entry)
       /\ (0 <= default 0 (Compare.avg_score entry) ->
           Compare.better_evaluator row = "openai-evals"))
  /\ (evals_categories !! category = None ->
      forall entry, llm_categories !! category = Some entry ->
        exists row, table !! category = Some row
          /\ Compare.openai_evals row = 0
          /\ Compare.llm_judge row == default 0 (Compare.avg_score entry) / 5
          /\ (Compare.better_evaluator row = "llm-judge"
              <-> 0 < default 0 (Compare.avg_score entry)))
  /\ (llm_categories !! category = None -> evals_categories !! category = None ->
      table !! category = None).
Proof.
  cbv zeta. rewrite compare_by_category_lookup.
  split; [| split].
  - intros Hl entry He.
    rewrite decide_True by (apply elem_of_union; right; apply elem_of_dom; eexists; exact He).
    eexists. split; [reflexivity |]. unfold Compare.compare_category, Compare.get_avg_score.
    rewrite Hl, He.
    cbn [mbind option_bind from_option id Compare.openai_evals Compare.llm_judge
         Compare.better_evaluator].
    change (Compare.normalize 0) with 0.
    split; [reflexivity |]. split; [reflexivity |].
    set (b := from_option id 0 (Compare.avg_score entry)).
    intros Hnn. pose proof (Qgt_bool_iff 0 b) as Hgt.
    destruct (Qgt_bool 0 b); [| reflexivity].
    assert (b < 0) by (apply Hgt; reflexivity). lra.
  - intros He entry Hl.
    rewrite decide_True by (apply elem_of_union; left; apply elem_of_dom; eexists; exact Hl).
    eexists. split; [reflexivity |]. unfold Compare.compare_category, Compare.get_avg_score.
    rewrite Hl, He. cbn [mbind option_bind from_option id Compare.openai_evals
                         Compare.llm_judge Compare.better_evaluator].
    split; [reflexivity |]. split; [apply normalize_spec |].
    set (a := from_option id 0 (Compare.avg_score entry)).
    pose proof (Qgt_bool_iff (Compare.normalize a) 0) as Hgt.
    assert (Hn : Compare.normalize a == a * (1 # 5)).
    { rewrite normalize_spec. unfold Qdiv. reflexivity. }
    destruct (Qgt_bool (Compare.normalize a) 0); split; intros H;
      try reflexivity; try discriminate.
    + assert (0 < Compare.normalize a) by (apply Hgt; reflexivity). lra.
    + assert (0 < Compare.normalize a) by lra. apply Hgt in H0. discriminate.
  - intros Hl He. rewrite decide_False; [reflexivity |].
    intros [H | H]%elem_of_union; apply elem_of_dom in H as [x Hx]; congruence.
Qed.

Lemma category_missing_on_one_side_witness :
  let llm := Compare.mkResults 4 (<["synthesis" := Compare.mkEntry (Some 4)]> ∅) in
  let evals := Compare.mkResults (3 # 4) (<["edge_cases" := Compare.mkEntry (Some (3 # 4))]> ∅) in
  Compare.category_breakdown llm !! "edge_cases" = None
  /\ Compare.category_breakdown evals !! "edge_cases" = Some (Compare.mkEntry (Some (3 # 4)))
  /\ exists row, Compare.compare_by_category llm evals !! "edge_cases" = Some row
       /\ Compare.llm_judge row = 0
       /\ Compare.better_evaluator row = "openai-evals".
Proof.
  cbv zeta.
  match goal with |- ?L /\ ?E /\ _ =>
    assert (Hl : L) by reflexivity; assert (He : E) by reflexivity
  end.
  split; [exact Hl |]. split; [exact He |].
  destruct (proj1 (category_missing_on_one_side _ _ "edge_cases") Hl _ He)
    as (row & Hrow & Hz & _ & Hb).
  exists row. split; [exact Hrow |]. split; [exact Hz |]. apply Hb. discriminate.
Defined.

(** With a judgment average on its 1-5 scale and a deterministic average
    on its 0-1 scale, [compare_overall_scores] names the judgment evaluator
    the winner in every case but one, that of both averages being exactly
    1. *)
Theorem overall_winner_on_native_scales (llm_results evals_results : Compare.ResultSummary) :
  1 <= Compare.overall_average llm_results ->
  Compare.overall_average evals_results <= 1 ->
  let c := Compare.compare_overall_scores llm_results evals_results in
  (Compare.winner c = "openai-evals"
   <-> Compare.overall_average llm_results == 1 /\ Compare.overall_average evals_results == 1)
  /\ (Compare.winner c = "llm-judge" \/ Compare.winner c = "openai-evals").
Proof.
  intros Hl He. cbv zeta. unfold Compare.compare_overall_scores. cbn [Compare.winner].
  set (a := Compare.overall_average llm_results) in *.
  set (b := Compare.overall_average evals_results) in *.
  pose proof (Qgt_bool_iff a b) as Hgt.
  destruct (Qgt_bool a b) eqn:E.
  - assert (b < a) by (apply Hgt; reflexivity). split; [| left; reflexivity].
    split; [discriminate |]. intros [Ha Hb]. lra.
  - assert (Hn : ~ b < a) by (intros H; apply Hgt in H; discriminate).
    split; [| right; reflexivity]. split; [| reflexivity]. intros _.
    apply Qnot_lt_le in Hn. split; lra.
Qed.

Lemma overall_winner_on_native_scales_witness :
  1 <= 1 /\ 1 <= 1
  /\ Compare.winner (Compare.compare_overall_scores (Compare.mkResults 1 ∅)
                       (Compare.mkResults 1 ∅)) = "openai-evals".
Proof.
  assert (H : 1 <= 1) by discriminate.
  split; [exact H |]. split; [exact H |].
  apply (proj1 (overall_winner_on_native_scales (Compare.mkResults 1 ∅)
                  (Compare.mkResults 1 ∅) H H)).
  split; reflexivity.
Defined.

(** ** The recommendations *)

Lemma analyze_consistency_total
      (llm_evals : list Judge.Evaluation) (evals_evals : list Evals.EvaluationRecord) :
  exists r, Analysis.analyze_consistency llm_evals evals_evals = Some r.
Proof.
  unfold Analysis.analyze_consistency. rewrite !calculate_variance_total.
  eexists. reflexivity.
Qed.

Lemma analyze_edge_cases_total
      (llm_evals : list Judge.Evaluation) (evals_evals : list Evals.EvaluationRecord) :
  exists r, Analysis.analyze_edge_cases llm_evals evals_evals = Some r
    /\ (Analysis.better_at_edges r = "llm-judge"
        \/ Analysis.better_at_edges r = "openai-evals").
Proof.
  unfold Analysis.analyze_edge_cases.
  destruct (edge_pass_rate_total Judge.get_pass (List.filter Analysis.llm_is_edge llm_evals))
    as (rl & Hrl & _).
  destruct (edge_pass_rate_total Evals.passed (List.filter Analysis.evals_is_edge evals_evals))
    as (re & Hre & _).
  rewrite Hrl. cbn [mbind option_bind]. rewrite Hre. cbn [mbind option_bind].
  eexists. split; [reflexivity |]. cbn. destruct (Qgt_bool rl re); auto.
Qed.



Section RecommendationFacts.

Variables (format_3f format_1f : Q -> string) (label : string -> string).

(** The recommendations dictionary has one ["reasoning"] entry only: the
    sixteen pairs of the display collapse to nine, the reasoning kept is
    that of the last pair, and neither the variances nor the pass rates
    reach the result; so the report lists every use case, under either
    evaluator, with that one sentence as its reason. *)
Theorem recommendations_keep_last_reasoning
        (llm_results evals_results : Compare.ResultSummary)
        (llm_evals : list Judge.Evaluation) (evals_evals : list Evals.EvaluationRecord) :
  let last := "Deterministic scoring better for tracking metrics over time" in
  exists edges recommendations,
    Analysis.analyze_edge_cases llm_evals evals_evals = Some edges
    /\ Analysis.generate_recommendations format_3f format_1f llm_results evals_results
         llm_evals evals_evals = Some recommendations
    /\ recommendations
       = [ ("factual_accuracy_testing", "openai-evals"); ("reasoning", last);
           ("citation_validation", "openai-evals"); ("nuanced_evaluation", "llm-judge");
           ("regression_testing", "openai-evals");
           ("edge_case_detection", Analysis.better_at_edges edges);
           ("cost_efficiency", "openai-evals"); ("debugging_failures", "llm-judge");
           ("production_monitoring", "openai-evals") ]
    /\ Forall (fun entry => snd entry = last)
              (fst (Analysis.grouped label recommendations)
               ++ snd (Analysis.grouped label recommendations))
    /\ (length (fst (Analysis.grouped label recommendations))
        + length (snd (Analysis.grouped label recommendations)) = 8)%nat.
Proof.
  cbv zeta.
  destruct (analyze_consistency_total llm_evals evals_evals) as (cons & Hcons).
  destruct (analyze_edge_cases_total llm_evals evals_evals) as (edges & Hedges & Hbetter).
  exists edges. eexists. split; [exact Hedges |].
  unfold Analysis.generate_recommendations. rewrite Hcons. cbn [mbind option_bind].
  rewrite Hedges. cbn [mbind option_bind]. split; [reflexivity |]. split; [reflexivity |].
  unfold Analysis.grouped.
  destruct Hbetter as [-> | ->]; cbn; split; try reflexivity; repeat constructor.
Qed.

End RecommendationFacts.

(** ** The batch drivers *)

Lemma evaluate_question_cases (call : AgentCall) (test_q : TestQuestion) :
  if no_content call
  then Runner.evaluate_question call test_q = Raises (no_content_error test_q)
  else exists entry,
      Runner.evaluate_question call test_q = Returns entry
      /\ forall e, outcome call = ChatRaised e ->
                   Runner.agent_response entry = Some ("ERROR: " ++ e)%string
                   /\ Runner.response_time_seconds entry = 0.
Proof.
  unfold no_content, Runner.evaluate_question.
  destruct (outcome call) as [[text|] | e].
  - eexists. split; [reflexivity |]. intros e H. discriminate.
  - unfold Runner.evaluate_reply, no_content_error.
    destruct (truthy _); [reflexivity |]. destruct (_ && _); reflexivity.
  - eexists. split; [reflexivity |]. intros e' [= <-]. split; reflexivity.
Qed.

(** The loop stops at the first call that returned no content. *)
Lemma evaluate_from_cases (i : nat) (env : nat -> AgentCall) (questions : list TestQuestion) :
  match Runner.evaluate_from i env questions with
  | Returns entries =>
      length entries = length questions
      /\ (forall k, (k < length questions)%nat -> no_content (env (i + k)%nat) = false)
      /\ (forall k q, questions !! k = Some q ->
            exists entry, entries !! k = Some entry
              /\ Runner.evaluate_question (env (i + k)%nat) q = Returns entry)
  | Raises e =>
      exists k q, questions !! k = Some q
        /\ no_content (env (i + k)%nat) = true
        /\ (forall j, (j < k)%nat -> no_content (env (i + j)%nat) = false)
        /\ e = no_content_error q
  end.
Proof.
  revert i. induction questions as [|q rest IH]; intros i.
  - cbn [Runner.evaluate_from]. split; [reflexivity |].
    split; [intros k Hk; cbn in Hk; lia | intros k q' H; destruct k; discriminate].
  - cbn [Runner.evaluate_from]. pose proof (evaluate_question_cases (env i) q) as Hq.
    destruct (no_content (env i)) eqn:Enc.
    + rewrite Hq. cbn [mbind outcome_bind]. exists 0%nat, q.
      split; [reflexivity |]. split; [rewrite Nat.add_0_r; exact Enc |].
      split; [intros j Hj; lia | reflexivity].
    + destruct Hq as (entry & Hentry & _). rewrite Hentry. cbn [mbind outcome_bind].
      specialize (IH (S i)). destruct (Runner.evaluate_from (S i) env rest) as [entries | e].
      * cbn [mbind outcome_bind]. destruct IH as (Hlen & Hcontent & Hlook).
        split; [cbn [length]; rewrite Hlen; reflexivity |]. split.
        -- intros [|k] Hk; [rewrite Nat.add_0_r; exact Enc |].
           rewrite <- Nat.add_succ_comm. apply Hcontent. cbn [length] in Hk. lia.
        -- intros [|k] q'; cbn [lookup list_lookup].
           ++ intros [= <-]. exists entry. rewrite Nat.add_0_r. split; [reflexivity | exact Hentry].
           ++ intros Hk. rewrite <- Nat.add_succ_comm. apply Hlook, Hk.
      * cbn [mbind outcome_bind]. destruct IH as (k & q' & Hk & Hnc & Hbefore & ->).
        exists (S k), q'. split; [exact Hk |].
        split; [rewrite <- Nat.add_succ_comm; exact Hnc |].
        split; [| reflexivity].
        intros [|j] Hj; [rewrite Nat.add_0_r; exact Enc |].
        rewrite <- Nat.add_succ_comm. apply Hbefore. lia.
Qed.

(** [run_evaluation] raises in three cases only: building the agent
    raised; the agent returned a value without content, at which the
    graders raise [AttributeError] or [TypeError] and the run ends with
    nothing recorded; or the run is verbose over an empty question list,
    whose closing report finds no key in the empty summary.  Otherwise it
    returns one record per question, in order: the record of the k-th
    question is that of the k-th agent call, an agent exception being
    graded as the text "ERROR: ..." with response time 0; and the summary
    counts the questions actually run, not the [total_questions] key of
    the test set. *)
Theorem run_evaluation_outcomes
        (verbose : bool) (started : string) (total_questions : Z)
        (questions : list TestQuestion) (agent : Construction) (env : nat -> AgentCall) :
  match Runner.run_evaluation verbose started total_questions questions agent env with
  | Raises e =>
      (exists message, agent = ConstructionRaised message /\ e = External message)
      \/ (agent = Constructed
          /\ exists k q, questions !! k = Some q
               /\ no_content (env k) = true
               /\ (forall j, (j < k)%nat -> no_content (env j) = false)
               /\ e = no_content_error q
               /\ (e = AttributeError \/ e = TypeError))
      \/ (agent = Constructed /\ questions = [] /\ verbose = true
          /\ e = KeyError "overall_average")
  | Returns results =>
      agent = Constructed
      /\ (forall k, (k < length questions)%nat -> no_content (env k) = false)
      /\ (verbose = false \/ questions <> [])
      /\ length (Runner.evaluations results) = length questions
      /\ (forall k q, questions !! k = Some q ->
            exists entry, Runner.evaluations results !! k = Some entry
              /\ Runner.evaluate_question (env k) q = Returns entry)
      /\ (forall k q e, questions !! k = Some q -> outcome (env k) = ChatRaised e ->
            exists entry, Runner.evaluations results !! k = Some entry
              /\ Runner.agent_response entry = Some ("ERROR: " ++ e)%string
              /\ Runner.response_time_seconds entry = 0)
      /\ Runner.total_questions results = total_questions
      /\ match Runner.summary results with
         | Evals.EmptyDict => questions = []
         | Evals.SummaryOf s => Evals.total_evaluated s = length questions
         end
  end.
Proof.
  unfold Runner.run_evaluation.
  destruct agent as [| message]; [| left; exists message; split; reflexivity].
  pose proof (evaluate_from_cases 0 env questions) as Hloop. cbn [Nat.add] in Hloop.
  destruct (Runner.evaluate_from 0 env questions) as [entries | e]; cbn [mbind outcome_bind].
  - destruct Hloop as (Hlen & Hcontent & Hlook).
    assert (Hraised : forall k q e, questions !! k = Some q -> outcome (env k) = ChatRaised e ->
                        exists entry, entries !! k = Some entry
                          /\ Runner.agent_response entry = Some ("ERROR: " ++ e)%string
                          /\ Runner.response_time_seconds entry = 0).
    { intros k q e Hq He. destruct (Hlook k q Hq) as (entry & Hentry & Heval).
      exists entry. split; [exact Hentry |].
      pose proof (evaluate_question_cases (env k) q) as Hc.
      unfold no_content in Hc. rewrite He in Hc. destruct Hc as (entry' & Heq & Hprops).
      rewrite Heval in Heq. injection Heq as <-. exact (Hprops e eq_refl). }
    destruct entries as [|r rs].
    + destruct questions as [|q0 rest]; [| discriminate].
      cbn [map Evals._calculate_summary].
      destruct verbose.
      * right. right. repeat split.
      * cbn [Runner.evaluations Runner.total_questions Runner.summary].
        split; [reflexivity |]. split; [exact Hcontent |]. split; [left; reflexivity |].
        split; [reflexivity |]. split; [exact Hlook |]. split; [exact Hraised |].
        split; reflexivity.
    + assert (Hqne : questions <> []) by (intros ->; discriminate).
      cbn [map]. rewrite evals_summary_total.
      assert (Hcount : length (Runner.record r :: map Runner.record rs) = length questions).
      { cbn [length]. rewrite length_map. exact Hlen. }
      assert (Hbody :
                forall results,
                  Runner.evaluations results = r :: rs ->
                  Runner.total_questions results = total_questions ->
                  (exists s, Runner.summary results = Evals.SummaryOf s
                             /\ Evals.total_evaluated s
                                = length (Runner.record r :: map Runner.record rs)) ->
                  Constructed = Constructed
                  /\ (forall k, (k < length questions)%nat -> no_content (env k) = false)
                  /\ (verbose = false \/ questions <> [])
                  /\ length (Runner.evaluations results) = length questions
                  /\ (forall k q, questions !! k = Some q ->
                        exists entry, Runner.evaluations results !! k = Some entry
                          /\ Runner.evaluate_question (env k) q = Returns entry)
                  /\ (forall k q e, questions !! k = Some q ->
                        outcome (env k) = ChatRaised e ->
                        exists entry, Runner.evaluations results !! k = Some entry
                          /\ Runner.agent_response entry = Some ("ERROR: " ++ e)%string
                          /\ Runner.response_time_seconds entry = 0)
                  /\ Runner.total_questions results = total_questions
                  /\ match Runner.summary results with
                     | Evals.EmptyDict => questions = []
                     | Evals.SummaryOf s => Evals.total_evaluated s = length questions
                     end).
      { intros results -> Ht (s & -> & Hs).
        split; [reflexivity |]. split; [exact Hcontent |]. split; [right; exact Hqne |].
        split; [exact Hlen |]. split; [exact Hlook |]. split; [exact Hraised |].
        split; [exact Ht |]. rewrite Hs. exact Hcount. }
      destruct verbose; apply Hbody; try reflexivity; eexists; split; reflexivity.
  - right. left. split; [reflexivity |].
    destruct Hloop as (k & q & Hq & Hnc & Hbefore & ->).
    exists k, q. split; [exact Hq |]. split; [exact Hnc |]. split; [exact Hbefore |].
    split; [reflexivity |]. unfold no_content_error.
    destruct (truthy _); [left; reflexivity |]. destruct (_ && _); [right | left]; reflexivity.
Qed.

Lemma judge_from_length (model : string) (i : nat) (env : nat -> Tests.JudgeCall)
      (questions : list TestQuestion) (responses : list (option string)) :
  length questions = length responses ->
  length (Tests.judge_from model i env questions responses) = length questions.
Proof.
  revert i responses. induction questions as [|q rest IH]; intros i [|r rs] Hlen;
    try discriminate; [reflexivity |].
  cbn [Tests.judge_from length]. rewrite IH; [reflexivity |]. injection Hlen as Hlen. exact Hlen.
Qed.

Lemma judge_from_lookup (model : string) (i : nat) (env : nat -> Tests.JudgeCall)
      (questions : list TestQuestion) (responses : list (option string)) (k : nat)
      (q : TestQuestion) (r : option string) :
  questions !! k = Some q -> responses !! k = Some r ->
  Tests.judge_from model i env questions responses !! k
  = Some (judged model (env (i + k)%nat) q r).
Proof.
  revert i responses k. induction questions as [|q0 rest IH]; intros i [|r0 rs] k;
    try (destruct k; discriminate).
  destruct k as [|k]; cbn [Tests.judge_from].
  - intros [= <-] [= <-]. rewrite Nat.add_0_r. reflexivity.
  - cbn [lookup list_lookup]. intros Hq Hr. rewrite <- Nat.add_succ_comm.
    exact (IH (S i) rs k Hq Hr).
Qed.

(** Every record of the loop is the record of a question and the response
    at its position. *)
Lemma judge_from_In (model : string) (env : nat -> Tests.JudgeCall)
      (questions : list TestQuestion) (responses : list (option string)) (record : Dict) :
  length questions = length responses ->
  In record (Tests.judge_from model 0 env questions responses) ->
  exists k q r, questions !! k = Some q /\ responses !! k = Some r
                /\ record = judged model (env k) q r.
Proof.
  intros Hlen Hin. apply list_elem_of_In, list_elem_of_lookup in Hin as [k Hk].
  assert (Hlt : (k < length questions)%nat).
  { rewrite <- (judge_from_length model 0 env questions responses Hlen).
    eapply lookup_lt_Some. exact Hk. }
  destruct (lookup_lt_is_Some_2 questions k Hlt) as [q Hq].
  destruct (lookup_lt_is_Some_2 responses k ltac:(lia)) as [r Hr].
  exists k, q, r. split; [exact Hq |]. split; [exact Hr |].
  rewrite (judge_from_lookup model 0 env _ _ k q r Hq Hr) in Hk. cbn [Nat.add] in Hk.
  injection Hk as <-. reflexivity.
Qed.

(** The three shapes of the summary of a non-empty batch. *)
Lemma summary_shape (evaluations : list Dict) :
  evaluations <> [] ->
  let valid_evals := List.filter LLMJudge.no_error evaluations in
  (valid_evals = []
   /\ LLMJudge._calculate_summary evaluations
      = Returns (LLMJudge.ErrorDict "All evaluations failed"))
  \/ (valid_evals <> [] /\ forallb well_typed valid_evals = true
      /\ exists s, LLMJudge._calculate_summary evaluations = Returns (LLMJudge.SummaryOf s))
  \/ (valid_evals <> [] /\ forallb well_typed valid_evals = false
      /\ LLMJudge._calculate_summary evaluations = Raises TypeError).
Proof.
  intros Hne. cbv zeta.
  destruct (List.filter LLMJudge.no_error evaluations) as [|v vs] eqn:Ev.
  - left. split; [reflexivity |]. unfold LLMJudge._calculate_summary.
    destruct evaluations; [contradiction |]. rewrite Ev. reflexivity.
  - right.
    assert (Hvalid : List.filter LLMJudge.no_error evaluations <> [])
      by (rewrite Ev; discriminate).
    pose proof (summary_spec evaluations Hvalid) as Hsum. cbv zeta in Hsum.
    rewrite Ev in Hsum. rewrite Hsum.
    destruct (forallb well_typed (v :: vs)); [left | right];
      (split; [discriminate |]); (split; [reflexivity |]); [eexists |]; reflexivity.
Qed.

(** [evaluate_test_set] raises in two cases only: [ValueError] when the
    numbers of questions and of responses differ, before any call of the
    judge; and [TypeError], from the summary, when the judge's reply to
    some question decoded to an object without an error field that cannot
    be read.  Otherwise it returns one evaluation per question, in order
    and under the question's id, each judged on the response at the same
    position, with [total_questions] the number of questions. *)
Theorem evaluate_test_set_outcomes
        (model started : string) (env : nat -> Tests.JudgeCall)
        (test_questions : list TestQuestion) (agent_responses : list (option string)) :
  (forall k q r, test_questions !! k = Some q -> agent_responses !! k = Some r ->
                 scores_float_sized (judged model (env k) q r) = true) ->
  match Tests.evaluate_test_set model started env test_questions agent_responses with
  | Raises e =>
      (length test_questions <> length agent_responses
       /\ e = ValueError "Number of questions must match number of responses")
      \/ (length test_questions = length agent_responses
          /\ e = TypeError
          /\ exists k q r, test_questions !! k = Some q /\ agent_responses !! k = Some r
               /\ failed (judged model (env k) q r) = false
               /\ well_typed (judged model (env k) q r) = false)
  | Returns results =>
      length test_questions = length agent_responses
      /\ Tests.total_questions results = length test_questions
      /\ length (Tests.evaluations results) = length test_questions
      /\ (forall k q r, test_questions !! k = Some q -> agent_responses !! k = Some r ->
            Tests.evaluations results !! k = Some (judged model (env k) q r)
            /\ judged model (env k) q r !! "question_id" = Some (JStr (q_id q))
            /\ (failed (judged model (env k) q r) = false ->
                well_typed (judged model (env k) q r) = true))
  end.
Proof.
  intros _. unfold Tests.evaluate_test_set.
  destruct (Nat.eqb_spec (length test_questions) (length agent_responses)) as [Hlen | Hne];
    cbn [negb]; [| left; split; [exact Hne | reflexivity]].
  set (evaluations := Tests.judge_from model 0 env test_questions agent_responses).
  pose proof (judge_from_length model 0 env _ _ Hlen) as Helen. fold evaluations in Helen.
  assert (Hlook : forall k q r, test_questions !! k = Some q -> agent_responses !! k = Some r ->
                    evaluations !! k = Some (judged model (env k) q r)).
  { intros k q r Hq Hr. exact (judge_from_lookup model 0 env _ _ k q r Hq Hr). }
  assert (Hreturns :
              (forall record, In record evaluations -> failed record = false ->
                              well_typed record = true) ->
              length test_questions = length agent_responses
              /\ length test_questions = length test_questions
              /\ length evaluations = length test_questions
              /\ (forall k q r, test_questions !! k = Some q -> agent_responses !! k = Some r ->
                    evaluations !! k = Some (judged model (env k) q r)
                    /\ judged model (env k) q r !! "question_id" = Some (JStr (q_id q))
                    /\ (failed (judged model (env k) q r) = false ->
                        well_typed (judged model (env k) q r) = true))).
  { intros Htyped. split; [exact Hlen |]. split; [reflexivity |]. split; [exact Helen |].
    intros k q r Hq Hr. split; [exact (Hlook k q r Hq Hr) |].
    split; [unfold judged; apply lookup_insert_eq |].
    apply Htyped. apply list_elem_of_In, list_elem_of_lookup. exists k.
    exact (Hlook k q r Hq Hr). }
  destruct evaluations as [|e0 rest0] eqn:Eevals.
  - cbn [LLMJudge._calculate_summary mbind outcome_bind].
    cbn [Tests.total_questions Tests.evaluations].
    apply Hreturns. intros record [].
  - rewrite <- Eevals in *.
    assert (Hne : evaluations <> []) by (rewrite Eevals; discriminate).
    destruct (summary_shape evaluations Hne) as [[Hnone Hsum] | [(Hsome & Ht & s & Hsum)
                                                               | (Hsome & Ht & Hsum)]];
      rewrite Hsum; cbn [mbind outcome_bind Tests.total_questions Tests.evaluations].
    + apply Hreturns. intros record Hin Hf.
      apply filter_nil_forall in Hnone. rewrite List.Forall_forall in Hnone.
      specialize (Hnone record Hin). unfold failed in Hf. rewrite Hnone in Hf. discriminate.
    + apply Hreturns. intros record Hin Hf.
      rewrite forallb_forall in Ht. apply Ht, filter_In. split; [exact Hin |].
      unfold failed in Hf. destruct (LLMJudge.no_error record); [reflexivity | discriminate].
    + right. split; [exact Hlen |]. split; [reflexivity |].
      apply forallb_false_exists in Ht as (record & Hin & Hw).
      apply filter_In in Hin as [Hin Hno].
      destruct (judge_from_In model env _ _ record Hlen Hin) as (k & q & r & Hq & Hr & ->).
      exists k, q, r. split; [exact Hq |]. split; [exact Hr |].
      split; [unfold failed; rewrite Hno; reflexivity | exact Hw].
Qed.

Lemma evaluate_test_set_outcomes_witness :
  let question :=
    mkQuestion "q1" "What is the target?" "factual_recall" "6,600" None None None in
  let env (_ : nat) :=
    Tests.mkJudgeCall (LLMJudge.Object (<["compliance" := JNum 4]> ∅))
      "2025-03-01T10:00:00" in
  (forall k q r, [question] !! k = Some q -> [Some "The target is 6,600"] !! k = Some r ->
                 scores_float_sized (judged "gpt-4-turbo-preview" (env k) q r) = true)
  /\ Tests.evaluate_test_set "gpt-4-turbo-preview" "2025-03-01T09:59:00" env [question]
       [Some "The target is 6,600"]
     = Raises TypeError.
Proof.
  cbv zeta.
  match goal with
  | |- (forall k q r, ?qs !! k = Some q -> ?rs !! k = Some r ->
                      scores_float_sized (judged ?model (?env k) q r) = true) /\ _ =>
      assert (Hsized : forall k q r, qs !! k = Some q -> rs !! k = Some r ->
                         scores_float_sized (judged model (env k) q r) = true);
      [ intros [|k] q r Hq Hr; [| destruct k; discriminate];
        injection Hq as <-; injection Hr as <-; vm_compute; reflexivity
      | pose proof (evaluate_test_set_outcomes model "2025-03-01T09:59:00" env qs rs Hsized)
          as H ]
  end.
  split; [exact Hsized |].
  destruct (Tests.evaluate_test_set _ _ _ _ _) as [results | e] eqn:E.
  - exfalso. destruct H as (_ & _ & _ & H).
    destruct (H 0%nat _ _ eq_refl eq_refl) as (_ & _ & Hw).
    assert (Hf : failed (judged "gpt-4-turbo-preview"
                           (Tests.mkJudgeCall (LLMJudge.Object (<["compliance" := JNum 4]> ∅))
                              "2025-03-01T10:00:00")
                           (mkQuestion "q1" "What is the target?" "factual_recall" "6,600"
                              None None None)
                           (Some "The target is 6,600")) = false) by (vm_compute; reflexivity).
    specialize (Hw Hf). vm_compute in Hw. discriminate.
  - destruct H as [[Hlen _] | (_ & -> & _)]; [exfalso; apply Hlen; reflexivity | reflexivity].
Defined.

Lemma run_agent_from_lookup (i : nat) (env : nat -> AgentCall) (questions : list TestQuestion)
      (k : nat) :
  Tests.run_agent_from i env questions !! k = Tests.respond (env (i + k)%nat) <$> questions !! k.
Proof.
  revert i k. induction questions as [|q rest IH]; intros i k; [reflexivity |].
  destruct k as [|k]; cbn [Tests.run_agent_from].
  - rewrite Nat.add_0_r. reflexivity.
  - cbn [lookup list_lookup]. change (rest !! k) with (lookup k rest).
    rewrite <- Nat.add_succ_comm. apply IH.
Qed.

Lemma run_agent_from_length (i : nat) (env : nat -> AgentCall) (questions : list TestQuestion) :
  length (Tests.run_agent_from i env questions) = length questions.
Proof.
  revert i. induction questions as [|q rest IH]; intros i; [reflexivity |].
  cbn [Tests.run_agent_from length]. rewrite IH. reflexivity.
Qed.

Lemma respond_transcript (call : AgentCall) (q : TestQuestion) :
  Tests.r_agent_response (Tests.respond call q) = transcript call.
Proof. unfold Tests.respond, transcript. destruct (outcome call); reflexivity. Qed.

Lemma merge_lookup (evaluations : list Dict) (responses : list Tests.ResponseData) :
  length evaluations = length responses ->
  exists merged,
    Tests.merge evaluations responses = Returns merged
    /\ length merged = length evaluations
    /\ forall k e r, evaluations !! k = Some e -> responses !! k = Some r ->
         merged !! k = Some (Tests.merge_into e r).
Proof.
  revert responses. induction evaluations as [|e0 rest IH]; intros [|r0 rs] Hlen;
    try discriminate.
  - exists []. split; [reflexivity |]. split; [reflexivity |].
    intros k e r H. destruct k; discriminate.
  - injection Hlen as Hlen. destruct (IH rs Hlen) as (merged & Hm & Hl & Hk).
    cbn [Tests.merge]. rewrite Hm. cbn [mbind outcome_bind]. eexists. split; [reflexivity |].
    split; [cbn [length]; rewrite Hl; reflexivity |].
    intros [|k] e r; cbn [lookup list_lookup].
    + intros [= <-] [= <-]. reflexivity.
    + apply Hk.
Qed.

(** [run_full_evaluation], up to the saving of the results, raises in five
    cases only: building the agent raised; the question list is empty
    ([ValueError]); building the judge raised; the judge's reply to some
    question decoded to an object without an error field that the summary
    cannot read ([TypeError]); and, on a verbose run, every call of the
    judge ended in a record with an error field ([KeyError], because the
    closing report reads statistics the all-failed summary does not have).
    It never fails on mismatched lengths or indices, nor on an agent that
    raised or returned no content.  Otherwise it returns one evaluation
    per question, in order: the judge's record for the agent's answer to
    that question, together with the agent's response time and error. *)
Theorem run_full_evaluation_outcomes
        (verbose : bool) (started : string) (agent judge : Construction)
        (agent_env : nat -> AgentCall) (judge_env : nat -> Tests.JudgeCall)
        (questions : list TestQuestion) :
  let record k q := judged_answer (agent_env k) (judge_env k) q in
  let all_failed := forall k q, questions !! k = Some q -> failed (record k q) = true in
  (forall k q, questions !! k = Some q -> scores_float_sized (record k q) = true) ->
  match Tests.run_full_evaluation verbose started agent judge agent_env judge_env questions
  with
  | Raises e =>
      (exists message, agent = ConstructionRaised message /\ e = External message)
      \/ (agent = Constructed /\ questions = []
          /\ e = ValueError "No agent responses to evaluate. Run run_agent_on_tests() first.")
      \/ (agent = Constructed /\ questions <> []
          /\ exists message, judge = ConstructionRaised message /\ e = External message)
      \/ (agent = Constructed /\ judge = Constructed /\ e = TypeError
          /\ exists k q, questions !! k = Some q
               /\ failed (record k q) = false /\ well_typed (record k q) = false)
      \/ (agent = Constructed /\ judge = Constructed /\ questions <> []
          /\ verbose = true /\ all_failed /\ e = KeyError "overall_average")
  | Returns results =>
      agent = Constructed /\ judge = Constructed /\ questions <> []
      /\ (verbose = false \/ ~ all_failed)
      /\ Tests.total_questions results = length questions
      /\ length (Tests.evaluations results) = length questions
      /\ (forall k q, questions !! k = Some q ->
            Tests.evaluations results !! k = Some (full_entry (agent_env k) (judge_env k) q)
            /\ (failed (record k q) = false -> well_typed (record k q) = true))
      /\ (all_failed <-> exists message, Tests.summary results = LLMJudge.ErrorDict message)
  end.
Proof.
  cbv zeta. intros _. unfold Tests.run_full_evaluation, Tests.run_agent_on_tests.
  destruct agent as [| message]; [| left; exists message; split; reflexivity].
  cbn [mbind outcome_bind]. unfold Tests.evaluate_with_llm_judge.
  destruct questions as [|q0 rest]; [right; left; repeat split |].
  remember (q0 :: rest) as questions eqn:Eq.
  set (responses := Tests.run_agent_from 0 agent_env questions).
  pose proof (run_agent_from_length 0 agent_env questions) as Hrlen. fold responses in Hrlen.
  assert (Hqne : questions <> []) by (rewrite Eq; discriminate).
  assert (Htruthy : truthy responses = true).
  { destruct responses; [rewrite Eq in Hrlen; discriminate | reflexivity]. }
  rewrite Htruthy. cbn [negb].
  destruct judge as [| message];
    [| right; right; left; split; [reflexivity |]; split; [exact Hqne |];
       exists message; split; reflexivity].
  assert (Hlen : length questions = length (map Tests.r_agent_response responses)).
  { rewrite length_map, Hrlen. reflexivity. }
  unfold Tests.evaluate_test_set.
  rewrite (proj2 (Nat.eqb_eq _ _) Hlen). cbn [negb].
  set (evaluations := Tests.judge_from "gpt-4-turbo-preview" 0 judge_env questions
                        (map Tests.r_agent_response responses)).
  pose proof (judge_from_length "gpt-4-turbo-preview" 0 judge_env _ _ Hlen) as Helen.
  fold evaluations in Helen.
  assert (Hresp : forall k q, questions !! k = Some q ->
                    responses !! k = Some (Tests.respond (agent_env k) q)).
  { intros k q Hq. unfold responses. rewrite run_agent_from_lookup, Hq. reflexivity. }
  assert (Hevals : forall k q, questions !! k = Some q ->
                     evaluations !! k = Some (judged_answer (agent_env k) (judge_env k) q)).
  { intros k q Hq. unfold judged_answer. rewrite <- (respond_transcript (agent_env k) q).
    apply (judge_from_lookup _ 0 judge_env _ _ k); [exact Hq |].
    rewrite list_lookup_fmap, (Hresp k q Hq). reflexivity. }
  assert (Hrecord : forall record, In record evaluations ->
                      exists k q, questions !! k = Some q
                        /\ record = judged_answer (agent_env k) (judge_env k) q).
  { intros record Hin. apply list_elem_of_In, list_elem_of_lookup in Hin as [k Hk].
    assert (Hlt : (k < length questions)%nat).
    { rewrite <- Helen. eapply lookup_lt_Some. exact Hk. }
    destruct (lookup_lt_is_Some_2 questions k Hlt) as [q Hq].
    exists k, q. split; [exact Hq |]. rewrite (Hevals k q Hq) in Hk. injection Hk as <-.
    reflexivity. }
  assert (Hmne : evaluations <> []).
  { intros H. apply (f_equal length) in H. rewrite Helen, Eq in H. discriminate. }
  destruct (merge_lookup evaluations responses) as (merged & Hmerge & Hmlen & Hmk).
  { rewrite Helen, Hrlen. reflexivity. }
  assert (Hentries : forall k q, questions !! k = Some q ->
                       merged !! k = Some (full_entry (agent_env k) (judge_env k) q)).
  { intros k q Hq. rewrite (Hmk k _ _ (Hevals k q Hq) (Hresp k q Hq)). reflexivity. }
  assert (Hnone_iff : List.filter LLMJudge.no_error evaluations = []
                      <-> (forall k q, questions !! k = Some q ->
                             failed (judged_answer (agent_env k) (judge_env k) q) = true)).
  { split.
    - intros Hnone k q Hq. apply filter_nil_forall in Hnone.
      rewrite List.Forall_forall in Hnone. unfold failed. rewrite Hnone; [reflexivity |].
      apply list_elem_of_In, list_elem_of_lookup. exists k. exact (Hevals k q Hq).
    - intros Hall. destruct (List.filter LLMJudge.no_error evaluations) as [|v vs] eqn:Ev;
        [reflexivity |].
      assert (Hv : In v (List.filter LLMJudge.no_error evaluations))
        by (rewrite Ev; left; reflexivity).
      apply filter_In in Hv as [Hin Hno].
      destruct (Hrecord v Hin) as (k & q & Hq & ->).
      specialize (Hall k q Hq). unfold failed in Hall. rewrite Hno in Hall. discriminate. }
  destruct (summary_shape evaluations Hmne) as [[Hnone Hsum] | [(Hsome & Ht & s & Hsum)
                                                              | (Hsome & Ht & Hsum)]];
    rewrite Hsum; cbn [mbind outcome_bind Tests.evaluations Tests.summary].
  - rewrite Hmerge. cbn [mbind outcome_bind].
    pose proof (proj1 Hnone_iff Hnone) as Hfailed.
    destruct verbose.
    + right. right. right. right. repeat split; [exact Hqne | exact Hfailed].
    + cbn [Tests.total_questions Tests.evaluations Tests.summary].
      split; [reflexivity |]. split; [reflexivity |]. split; [exact Hqne |].
      split; [left; reflexivity |]. split; [reflexivity |].
      split; [rewrite Hmlen; exact Helen |]. split.
      * intros k q Hq. split; [exact (Hentries k q Hq) |]. intros Hf.
        rewrite (Hfailed k q Hq) in Hf. discriminate.
      * split; [intros _; eexists; reflexivity | intros _; exact Hfailed].
  - rewrite Hmerge. cbn [mbind outcome_bind].
    assert (Hnot : ~ (forall k q, questions !! k = Some q ->
                        failed (judged_answer (agent_env k) (judge_env k) q) = true)).
    { intros H. apply Hsome, Hnone_iff, H. }
    assert (Hgoal :
              forall results,
                Tests.total_questions results = length questions ->
                Tests.evaluations results = merged ->
                Tests.summary results = LLMJudge.SummaryOf s ->
                Constructed = Constructed /\ Constructed = Constructed /\ questions <> []
                /\ (verbose = false
                    \/ ~ (forall k q, questions !! k = Some q ->
                            failed (judged_answer (agent_env k) (judge_env k) q) = true))
                /\ Tests.total_questions results = length questions
                /\ length (Tests.evaluations results) = length questions
                /\ (forall k q, questions !! k = Some q ->
                      Tests.evaluations results !! k
                      = Some (full_entry (agent_env k) (judge_env k) q)
                      /\ (failed (judged_answer (agent_env k) (judge_env k) q) = false ->
                          well_typed (judged_answer (agent_env k) (judge_env k) q) = true))
                /\ ((forall k q, questions !! k = Some q ->
                       failed (judged_answer (agent_env k) (judge_env k) q) = true)
                    <-> exists message, Tests.summary results = LLMJudge.ErrorDict message)).
    { intros results Htq -> Hs.
      split; [reflexivity |]. split; [reflexivity |]. split; [exact Hqne |].
      split; [right; exact Hnot |]. split; [exact Htq |].
      split; [rewrite Hmlen; exact Helen |]. split.
      - intros k q Hq. split; [exact (Hentries k q Hq) |]. intros Hf.
        rewrite forallb_forall in Ht. apply Ht, filter_In. split.
        + apply list_elem_of_In, list_elem_of_lookup. exists k. exact (Hevals k q Hq).
        + unfold failed in Hf. destruct (LLMJudge.no_error _); [reflexivity | discriminate].
      - rewrite Hs. split; [intros H; contradiction | intros [m Hm]; discriminate]. }
    destruct verbose; apply Hgoal; reflexivity.
  - right. right. right. left. split; [reflexivity |]. split; [reflexivity |].
    split; [reflexivity |].
    apply forallb_false_exists in Ht as (record & Hin & Hw).
    apply filter_In in Hin as [Hin Hno].
    destruct (Hrecord record Hin) as (k & q & Hq & ->).
    exists k, q. split; [exact Hq |].
    split; [unfold failed; rewrite Hno; reflexivity | exact Hw].
Qed.

(** An agent that returned no content and a judge whose reply cannot be
    decoded: the run returns, silently. *)
Lemma run_full_evaluation_outcomes_witness :
  let question :=
    mkQuestion "q1" "What is the target?" "factual_recall" "6,600" None None None in
  let agent_env (_ : nat) := mkCall (Replied None) (3 # 2) "2025-03-01T10:00:00" in
  let judge_env (_ : nat) :=
    Tests.mkJudgeCall (LLMJudge.Unparsable "Expecting value") "2025-03-01T10:00:05" in
  (forall k q, [question] !! k = Some q ->
               scores_float_sized (judged_answer (agent_env k) (judge_env k) q) = true)
  /\ exists results,
       Tests.run_full_evaluation false "2025-03-01T09:59:00" Constructed Constructed
         agent_env judge_env [question] = Returns results
       /\ length (Tests.evaluations results) = 1%nat
       /\ exists message, Tests.summary results = LLMJudge.ErrorDict message.
Proof.
  cbv zeta.
  match goal with
  | |- (forall k q, ?qs !! k = Some q ->
                    scores_float_sized (judged_answer (?aenv k) (?jenv k) q) = true) /\ _ =>
      assert (Hsized : forall k q, qs !! k = Some q ->
                         scores_float_sized (judged_answer (aenv k) (jenv k) q) = true);
      [ intros [|k] q Hq; [| destruct k; discriminate];
        injection Hq as <-; vm_compute; reflexivity
      | pose proof (run_full_evaluation_outcomes false "2025-03-01T09:59:00"
                      Constructed Constructed aenv jenv qs Hsized) as H ]
  end.
  split; [exact Hsized |]. cbv zeta in H.
  destruct (Tests.run_full_evaluation _ _ _ _ _ _ _) as [results | e] eqn:E.
  - exists results. split; [reflexivity |].
    destruct H as (_ & _ & _ & _ & _ & Hlen & _ & Hall).
    split; [exact Hlen |]. apply Hall.
    intros [|k] q Hq; [| destruct k; discriminate]. injection Hq as <-.
    vm_compute. reflexivity.
  - exfalso. vm_compute in E. discriminate.
Defined.

(** ** Output paths *)

Lemma startswith_length (p s : string) :
  PyStr.startswith p s = true -> (String.length p <= String.length s)%nat.
Proof.
  revert s. induction p as [|a p IH]; intros s; cbn [String.length]; [lia |].
  destruct s as [|b s]; cbn [PyStr.startswith String.length]; [discriminate |].
  intros [_ H]%andb_true_iff. specialize (IH s H). lia.
Qed.

Lemma string_length_app (a b : string) :
  String.length (a ++ b) = (String.length a + String.length b)%nat.
Proof.
  induction a as [|c a IH]; [reflexivity |]. rewrite append_cons. cbn [String.length].
  rewrite IH. reflexivity.
Qed.

Lemma replace_from_length (old new s : string) (skip : nat) :
  old <> EmptyString -> (skip <= String.length s)%nat ->
  (String.length (Cli.replace_from skip old new s) + skip
   + occurrences_from skip old s * String.length old
   = String.length s + occurrences_from skip old s * String.length new)%nat.
Proof.
  intros Hold. revert skip. induction s as [|c s IH]; intros skip Hskip.
  - cbn [String.length] in Hskip. assert (skip = O) by lia. subst. reflexivity.
  - cbn [Cli.replace_from occurrences_from String.length] in *. destruct skip as [|k].
    + destruct (PyStr.startswith old (String c s)) eqn:E.
      * apply startswith_length in E. cbn [String.length] in E.
        assert (Hlen : (1 <= String.length old)%nat).
        { destruct old; [contradiction | cbn [String.length]; lia]. }
        specialize (IH (Nat.pred (String.length old)) ltac:(lia)).
        rewrite string_length_app. lia.
      * specialize (IH O ltac:(lia)). cbn [String.length]. lia.
    + specialize (IH k ltac:(lia)). lia.
Qed.

Lemma no_occurrence (old new s : string) :
  PyStr.contains old s = false ->
  Cli.replace_from O old new s = s /\ occurrences_from O old s = O.
Proof.
  induction s as [|c s IH]; [split; reflexivity |].
  rewrite contains_unfold. intros [Hs Hc]%orb_false_iff.
  cbn [Cli.replace_from occurrences_from]. rewrite Hs.
  destruct (IH Hc) as [-> ->]. split; reflexivity.
Qed.

Lemma some_occurrence (old s : string) :
  old <> EmptyString ->
  PyStr.contains old s = true -> (1 <= occurrences_from O old s)%nat.
Proof.
  intros Hold. induction s as [|c s IH]; rewrite contains_unfold.
  - destruct old; [contradiction | discriminate].
  - cbn [occurrences_from]. destruct (PyStr.startswith old (String c s)); [lia |].
    cbn [orb]. exact IH.
Qed.

Lemma replaced_paths_differ (out : string) :
  PyStr.contains ".json" out = true ->
  Cli.replace ".json" "_llm_judge.json" out <> Cli.replace ".json" "_openai_evals.json" out.
Proof.
  intros Hc Heq.
  assert (Hold : ".json" <> EmptyString) by discriminate.
  apply (some_occurrence _ _ Hold) in Hc.
  pose proof (replace_from_length ".json" "_llm_judge.json" out O Hold (Nat.le_0_l _)) as H1.
  pose proof (replace_from_length ".json" "_openai_evals.json" out O Hold (Nat.le_0_l _)) as H2.
  unfold Cli.replace in Heq. rewrite Heq in H1.
  change (String.length ".json") with 5%nat in *.
  change (String.length "_llm_judge.json") with 15%nat in *.
  change (String.length "_openai_evals.json") with 18%nat in *.
  lia.
Qed.

(** When both evaluators run with a custom [--output], the two result
    files are told apart only through the text ".json" in the path.  If the
    path contains it, the judge's and the deterministic evaluator's results
    go to two different files; if it does not, both are saved to the path as
    given, so the deterministic results, saved second, replace the
    judge's. *)
Theorem custom_output_paths (args : Cli.Args) (out : string) :
  runs_both args -> Cli.output args = Some out -> out <> EmptyString ->
  exists llm_output evals_output,
    Cli.planned_outputs args
      = [("llm-judge", llm_output); ("openai-evals", evals_output)]
    /\ (llm_output = evals_output <-> PyStr.contains ".json" out = false)
    /\ (PyStr.contains ".json" out = false -> evals_output = out).
Proof.
  intros Hboth Hout Hne.
  exists (Cli.replace ".json" "_llm_judge.json" out),
         (Cli.replace ".json" "_openai_evals.json" out).
  split; [| split].
  - unfold Cli.planned_outputs. rewrite Hout.
    destruct out as [|c rest]; [contradiction |].
    destruct Hboth as [-> | ->]; [reflexivity |].
    destruct (Cli.compare args); reflexivity.
  - split.
    + intros Heq. destruct (PyStr.contains ".json" out) eqn:E; [| reflexivity].
      exfalso. exact (replaced_paths_differ out E Heq).
    + intros Hc. unfold Cli.replace.
      destruct (no_occurrence ".json" "_llm_judge.json" out Hc) as [-> _].
      destruct (no_occurrence ".json" "_openai_evals.json" out Hc) as [-> _].
      reflexivity.
  - intros Hc. unfold Cli.replace.
    destruct (no_occurrence ".json" "_openai_evals.json" out Hc) as [-> _].
    reflexivity.
Qed.

Lemma custom_output_paths_witness :
  exists llm_output evals_output,
    Cli.planned_outputs (Cli.mkArgs "llm-judge" (Some "results/custom") true)
      = [("llm-judge", llm_output); ("openai-evals", evals_output)]
    /\ (llm_output = evals_output <-> PyStr.contains ".json" "results/custom" = false)
    /\ (PyStr.contains ".json" "results/custom" = false -> evals_output = "results/custom").
Proof.
  apply (custom_output_paths (Cli.mkArgs "llm-judge" (Some "results/custom") true)
           "results/custom").
  - left. reflexivity.
  - reflexivity.
  - discriminate.
Defined.
